(** * jamesbot: reconciliation and analytics engine

    A shallow embedding of the parts of the repository that parse the bot's
    log text, normalise the broker ledger, match the two streams and derive
    performance statistics:

    - [live_trading_performance_analyzer.py]  (module [Live]),
    - [historical_performance_analyzer.py]    (module [Historical]),
    - [comprehensive_trading_analysis.py]     (module [Comprehensive]),
    - [confidence_vs_winrate_analysis.py]     (module [ConfidenceWinRate]).

    Conventions of the embedding.

    - Python [str] values are [string]s holding the UTF-8 bytes of the text.
      Substring tests ([x in line]) are byte-wise, which agrees with the
      code-point test because UTF-8 is self-synchronising.  The character
      classes [\d] and [\w] are the ASCII ones.
    - Python [float] values are exact rationals ([Q]); rounding is not
      modelled.  Division by zero raises [ZeroDivisionError] as in Python,
      [float('inf')] and [nan] are explicit constructors where the code can
      produce them.
    - A [datetime] is a count of microseconds since 0001-01-01T00:00:00
      together with the flag that tells offset-aware from naive values;
      subtracting a naive from an aware value raises [TypeError].
    - [datetime.now()] is the parameter [now] of the function that reads
      the clock.
    - Code that can raise returns a [result]; a [try/except] around a loop
      body becomes a [match] on that result. *)

From Stdlib Require Import ZArith QArith Qabs List String Ascii Bool Lia.
From Stdlib Require Import Sorted Lqa.
Import ListNotations.

Set Implicit Arguments.

(** ** Exceptions *)

Inductive exn : Type :=
| ZeroDivisionError
| TypeError
| ValueError
| IndexError.

Inductive result (A : Type) : Type :=
| Return (a : A)
| Raise (e : exn).

Arguments Return {A} a.
Arguments Raise {A} e.

Definition bind {A B : Type} (m : result A) (k : A -> result B) : result B :=
  match m with
  | Return a => k a
  | Raise e => Raise e
  end.

Notation "x <- m ;; k" := (bind m (fun x => k))
  (at level 61, m at next level, right associativity).

(** ** Numbers *)

(** [a > b] on floats. *)
Definition Qgtb (a b : Q) : bool := negb (Qle_bool a b).

(** [a < b] on floats. *)
Definition Qltb (a b : Q) : bool := negb (Qle_bool b a).

(** [a / b]: Python raises on a zero divisor. *)
Definition py_div (a b : Q) : result Q :=
  if Qeq_bool b 0 then Raise ZeroDivisionError else Return (a / b).

(** [float('inf')] is the only non-finite value the statistics produce. *)
Inductive pyfloat : Type :=
| Fin (q : Q)
| Inf.

(** [sum(xs)] *)
Definition Qsum (xs : list Q) : Q := fold_left Qplus xs 0.

(** [statistics.mean(xs)] and the [mean()] of a column, for non-empty [xs]. *)
Definition Qmean (xs : list Q) : Q :=
  Qsum xs / inject_Z (Z.of_nat (List.length xs)).

(** [d.get(key, default)] for a key that may be absent. *)
Definition dget {A : Type} (o : option A) (default : A) : A :=
  match o with Some v => v | None => default end.

(** ** Dates and times *)

Module PyTime.

Record datetime : Type := mkDatetime {
  dt_aware : bool;
  dt_us : Z
}.

(** A [timedelta], in microseconds. *)
Definition timedelta : Type := Z.

(** [a - b] *)
Definition dt_sub (a b : datetime) : result timedelta :=
  if Bool.eqb (dt_aware a) (dt_aware b)
  then Return (dt_us a - dt_us b)%Z
  else Raise TypeError.

(** [d.total_seconds()] *)
Definition total_seconds (d : timedelta) : Q := d # 1000000.

Definition is_leap (y : Z) : bool :=
  ((y mod 4 =? 0) && (negb (y mod 100 =? 0) || (y mod 400 =? 0)))%Z%bool.

Definition days_in_month (y m : Z) : Z :=
  if (m =? 2)%Z then (if is_leap y then 29 else 28)
  else if ((m =? 4) || (m =? 6) || (m =? 9) || (m =? 11))%Z%bool then 30
  else 31.

Definition days_before_year (y : Z) : Z :=
  let p := (y - 1)%Z in (p * 365 + p / 4 - p / 100 + p / 400)%Z.

Fixpoint days_before_month_aux (y : Z) (m : nat) : Z :=
  match m with
  | O => 0
  | S k => (days_before_month_aux y k + days_in_month y (Z.of_nat (S k)))%Z
  end.

(** Days in the year [y] before the first of month [m]. *)
Definition days_before_month (y m : Z) : Z :=
  days_before_month_aux y (Z.to_nat (m - 1)).

(** The fields [datetime(y, mo, d, h, mi, s)] accepts. *)
Definition valid_fields (y mo d h mi s : Z) : bool :=
  ((1 <=? y) && (y <=? 9999) && (1 <=? mo) && (mo <=? 12)
   && (1 <=? d) && (d <=? days_in_month y mo)
   && (0 <=? h) && (h <=? 23) && (0 <=? mi) && (mi <=? 59)
   && (0 <=? s) && (s <=? 59))%Z%bool.

(** The naive [datetime(y, mo, d, h, mi, s)]; [ValueError] on a field out
    of range. *)
Definition make_datetime (y mo d h mi s : Z) : result datetime :=
  if valid_fields y mo d h mi s then
    let days := (days_before_year y + days_before_month y mo + (d - 1))%Z in
    Return (mkDatetime false
              ((((days * 24 + h) * 60 + mi) * 60 + s) * 1000000)%Z)
  else Raise ValueError.

End PyTime.

(** ** Strings *)

Module PyStr.

Local Open Scope string_scope.

(** [s.startswith(p)] *)
Fixpoint starts_with (p s : string) : bool :=
  match p with
  | EmptyString => true
  | String a p' =>
      match s with
      | EmptyString => false
      | String b s' => Ascii.eqb a b && starts_with p' s'
      end
  end.

(** [p in s] *)
Fixpoint contains (p s : string) : bool :=
  starts_with p s ||
  match s with
  | EmptyString => false
  | String _ s' => contains p s'
  end.

(** [s] without its first [n] bytes. *)
Fixpoint drop (n : nat) (s : string) : string :=
  match n with
  | O => s
  | S k => match s with
           | EmptyString => EmptyString
           | String _ s' => drop k s'
           end
  end.

(** [s.replace(a, b)] for one-character [a] and [b]. *)
Fixpoint replace_char (a b : ascii) (s : string) : string :=
  match s with
  | EmptyString => EmptyString
  | String c s' =>
      String (if Ascii.eqb c a then b else c) (replace_char a b s')
  end.

(** [s.split('\n')] *)
Fixpoint split_lines_aux (cur : string) (s : string) : list string :=
  match s with
  | EmptyString => [cur]
  | String c s' =>
      if Ascii.eqb c "010"%char
      then cur :: split_lines_aux EmptyString s'
      else split_lines_aux (cur ++ String c EmptyString) s'
  end.

Definition split_lines (s : string) : list string :=
  split_lines_aux EmptyString s.

(** The text ['\n']. *)
Definition newline : string := String "010" "".

Definition is_digit (c : ascii) : bool :=
  let n := nat_of_ascii c in (48 <=? n)%nat && (n <=? 57)%nat.

Definition is_word (c : ascii) : bool :=
  let n := nat_of_ascii c in
  is_digit c
  || ((65 <=? n)%nat && (n <=? 90)%nat)
  || ((97 <=? n)%nat && (n <=? 122)%nat)
  || (n =? 95)%nat.

(** The longest prefix of [s] whose characters satisfy [f], and the rest:
    what a greedy [[...]*] consumes. *)
Fixpoint span (f : ascii -> bool) (s : string) : string * string :=
  match s with
  | EmptyString => (EmptyString, EmptyString)
  | String c s' =>
      if f c then let '(r, t) := span f s' in (String c r, t)
      else (EmptyString, s)
  end.

Definition digit_val (c : ascii) : Z := Z.of_nat (nat_of_ascii c - 48).

(** [int(s)] for a string of ASCII digits. *)
Fixpoint int_of_digits_aux (acc : Z) (s : string) : Z :=
  match s with
  | EmptyString => acc
  | String c s' => int_of_digits_aux (acc * 10 + digit_val c)%Z s'
  end.

Definition int_of_digits (s : string) : Z := int_of_digits_aux 0 s.

End PyStr.

(** ** Regular expressions

    Every pattern of the analyzers is a sequence of literals, single
    characters of a class and greedy [+] repetitions of a class, where the
    text after a repetition never starts with a character of its class.  For
    such patterns Python's backtracking matcher and the greedy matcher below
    agree. *)

Module Re.

Import PyStr.
Local Open Scope string_scope.

Inductive atom : Type :=
| Lit (l : string)
| One (f : ascii -> bool)
| Plus (f : ascii -> bool).

Definition pattern : Type := list atom.

(** The texts matched by the atoms of [p] at the start of [s]. *)
Fixpoint match_here (p : pattern) (s : string) : option (list string) :=
  match p with
  | [] => Some []
  | Lit l :: p' =>
      if starts_with l s
      then option_map (cons l) (match_here p' (drop (String.length l) s))
      else None
  | One f :: p' =>
      match s with
      | String c s' =>
          if f c
          then option_map (cons (String c EmptyString)) (match_here p' s')
          else None
      | EmptyString => None
      end
  | Plus f :: p' =>
      let '(run, rest) := span f s in
      match run with
      | EmptyString => None
      | _ => option_map (cons run) (match_here p' rest)
      end
  end.

(** [re.search(p, s)]: the leftmost match. *)
Fixpoint search (p : pattern) (s : string) : option (list string) :=
  match match_here p s with
  | Some g => Some g
  | None =>
      match s with
      | EmptyString => None
      | String _ s' => search p s'
      end
  end.

Definition not_newline (c : ascii) : bool := negb (Ascii.eqb c "010"%char).
Definition digit_or_dot (c : ascii) : bool := is_digit c || Ascii.eqb c "."%char.
Definition digit_or_comma (c : ascii) : bool := is_digit c || Ascii.eqb c ","%char.

(** [(\d{4}-\d{2}-\d{2} \d{2}:\d{2}:\d{2})] *)
Definition timestamp_re : pattern :=
  [One is_digit; One is_digit; One is_digit; One is_digit; Lit "-";
   One is_digit; One is_digit; Lit "-"; One is_digit; One is_digit; Lit " ";
   One is_digit; One is_digit; Lit ":"; One is_digit; One is_digit; Lit ":";
   One is_digit; One is_digit].

(** [(\w+/\w+) (\w+)] *)
Definition pair_signal_re : pattern :=
  [Plus is_word; Lit "/"; Plus is_word; Lit " "; Plus is_word].

(** [label ([\d.]+)], for [Entry: ], [Stop Loss: ], [Take Profit: ] and
    [Risk/Reward: ]. *)
Definition decimal_field_re (label : string) : pattern :=
  [Lit label; Plus digit_or_dot].

(** [Position Size: ([\d,]+)] *)
Definition position_size_re : pattern :=
  [Lit "Position Size: "; Plus digit_or_comma].

(** [Signal rejected: (.+)] *)
Definition rejected_re : pattern :=
  [Lit "Signal rejected: "; Plus not_newline].

(** [Confidence: (\d+)%] *)
Definition confidence_re : pattern :=
  [Lit "Confidence: "; Plus is_digit; Lit "%"].

(** [Signal found for (\w+/\w+):] *)
Definition signal_pair_re : pattern :=
  [Lit "Signal found for "; Plus is_word; Lit "/"; Plus is_word; Lit ":"].

(** [: (\w+) \(] *)
Definition signal_type_re : pattern :=
  [Lit ": "; Plus is_word; Lit " ("].

(** The text of the [n]-th atom of a match. *)
Definition part (n : nat) (g : list string) : string := nth n g "".

End Re.

(** ** Numeric literals *)

Module PyNum.

Import PyStr.
Local Open Scope string_scope.

Definition all_digits (s : string) : bool :=
  match span is_digit s with
  | (_, EmptyString) => true
  | _ => false
  end.

(** [float(s)] for [s] made of digits and dots: digits with at most one
    dot and at least one digit, [ValueError] otherwise. *)
Definition float_of_string (s : string) : result Q :=
  let '(ip, rest) := span is_digit s in
  match rest with
  | EmptyString =>
      match ip with
      | EmptyString => Raise ValueError
      | _ => Return (inject_Z (int_of_digits ip))
      end
  | String c fp =>
      if Ascii.eqb c "."%char && all_digits fp
         && negb (String.eqb ip "" && String.eqb fp "")
      then Return (inject_Z (int_of_digits ip)
                   + inject_Z (int_of_digits fp)
                     / inject_Z (10 ^ Z.of_nat (String.length fp)))
      else Raise ValueError
  end.

Fixpoint remove_char (a : ascii) (s : string) : string :=
  match s with
  | EmptyString => EmptyString
  | String c s' =>
      if Ascii.eqb c a then remove_char a s' else String c (remove_char a s')
  end.

(** [int(s)] for [s] made of digits: [ValueError] on the empty string. *)
Definition int_of_string (s : string) : result Z :=
  match s with
  | EmptyString => Raise ValueError
  | _ => if all_digits s then Return (int_of_digits s) else Raise ValueError
  end.

End PyNum.

(** The log timestamp of a line: [strptime] of the first timestamp-shaped
    text, [datetime.now()] when there is none, [ValueError] when the text is
    no valid date and time. *)
Definition line_timestamp (now : PyTime.datetime) (line : string)
  : result PyTime.datetime :=
  match Re.search Re.timestamp_re line with
  | Some g =>
      let num i j := PyStr.int_of_digits (Re.part i g ++ Re.part j g) in
      PyTime.make_datetime
        (PyStr.int_of_digits
           (Re.part 0 g ++ Re.part 1 g ++ Re.part 2 g ++ Re.part 3 g))
        (num 5 6)%nat (num 8 9)%nat (num 11 12)%nat (num 14 15)%nat
        (num 17 18)%nat
  | None => Return now
  end.

(** [reason_match.group(1) if reason_match else "Unknown"], with
    [reason_match = re.search(r'Signal rejected: (.+)', line)]; both
    analyzers use it. *)
Definition rejection_text (line : string) : string :=
  match Re.search Re.rejected_re line with
  | Some g => Re.part 1 g
  | None => "Unknown"
  end.

Definition EXECUTED_MARKER : string :=
  "✅ ULTRA-REFINED TRADE EXECUTED:".
Definition REJECTED_MARKER : string := "❌ Signal rejected:".
Definition CLOSED_MARKER : string := "🎯 TRADE CLOSED:".
Definition DETAILS_MARKER : string := "📊".

(** ** live_trading_performance_analyzer.py *)

Module Live.

Import PyTime PyStr.
Local Open Scope string_scope.

Record OANDATransaction : Type := mkTransaction {
  transaction_id : string;
  time : datetime;
  instrument : string;
  units : Q;
  price : Q;
  pl : Q;
  transaction_type : string;
  reason : string;
  account_balance : Q
}.

Record BotTradeIntention : Type := mkIntention {
  timestamp : datetime;
  pair : string;
  signal_type : string;
  confidence : Q;
  entry_price : Q;
  target_price : Q;
  stop_loss : Q;
  expected_units : Z;
  expected_profit : Q;
  expected_loss : Q;
  risk_reward_ratio : Q;
  rejection_reason : option string;
  executed : bool
}.

Definition set_executed (b : bool) (i : BotTradeIntention)
  : BotTradeIntention :=
  mkIntention (timestamp i) (pair i) (signal_type i) (confidence i)
    (entry_price i) (target_price i) (stop_loss i) (expected_units i)
    (expected_profit i) (expected_loss i) (risk_reward_ratio i)
    (rejection_reason i) b.

(** The [trade_details] dictionary of [_parse_executed_trade]. *)
Record trade_details : Type := mkDetails {
  d_entry_price : option Q;
  d_stop_loss : option Q;
  d_target_price : option Q;
  d_units : option Z;
  d_risk_reward_ratio : option Q
}.

Definition no_details : trade_details :=
  mkDetails None None None None None.

(** [if key in detail_line: match = re.search(label ([\d.]+)); if match:
    trade_details[...] = float(match.group(1))] *)
Definition scan_decimal (key label line : string) (old : option Q)
  : result (option Q) :=
  if contains key line then
    match Re.search (Re.decimal_field_re label) line with
    | Some g => v <- PyNum.float_of_string (Re.part 1 g) ;; Return (Some v)
    | None => Return old
    end
  else Return old.

Definition scan_units (line : string) (old : option Z) : result (option Z) :=
  if contains "Position Size:" line then
    match Re.search Re.position_size_re line with
    | Some g =>
        v <- PyNum.int_of_string (PyNum.remove_char ","%char (Re.part 1 g)) ;;
        Return (Some v)
    | None => Return old
    end
  else Return old.

(** One round of the loop over the neighbouring lines. *)
Definition scan_detail_line (d : trade_details) (detail_line : string)
  : result trade_details :=
  e <- scan_decimal "Entry:" "Entry: " detail_line (d_entry_price d) ;;
  s <- scan_decimal "Stop Loss:" "Stop Loss: " detail_line (d_stop_loss d) ;;
  t <- scan_decimal "Take Profit:" "Take Profit: " detail_line
         (d_target_price d) ;;
  u <- scan_units detail_line (d_units d) ;;
  r <- scan_decimal "Risk/Reward:" "Risk/Reward: " detail_line
         (d_risk_reward_ratio d) ;;
  Return (mkDetails e s t u r).

Fixpoint scan_details (d : trade_details) (ls : list string)
  : result trade_details :=
  match ls with
  | [] => Return d
  | l :: ls' => d' <- scan_detail_line d l ;; scan_details d' ls'
  end.

(** [all_lines.index(line) if line in all_lines else -1] *)
Fixpoint index_from (k : Z) (line : string) (all_lines : list string) : Z :=
  match all_lines with
  | [] => (-1)%Z
  | l :: ls => if String.eqb l line then k else index_from (k + 1)%Z line ls
  end.

(** [all_lines[i] for i in range(max(0, idx - 5), min(len, idx + 10))] *)
Definition window (line : string) (all_lines : list string) : list string :=
  let line_idx := index_from 0%Z line all_lines in
  let lo := Z.max 0 (line_idx - 5) in
  let hi := Z.min (Z.of_nat (List.length all_lines)) (line_idx + 10) in
  firstn (Z.to_nat (hi - lo)) (skipn (Z.to_nat lo) all_lines).

(** The body of [_parse_executed_trade], inside its [try]. *)
Definition parse_executed_trade_body (now : datetime) (line : string)
    (all_lines : list string) : result (option BotTradeIntention) :=
  d <- scan_details no_details (window line all_lines) ;;
  ts <- line_timestamp now line ;;
  match Re.search Re.pair_signal_re line with
  | None => Return None
  | Some g =>
      Return (Some
        (mkIntention ts
           (Re.part 0 g ++ Re.part 1 g ++ Re.part 2 g) (Re.part 4 g)
           (65 # 100)
           (dget (d_entry_price d) 0) (dget (d_target_price d) 0)
           (dget (d_stop_loss d) 0) (dget (d_units d) 0%Z)
           0 0 (dget (d_risk_reward_ratio d) 0)
           None true))
  end.

Definition _parse_executed_trade (now : datetime) (line : string)
    (all_lines : list string) : option BotTradeIntention :=
  match parse_executed_trade_body now line all_lines with
  | Return r => r
  | Raise _ => None
  end.

Definition _parse_rejected_signal (now : datetime) (line : string)
    (all_lines : list string) : option BotTradeIntention :=
  match line_timestamp now line with
  | Return ts =>
      Some (mkIntention ts "UNKNOWN" "UNKNOWN" 0 0 0 0 0%Z 0 0 0
              (Some (rejection_text line)) false)
  | Raise _ => None
  end.

(** The body of the loop of [parse_bot_intentions]. *)
Definition parse_line (now : datetime) (lines : list string)
    (intentions : list BotTradeIntention) (line : string)
  : list BotTradeIntention :=
  if contains EXECUTED_MARKER line then
    match _parse_executed_trade now line lines with
    | Some i => intentions ++ [set_executed true i]
    | None => intentions
    end
  else if contains REJECTED_MARKER line then
    match _parse_rejected_signal now line lines with
    | Some i => intentions ++ [set_executed false i]
    | None => intentions
    end
  else if contains CLOSED_MARKER line then
    (* [_update_trade_outcome] does nothing *)
    intentions
  else intentions.

Definition parse_bot_intentions (now : datetime) (log_content : string)
  : list BotTradeIntention :=
  match log_content with
  | EmptyString => []
  | _ =>
      let lines := split_lines log_content in
      fold_left (parse_line now lines) lines []
  end.

(** [_trades_match] *)
Definition _trades_match (intention : BotTradeIntention)
    (transaction : OANDATransaction) : result bool :=
  if negb (String.eqb (replace_char "/"%char "_"%char (pair intention))
                      (instrument transaction))
  then Return false
  else if String.eqb (signal_type intention) "BUY"
          && Qle_bool (units transaction) 0
  then Return false
  else if String.eqb (signal_type intention) "SELL"
          && Qle_bool 0 (units transaction)
  then Return false
  else
    delta <- dt_sub (timestamp intention) (time transaction) ;;
    let time_diff := Qabs (total_seconds delta) in
    if Qgtb time_diff 300 then Return false
    else
      rel <- py_div (Qabs (entry_price intention - price transaction))
                    (price transaction) ;;
      if Qgtb rel (1 # 1000) then Return false else Return true.

(** The inner loop of [match_trades]: the first transaction that matches,
    scanning the whole ledger in its order. *)
Fixpoint first_match (intention : BotTradeIntention)
    (transactions : list OANDATransaction)
  : result (option OANDATransaction) :=
  match transactions with
  | [] => Return None
  | t :: ts =>
      b <- _trades_match intention t ;;
      if b then Return (Some t) else first_match intention ts
  end.

(** The outer loop of [match_trades], [matches] being the list built so
    far. *)
Fixpoint match_loop (transactions : list OANDATransaction)
    (matches : list (BotTradeIntention * OANDATransaction))
    (intentions : list BotTradeIntention)
  : result (list (BotTradeIntention * OANDATransaction)) :=
  match intentions with
  | [] => Return matches
  | i :: rest =>
      if negb (executed i) then match_loop transactions matches rest
      else
        m <- first_match i transactions ;;
        match m with
        | Some t => match_loop transactions (matches ++ [(i, t)]) rest
        | None => match_loop transactions matches rest
        end
  end.

Definition match_trades (bot_intentions : list BotTradeIntention)
    (oanda_transactions : list OANDATransaction)
  : result (list (BotTradeIntention * OANDATransaction)) :=
  match_loop oanda_transactions [] bot_intentions.

End Live.

(** ** historical_performance_analyzer.py *)

Module Historical.

Import PyTime PyStr.
Local Open Scope string_scope.

(** *** The log parser *)

Record BotDecision : Type := mkDecision {
  timestamp : datetime;
  pair : string;
  signal_type : string;
  confidence : Q;
  entry_price : Q;
  target_price : Q;
  stop_loss : Q;
  action_taken : string;
  rejection_reason : option string;
  expected_profit : Q;
  risk_reward_ratio : Q
}.

Definition set_pair_signal (p s : string) (d : BotDecision) : BotDecision :=
  mkDecision (timestamp d) p s (confidence d) (entry_price d)
    (target_price d) (stop_loss d) (action_taken d) (rejection_reason d)
    (expected_profit d) (risk_reward_ratio d).

Definition set_confidence (c : Q) (d : BotDecision) : BotDecision :=
  mkDecision (timestamp d) (pair d) (signal_type d) c (entry_price d)
    (target_price d) (stop_loss d) (action_taken d) (rejection_reason d)
    (expected_profit d) (risk_reward_ratio d).

Definition set_entry_price (v : Q) (d : BotDecision) : BotDecision :=
  mkDecision (timestamp d) (pair d) (signal_type d) (confidence d) v
    (target_price d) (stop_loss d) (action_taken d) (rejection_reason d)
    (expected_profit d) (risk_reward_ratio d).

Definition set_target_price (v : Q) (d : BotDecision) : BotDecision :=
  mkDecision (timestamp d) (pair d) (signal_type d) (confidence d)
    (entry_price d) v (stop_loss d) (action_taken d) (rejection_reason d)
    (expected_profit d) (risk_reward_ratio d).

Definition set_stop_loss (v : Q) (d : BotDecision) : BotDecision :=
  mkDecision (timestamp d) (pair d) (signal_type d) (confidence d)
    (entry_price d) (target_price d) v (action_taken d) (rejection_reason d)
    (expected_profit d) (risk_reward_ratio d).

(** The two assignments of the risk/reward branch. *)
Definition seal (rr : Q) (d : BotDecision) : BotDecision :=
  let pip_size := if contains "JPY" (pair d) then 1 # 100 else 1 # 10000 in
  let pips :=
    if String.eqb (signal_type d) "BUY"
    then (target_price d - entry_price d) / pip_size
    else (entry_price d - target_price d) / pip_size in
  mkDecision (timestamp d) (pair d) (signal_type d) (confidence d)
    (entry_price d) (target_price d) (stop_loss d) (action_taken d)
    (rejection_reason d) (pips * 10) rr.

(** The loop state of [parse_bot_decisions]. *)
Record parser_state : Type := mkState {
  decisions : list BotDecision;
  current_decision : option BotDecision
}.

Definition initial_state : parser_state := mkState [] None.

(** The record a "trade executed" line starts. *)
Definition fresh_builder (ts : datetime) : BotDecision :=
  mkDecision ts "" "" 0 0 0 0 "EXECUTED" None 0 0.

(** The record a "signal rejected" line yields. *)
Definition rejected_decision (ts : datetime) (reason : string) : BotDecision :=
  mkDecision ts "UNKNOWN" "UNKNOWN" 0 0 0 0 "REJECTED" (Some reason) 0 0.

(** [match = re.search(label ([\d.]+), line); if match: cur.f = float(...)] *)
Definition update_decimal (label : string)
    (set : Q -> BotDecision -> BotDecision) (st : parser_state)
    (cur : BotDecision) (line : string) : result parser_state :=
  match Re.search (Re.decimal_field_re label) line with
  | Some g =>
      v <- PyNum.float_of_string (Re.part 1 g) ;;
      Return (mkState (decisions st) (Some (set v cur)))
  | None => Return st
  end.

(** The last two branches of the chain, which do not test the builder
    first: rejected signals and signal lines with a confidence. *)
Definition parse_signal_line (now : datetime) (st : parser_state)
    (line : string) : result parser_state :=
  if contains REJECTED_MARKER line then
    ts <- line_timestamp now line ;;
    Return (mkState
              (decisions st ++ [rejected_decision ts (rejection_text line)])
              (current_decision st))
  else if contains "Signal found for" line && contains "Confidence:" line then
    match Re.search Re.confidence_re line,
          Re.search Re.signal_pair_re line,
          Re.search Re.signal_type_re line,
          current_decision st with
    | Some c, Some p, Some s, Some cur =>
        Return (mkState (decisions st)
                  (Some (set_pair_signal
                           (Re.part 1 p ++ Re.part 2 p ++ Re.part 3 p)
                           (Re.part 1 s)
                           (set_confidence
                              (inject_Z (int_of_digits (Re.part 1 c)) / 100)
                              cur))))
    | _, _, _, _ => Return st
    end
  else Return st.

(** The body of the loop, inside its [try]. *)
Definition parse_line_body (now : datetime) (st : parser_state)
    (line : string) : result parser_state :=
  if contains EXECUTED_MARKER line then
    ts <- line_timestamp now line ;;
    Return (mkState (decisions st) (Some (fresh_builder ts)))
  else
    match current_decision st with
    | Some cur =>
        if contains DETAILS_MARKER line && contains "|" line then
          match Re.search Re.pair_signal_re line with
          | Some g =>
              Return (mkState (decisions st)
                        (Some (set_pair_signal
                                 (Re.part 0 g ++ Re.part 1 g ++ Re.part 2 g)
                                 (Re.part 4 g) cur)))
          | None => Return st
          end
        else if contains "Entry:" line then
          update_decimal "Entry: " set_entry_price st cur line
        else if contains "Stop Loss:" line then
          update_decimal "Stop Loss: " set_stop_loss st cur line
        else if contains "Take Profit:" line then
          update_decimal "Take Profit: " set_target_price st cur line
        else if contains "Risk/Reward:" line then
          match Re.search (Re.decimal_field_re "Risk/Reward: ") line with
          | Some g =>
              rr <- PyNum.float_of_string (Re.part 1 g) ;;
              Return (mkState (decisions st ++ [seal rr cur]) None)
          | None => Return st
          end
        else parse_signal_line now st line
    | None => parse_signal_line now st line
    end.

(** One round of the loop: an exception leaves the state as it was. *)
Definition parse_line (now : datetime) (st : parser_state) (line : string)
  : parser_state :=
  match parse_line_body now st line with
  | Return st' => st'
  | Raise _ => st
  end.

Definition parse_lines (now : datetime) (lines : list string)
    (st : parser_state) : parser_state :=
  fold_left (parse_line now) lines st.

Definition parse_bot_decisions (now : datetime) (log_content : string)
  : list BotDecision :=
  match log_content with
  | EmptyString => []
  | _ => decisions (parse_lines now (split_lines log_content) initial_state)
  end.

(** *** The ledger normaliser *)

Record HistoricalTrade : Type := mkTrade {
  trade_id : string;
  open_time : datetime;
  close_time : option datetime;
  instrument : string;
  units : Q;
  open_price : Q;
  close_price : option Q;
  pl : Q;
  duration_hours : option Q;
  trade_type : string;
  status : string
}.

(** An entry of the [transactions] array of the broker's answer.  A field
    is [None] when the key is absent.  [tx_tradeOpened] is the [tradeID] of
    the [tradeOpened] object, [tx_tradesClosed] the [tradeID]s of the
    [tradesClosed] objects. *)
Record ledger_entry : Type := mkEntry {
  tx_type : option string;
  tx_id : option string;
  tx_time : option string;
  tx_instrument : option string;
  tx_units : option string;
  tx_price : option string;
  tx_pl : option string;
  tx_tradeOpened : option (option string);
  tx_tradesClosed : option (list (option string))
}.

(** An entry of the [trades] array of the open-trades answer. *)
Record open_trade_entry : Type := mkOpenEntry {
  ot_id : option string;
  ot_openTime : option string;
  ot_instrument : option string;
  ot_currentUnits : option string;
  ot_price : option string;
  ot_unrealizedPL : option string
}.

(** The [trades] dictionary: keys in insertion order. *)
Definition trades_dict : Type := list (string * HistoricalTrade).

Fixpoint dict_get (k : string) (d : trades_dict) : option HistoricalTrade :=
  match d with
  | [] => None
  | (k', v) :: d' => if String.eqb k' k then Some v else dict_get k d'
  end.

(** [d[k] = v]: an existing key keeps its place. *)
Fixpoint dict_set (k : string) (v : HistoricalTrade) (d : trades_dict)
  : trades_dict :=
  match d with
  | [] => [(k, v)]
  | (k', v') :: d' =>
      if String.eqb k' k then (k, v) :: d' else (k', v') :: dict_set k v d'
  end.

Definition dict_values (d : trades_dict) : list HistoricalTrade :=
  map snd d.

(** [s.replace('Z', '+00:00')] *)
Fixpoint replace_Z (s : string) : string :=
  match s with
  | EmptyString => EmptyString
  | String c s' =>
      if Ascii.eqb c "Z"%char then "+00:00" ++ replace_Z s'
      else String c (replace_Z s')
  end.

Definition add_pl (p : Q) (t : HistoricalTrade) : HistoricalTrade :=
  mkTrade (trade_id t) (open_time t) (close_time t) (instrument t) (units t)
    (open_price t) (close_price t) (pl t + p) (duration_hours t)
    (trade_type t) (status t).

(** The three assignments [close_time], [close_price], [status]. *)
Definition close_trade (ct : datetime) (cp : Q) (t : HistoricalTrade)
  : HistoricalTrade :=
  mkTrade (trade_id t) (open_time t) (Some ct) (instrument t) (units t)
    (open_price t) (Some cp) (pl t) (duration_hours t) (trade_type t)
    "CLOSED".

Definition set_duration (h : Q) (t : HistoricalTrade) : HistoricalTrade :=
  mkTrade (trade_id t) (open_time t) (close_time t) (instrument t) (units t)
    (open_price t) (close_price t) (pl t) (Some h) (trade_type t) (status t).

Section Normaliser.

(** The two library conversions the normaliser applies to the broker's
    text: [datetime.fromisoformat] and [float]. *)
Variable fromisoformat : string -> result datetime.
Variable float : string -> result Q.

(** [float(tx.get(key, 0))] *)
Definition get_float (v : option string) : result Q :=
  match v with
  | Some s => float s
  | None => Return 0
  end.

(** [datetime.fromisoformat(tx.get(key, '').replace('Z', '+00:00'))] *)
Definition get_time (v : option string) : result datetime :=
  fromisoformat (replace_Z (dget v "")).

(** The [MARKET_ORDER] branch. *)
Definition process_market_order (trades : trades_dict) (tx : ledger_entry)
  : result trades_dict :=
  let trade_id := dget (tx_id tx) "" in
  let instrument := dget (tx_instrument tx) "" in
  units <- get_float (tx_units tx) ;;
  ot <- get_time (tx_time tx) ;;
  op <- get_float (tx_price tx) ;;
  Return (dict_set trade_id
            (mkTrade trade_id ot None instrument units op None 0 None
               (if Qgtb units 0 then "BUY" else "SELL") "OPEN")
            trades).

(** [tx.get('tradeOpened', {}).get('tradeID', '') or
    tx.get('tradesClosed', [{}])[0].get('tradeID', '')] *)
Definition fill_trade_id (tx : ledger_entry) : result string :=
  let opened :=
    match tx_tradeOpened tx with
    | Some (Some id) => id
    | _ => ""
    end in
  if negb (String.eqb opened "") then Return opened
  else
    match tx_tradesClosed tx with
    | None => Return ""
    | Some [] => Raise IndexError
    | Some (c :: _) => Return (dget c "")
    end.

(** [if tx.get('tradesClosed')] *)
Definition reports_close (tx : ledger_entry) : bool :=
  match tx_tradesClosed tx with
  | Some (_ :: _) => true
  | _ => false
  end.

(** The [ORDER_FILL] branch. *)
Definition process_order_fill (trades : trades_dict) (tx : ledger_entry)
  : result trades_dict :=
  trade_id <- fill_trade_id tx ;;
  match dict_get trade_id trades with
  | None => Return trades
  | Some t =>
      p <- get_float (tx_pl tx) ;;
      let t1 := add_pl p t in
      if reports_close tx then
        ct <- get_time (tx_time tx) ;;
        cp <- get_float (tx_price tx) ;;
        let t2 := close_trade ct cp t1 in
        (* [if open_time and close_time]: both are datetimes here *)
        d <- dt_sub ct (open_time t2) ;;
        Return (dict_set trade_id
                  (set_duration (total_seconds d / 3600) t2) trades)
      else Return (dict_set trade_id t1 trades)
  end.

(** One round of the loop over the ledger. *)
Definition process_entry (trades : trades_dict) (tx : ledger_entry)
  : result trades_dict :=
  let tx_type := dget (tx_type tx) "" in
  if String.eqb tx_type "MARKET_ORDER" then process_market_order trades tx
  else if String.eqb tx_type "ORDER_FILL" then process_order_fill trades tx
  else Return trades.

Fixpoint process_transactions (trades : trades_dict)
    (transactions : list ledger_entry) : result trades_dict :=
  match transactions with
  | [] => Return trades
  | tx :: rest =>
      trades' <- process_entry trades tx ;;
      process_transactions trades' rest
  end.

(** [trade_list = list(trades.values())] after the loop. *)
Definition trade_list (transactions : list ledger_entry)
  : result (list HistoricalTrade) :=
  trades <- process_transactions [] transactions ;;
  Return (dict_values trades).

(** The record [_fetch_current_open_trades] builds for one open trade,
    with its duration against [now] (offset-aware). *)
Definition open_trade (now : datetime) (e : open_trade_entry)
  : result HistoricalTrade :=
  ot <- get_time (ot_openTime e) ;;
  units <- get_float (ot_currentUnits e) ;;
  op <- get_float (ot_price e) ;;
  upl <- get_float (ot_unrealizedPL e) ;;
  let hist_trade :=
    mkTrade (dget (ot_id e) "") ot None (dget (ot_instrument e) "") units
      op None upl None (if Qgtb units 0 then "BUY" else "SELL") "OPEN" in
  (* [if hist_trade.open_time]: a datetime is always true *)
  d <- dt_sub now (open_time hist_trade) ;;
  Return (set_duration (total_seconds d / 3600) hist_trade).

(** The loop of [_fetch_current_open_trades]: the [try] is around the
    whole loop, so the first failing entry ends it. *)
Fixpoint append_open_trades (now : datetime)
    (historical_trades : list HistoricalTrade)
    (entries : list open_trade_entry) : list HistoricalTrade :=
  match entries with
  | [] => historical_trades
  | e :: rest =>
      match open_trade now e with
      | Return t => append_open_trades now (historical_trades ++ [t]) rest
      | Raise _ => historical_trades
      end
  end.

(** [fetch_extended_trade_history] over the two answers of the broker:
    the ledger, and the open trades ([None] when that request fails or
    its status is not 200). *)
Definition fetch_extended_trade_history (now : datetime)
    (transactions : list ledger_entry)
    (open_trades : option (list open_trade_entry))
  : list HistoricalTrade :=
  match trade_list transactions with
  | Return trade_list =>
      match open_trades with
      | Some entries => append_open_trades now trade_list entries
      | None => trade_list
      end
  | Raise _ => []
  end.

End Normaliser.

(** *** The analysis *)

Record overall_performance : Type := mkOverall {
  total_trades : nat;
  open_trades_count : nat;
  win_rate : Q;
  total_profit : Q;
  avg_winner : Q;
  avg_loser : Q;
  profit_factor : pyfloat
}.

Inductive analysis : Type :=
| AnalysisError
| Analysis (overall : overall_performance).

Definition is_closed (t : HistoricalTrade) : bool :=
  String.eqb (status t) "CLOSED".
Definition is_open (t : HistoricalTrade) : bool :=
  String.eqb (status t) "OPEN".
Definition is_winner (t : HistoricalTrade) : bool := Qgtb (pl t) 0.
Definition is_loser (t : HistoricalTrade) : bool := Qltb (pl t) 0.

(** The overall metrics of [analyze_what_worked_vs_failed]. *)
Definition analyze_what_worked_vs_failed
    (historical_trades : list HistoricalTrade) : analysis :=
  match historical_trades with
  | [] => AnalysisError
  | _ =>
      let closed_trades := filter is_closed historical_trades in
      let open_trades := filter is_open historical_trades in
      let winners := filter is_winner closed_trades in
      let losers := filter is_loser closed_trades in
      let total_trades := List.length closed_trades in
      let win_rate :=
        if (0 <? total_trades)%nat
        then inject_Z (Z.of_nat (List.length winners))
             / inject_Z (Z.of_nat total_trades)
        else 0 in
      let total_profit := Qsum (map pl closed_trades) in
      let avg_winner :=
        match winners with [] => 0 | _ => Qmean (map pl winners) end in
      let avg_loser :=
        match losers with [] => 0 | _ => Qmean (map pl losers) end in
      let profit_factor :=
        match losers with
        | [] => Inf
        | _ =>
            if negb (Qeq_bool (Qsum (map pl losers)) 0)
            then Fin (Qabs (Qsum (map pl winners) / Qsum (map pl losers)))
            else Inf
        end in
      Analysis (mkOverall total_trades (List.length open_trades) win_rate
                  total_profit avg_winner avg_loser profit_factor)
  end.

(** The profit factor [generate_insights_report] prints:
    [overall.get('profit_factor', 0)], and nothing when the analysis is an
    error. *)
Definition reported_profit_factor (a : analysis) : option pyfloat :=
  match a with
  | AnalysisError => None
  | Analysis o => Some (profit_factor o)
  end.

End Historical.

(** ** comprehensive_trading_analysis.py *)

Module Comprehensive.

(** A row of the [ORDER_FILL] data frame, with the columns the overall
    statistics read. *)
Record row : Type := mkRow {
  INSTRUMENT : string;
  UNITS : Q;
  PL_NUMERIC : Q
}.

Record overall_stats : Type := mkStats {
  total_trades : nat;
  profitable_trades : nat;
  losing_trades : nat;
  breakeven_trades : nat;
  win_rate : Q;
  total_pnl : Q;
  avg_winner : Q;
  avg_loser : Q;
  profit_factor : pyfloat
}.



(** [trading_patterns.get('overall_stats', {}).get('profit_factor', 0)]:
    the profit factor [generate_comprehensive_report] prints. *)
Definition reported_profit_factor (trading_patterns : option overall_stats)
  : pyfloat :=
  match trading_patterns with
  | Some o => profit_factor o
  | None => Fin 0
  end.

End Comprehensive.

(** ** confidence_vs_winrate_analysis.py *)

Module ConfidenceWinRate.

Local Open Scope string_scope.

(** A row of the data frame, with the two columns the correlation reads. *)
Record row : Type := mkRow {
  SIMULATED_CONFIDENCE : Q;
  PL_NUMERIC : Q
}.












End ConfidenceWinRate.

(** ** The matching rule and the assignment policy, in the words of the
    specification *)

Module MatchingRule.

Import PyTime PyStr Live.
Local Open Scope string_scope.

(** The four predicates of the matching rule.  The instrument test writes
    the intention's pair in the ledger's separator style. *)
Definition candidate (i : BotTradeIntention) (t : OANDATransaction) : Prop :=
  replace_char "/"%char "_"%char (pair i) = instrument t
  /\ (signal_type i = "BUY" -> 0 < units t)
  /\ (signal_type i = "SELL" -> units t < 0)
  /\ Qabs (total_seconds (dt_us (timestamp i) - dt_us (time t))%Z) <= 300
  /\ Qabs (entry_price i - price t) / price t <= 1 # 1000.

Definition candidateb (i : BotTradeIntention) (t : OANDATransaction) : bool :=
  String.eqb (replace_char "/"%char "_"%char (pair i)) (instrument t)
  && implb (String.eqb (signal_type i) "BUY") (Qltb 0 (units t))
  && implb (String.eqb (signal_type i) "SELL") (Qltb (units t) 0)
  && Qle_bool (Qabs (total_seconds (dt_us (timestamp i) - dt_us (time t))%Z))
       300
  && Qle_bool (Qabs (entry_price i - price t) / price t) (1 # 1000).


(** The quantities of the rule are defined: the two times can be
    subtracted and the price is not zero. *)
Definition comparable (i : BotTradeIntention) (t : OANDATransaction) : bool :=
  Bool.eqb (dt_aware (timestamp i)) (dt_aware (time t))
  && negb (Qeq_bool (price t) 0).


End MatchingRule.

(** ** The profit factor, in the words of the specification *)

Module ProfitFactor.





End ProfitFactor.

(** ** The builder's life cycle, in the words of the specification *)

Module Lifecycle.

Import PyStr Historical.
Local Open Scope string_scope.

(** The risk/reward field line of an open builder: a line that is no
    "trade executed" line, carries none of the labels the parser tries
    first (the details line, [Entry:], [Stop Loss:], [Take Profit:]) and
    holds [Risk/Reward: ] followed by a well-formed number. *)
Definition risk_reward_line (line : string) : option Q :=
  if contains EXECUTED_MARKER line
     || (contains DETAILS_MARKER line && contains "|" line)
     || contains "Entry:" line
     || contains "Stop Loss:" line
     || contains "Take Profit:" line
  then None
  else if contains "Risk/Reward:" line then
    match Re.search (Re.decimal_field_re "Risk/Reward: ") line with
    | Some g =>
        match PyNum.float_of_string (Re.part 1 g) with
        | Return v => Some v
        | Raise _ => None
        end
    | None => None
    end
  else None.

(** What a line makes the extractor emit as EXECUTED: the open builder,
    sealed, when the line is its risk/reward field line. *)
Definition sealed (st : parser_state) (line : string) : list BotDecision :=
  match current_decision st, risk_reward_line line with
  | Some cur, Some rr => [seal rr cur]
  | _, _ => []
  end.

(** The builders sealed along a run of the parser over [lines]. *)
Fixpoint emitted (now : PyTime.datetime) (lines : list string)
    (st : parser_state) : list BotDecision :=
  match lines with
  | [] => []
  | l :: ls => sealed st l ++ emitted now ls (parse_line now st l)
  end.

Definition is_executed (d : BotDecision) : bool :=
  String.eqb (action_taken d) "EXECUTED".

(** The builders a parser can hold were started by a "trade executed"
    line. *)
Definition builder_ok (st : parser_state) : Prop :=
  match current_decision st with
  | Some cur => action_taken cur = "EXECUTED"
  | None => True
  end.

End Lifecycle.

(** ** The normaliser's invariants, in the words of the specification *)

Module Ledger.

Import PyTime Historical.
Local Open Scope string_scope.

Definition is_market_order (tx : ledger_entry) : Prop :=
  dget (tx_type tx) "" = "MARKET_ORDER".

Definition is_order_fill (tx : ledger_entry) : Prop :=
  dget (tx_type tx) "" = "ORDER_FILL".

(** The trade [t] originates from a [MARKET_ORDER] entry among [seen]. *)
Definition opened_by (seen : list ledger_entry) (t : HistoricalTrade) : Prop :=
  exists tx,
    In tx seen /\ is_market_order tx /\ trade_id t = dget (tx_id tx) "".

(** The time [d] was read from the broker's text. *)
Definition resolved (fromisoformat : string -> result datetime)
    (d : datetime) : Prop :=
  exists s, fromisoformat s = Return d.

(** The duration of a trade of the ledger: absent as long as the trade
    has no close time, and the close time minus the open time, in hours,
    once it has. *)
Definition ledger_duration (fromisoformat : string -> result datetime)
    (t : HistoricalTrade) : Prop :=
  resolved fromisoformat (open_time t)
  /\ match close_time t with
     | None => duration_hours t = None /\ status t = "OPEN"
     | Some c =>
         resolved fromisoformat c /\ status t = "CLOSED"
         /\ exists d,
              dt_sub c (open_time t) = Return d
              /\ duration_hours t = Some (total_seconds d / 3600)
     end.

(** The duration of a currently open trade: [now] minus the open time. *)
Definition open_duration (fromisoformat : string -> result datetime)
    (now : datetime) (t : HistoricalTrade) : Prop :=
  resolved fromisoformat (open_time t)
  /\ close_time t = None /\ status t = "OPEN"
  /\ exists d,
       dt_sub now (open_time t) = Return d
       /\ duration_hours t = Some (total_seconds d / 3600).

(** What the loop over the ledger keeps true of every entry of the
    [trades] dictionary. *)
Definition entry_ok (fromisoformat : string -> result datetime)
    (seen : list ledger_entry) (kt : string * HistoricalTrade) : Prop :=
  trade_id (snd kt) = fst kt
  /\ opened_by seen (snd kt)
  /\ ledger_duration fromisoformat (snd kt).

End Ledger.

(** [xs] is [ys] with some elements left out. *)
Inductive subseq {A : Type} : list A -> list A -> Prop :=
| subseq_nil : subseq [] []
| subseq_skip : forall x xs ys, subseq xs ys -> subseq xs (x :: ys)
| subseq_take : forall x xs ys, subseq xs ys -> subseq (x :: xs) (x :: ys).

(** ** Sample records *)

Module Examples.

Import PyTime Live.
Local Open Scope string_scope.

(** 2024-06-01 08:15:27, as [strptime] reads it from the log. *)
Definition T0 : Z := 63852826527000000.

(** The executed EUR/USD BUY at 1.15200 of the specification's example. *)
Definition buy_at (us : Z) : BotTradeIntention :=
  mkIntention (mkDatetime false us) "EUR/USD" "BUY" (65 # 100) 1.15200
    1.15600 1.15000 5000%Z 0 0 2 None true.

Definition i1 : BotTradeIntention := buy_at T0.
Definition i2 : BotTradeIntention := buy_at (T0 + 1000000).

(** A fill of 5000 EUR_USD ten seconds later, at the given price. *)
Definition fill_at (p : Q) : OANDATransaction :=
  mkTransaction "12346" (mkDatetime false (T0 + 10000000)) "EUR_USD" 5000 p
    175 "ORDER_FILL" "MARKET_ORDER" 10175.

Definition t_ok : OANDATransaction := fill_at 1.15205.
Definition t_far : OANDATransaction := fill_at 1.15350.
(** The price [fetch_oanda_transactions] stores for an entry without a
    [price] key. *)
Definition t_zero : OANDATransaction := fill_at 0.

(** A position that is still open, as the normaliser records it. *)
Definition open_position : Historical.HistoricalTrade :=
  Historical.mkTrade "2904" (mkDatetime true T0) None "USD_CAD" 1000 1.36
    None 12 (Some 5) "BUY" "OPEN".

Definition closed_with (p : Q) : Historical.HistoricalTrade :=
  Historical.mkTrade "2908" (mkDatetime true T0)
    (Some (mkDatetime true (T0 + 3600000000))) "USD_JPY" 1000 1.36
    (Some 1.37) p (Some 1) "BUY" "CLOSED".


(** A ledger: a market order, the fill that closes it an hour later, and
    a fill that refers to a trade the window never opened. *)
Definition market_order_100 : Historical.ledger_entry :=
  Historical.mkEntry (Some "MARKET_ORDER") (Some "100")
    (Some "2024-06-01T08:15:27Z") (Some "EUR_USD") (Some "5000")
    (Some "1.15205") None None None.

Definition closing_fill_100 : Historical.ledger_entry :=
  Historical.mkEntry (Some "ORDER_FILL") (Some "101")
    (Some "2024-06-01T09:15:27Z") (Some "EUR_USD") (Some "5000")
    (Some "1.15600") (Some "175.00") None (Some [Some "100"]).

Definition orphan_fill : Historical.ledger_entry :=
  Historical.mkEntry (Some "ORDER_FILL") (Some "57")
    (Some "2024-06-01T07:00:00Z") (Some "USD_CAD") (Some "1000")
    (Some "1.36000") (Some "42.50") None (Some [Some "56"]).

Definition ledger : list Historical.ledger_entry :=
  [market_order_100; orphan_fill; closing_fill_100].

(** A stand-in for [datetime.fromisoformat] that knows the times of the
    sample ledger. *)
Definition iso_sample (s : string) : result datetime :=
  if String.eqb s "2024-06-01T08:15:27+00:00"
  then Return (mkDatetime true T0)
  else if String.eqb s "2024-06-01T09:15:27+00:00"
  then Return (mkDatetime true (T0 + 3600000000))
  else Raise ValueError.

(** The trades the normaliser builds from the sample ledger. *)
Definition fetched : list Historical.HistoricalTrade :=
  Eval vm_compute in
    Historical.fetch_extended_trade_history iso_sample
      PyNum.float_of_string (mkDatetime true (T0 + 7200000000)) ledger None.

Definition trade_100 : Historical.HistoricalTrade :=
  hd open_position fetched.


(** The clock of the sample runs. *)
Definition now0 : datetime := mkDatetime false 0.

(** Two "trade executed" lines, the second dated 30 February, around an
    entry price; then the risk/reward line. *)
Definition log_invalid_date : string :=
  "2024-06-01 08:15:27 - INFO - ✅ ULTRA-REFINED TRADE EXECUTED:
2024-06-01 08:15:27 - INFO - 🎯 Entry: 1.15200
2024-02-30 10:30:17 - INFO - ✅ ULTRA-REFINED TRADE EXECUTED:
2024-06-01 10:30:17 - INFO - 📈 Risk/Reward: 2.0".



(** A "trade executed" line that names the pair, after a signal line that
    logs a confidence of 72%. *)
Definition log_executed_72 : string :=
  "2024-06-01 08:15:25 - INFO - 📡 Signal found for EUR/USD: BUY (Confidence: 72%)
2024-06-01 08:15:27 - INFO - ✅ ULTRA-REFINED TRADE EXECUTED: EUR/USD BUY (Confidence: 72%)
2024-06-01 08:15:27 - INFO - 🎯 Entry: 1.15200".

End Examples.

(** ** live_trading_performance_analyzer.py: the ledger fetcher and the
    performance metrics *)

Module Fetcher.

Import PyTime PyStr Live.
Local Open Scope string_scope.

(** An entry of the [transactions] array of the broker's answer, with the
    keys [fetch_oanda_transactions] reads; [None] is an absent key. *)
Record raw_transaction : Type := mkRaw {
  r_type : option string;
  r_id : option string;
  r_time : option string;
  r_instrument : option string;
  r_units : option string;
  r_price : option string;
  r_pl : option string;
  r_reason : option string;
  r_accountBalance : option string
}.

(** [tx.get('type') in ['ORDER_FILL', 'MARKET_ORDER']] *)
Definition kept (tx : raw_transaction) : bool :=
  match r_type tx with
  | Some ty => String.eqb ty "ORDER_FILL" || String.eqb ty "MARKET_ORDER"
  | None => false
  end.

Section Conversions.

(** [datetime.fromisoformat] and [float], as in the normaliser. *)
Variable fromisoformat : string -> result datetime.
Variable float : string -> result Q.

(** The record built for one kept entry. *)
Definition build (tx : raw_transaction) : result OANDATransaction :=
  tm <- Historical.get_time fromisoformat (r_time tx) ;;
  u <- Historical.get_float float (r_units tx) ;;
  p <- Historical.get_float float (r_price tx) ;;
  l <- Historical.get_float float (r_pl tx) ;;
  b <- Historical.get_float float (r_accountBalance tx) ;;
  Return (mkTransaction (dget (r_id tx) "") tm (dget (r_instrument tx) "")
            u p l (dget (r_type tx) "") (dget (r_reason tx) "") b).

(** The loop over the entries, [transactions] being the list built so far. *)
Fixpoint fetch_loop (transactions : list OANDATransaction)
    (raw : list raw_transaction) : result (list OANDATransaction) :=
  match raw with
  | [] => Return transactions
  | tx :: rest =>
      if kept tx then
        t <- build tx ;;
        fetch_loop (transactions ++ [t]) rest
      else fetch_loop transactions rest
  end.

(** [fetch_oanda_transactions] over the broker's answer: any exception is
    answered by the empty list. *)
Definition fetch_oanda_transactions (raw : list raw_transaction)
  : list OANDATransaction :=
  match fetch_loop [] raw with
  | Return transactions => transactions
  | Raise _ => []
  end.

End Conversions.

End Fetcher.

Module Metrics.

Import PyTime Live.

Record PerformanceMetrics : Type := mkMetrics {
  total_bot_signals : nat;
  total_oanda_trades : nat;
  matched_trades : nat;
  missed_opportunities : nat;
  unexpected_trades : Z;
  execution_accuracy : Q;
  avg_confidence_winners : Q;
  avg_confidence_losers : Q;
  bot_win_rate : Q;
  actual_win_rate : Q;
  predicted_profit : Q;
  actual_profit : Q;
  avg_execution_delay : Q
}.

(** [n / d] for two lengths, where the code has tested [d] first. *)
Definition ratio (n d : nat) : Q :=
  inject_Z (Z.of_nat n) / inject_Z (Z.of_nat d).

(** [statistics.mean(xs) if xs else 0] *)
Definition mean_or_zero (xs : list Q) : Q :=
  match xs with
  | [] => 0
  | _ => Qmean xs
  end.

(** [(transaction.time - intention.timestamp).total_seconds()] for every
    matched pair. *)
Fixpoint execution_delays
    (matched : list (BotTradeIntention * OANDATransaction))
  : result (list Q) :=
  match matched with
  | [] => Return []
  | (intention, transaction) :: rest =>
      d <- dt_sub (time transaction) (timestamp intention) ;;
      ds <- execution_delays rest ;;
      Return (total_seconds d :: ds)
  end.

Definition is_win (m : BotTradeIntention * OANDATransaction) : bool :=
  Qgtb (pl (snd m)) 0.
Definition is_loss (m : BotTradeIntention * OANDATransaction) : bool :=
  Qltb (pl (snd m)) 0.

(** [calculate_performance_metrics] over the three lists the analyzer
    holds. *)
Definition calculate_performance_metrics
    (bot_intentions : list BotTradeIntention)
    (oanda_transactions : list OANDATransaction)
    (matched : list (BotTradeIntention * OANDATransaction))
  : result PerformanceMetrics :=
  let total_bot_signals := List.length bot_intentions in
  let executed_intentions := filter executed bot_intentions in
  let total_oanda_trades := List.length oanda_transactions in
  let matched_trades := List.length matched in
  let execution_accuracy :=
    match executed_intentions with
    | [] => 0
    | _ => ratio matched_trades (List.length executed_intentions)
    end in
  let missed_opportunities :=
    List.length (filter (fun i => negb (executed i)) bot_intentions) in
  let unexpected_trades :=
    (Z.of_nat total_oanda_trades - Z.of_nat matched_trades)%Z in
  let winning_trades := filter is_win matched in
  let losing_trades := filter is_loss matched in
  let avg_confidence_winners :=
    mean_or_zero (map (fun m => confidence (fst m)) winning_trades) in
  let avg_confidence_losers :=
    mean_or_zero (map (fun m => confidence (fst m)) losing_trades) in
  let bot_win_rate :=
    match matched with
    | [] => 0
    | _ => ratio (List.length winning_trades) (List.length matched)
    end in
  let actual_win_rate :=
    match oanda_transactions with
    | [] => 0
    | _ => ratio (List.length (filter (fun t => Qgtb (pl t) 0)
                                 oanda_transactions))
                 (List.length oanda_transactions)
    end in
  let predicted_profit :=
    Qsum (filter (fun x => negb (Qeq_bool x 0))
            (map expected_profit executed_intentions)) in
  let actual_profit := Qsum (map pl oanda_transactions) in
  execution_delays <- execution_delays matched ;;
  let avg_execution_delay := mean_or_zero execution_delays in
  Return (mkMetrics total_bot_signals total_oanda_trades matched_trades
            missed_opportunities unexpected_trades execution_accuracy
            avg_confidence_winners avg_confidence_losers bot_win_rate
            actual_win_rate predicted_profit actual_profit
            avg_execution_delay).

End Metrics.

(** ** historical_performance_analyzer.py: all sections of the analysis,
    and its report *)

Module Analyzer.

Import PyTime PyStr Historical.
Local Open Scope string_scope.

(** [statistics.mean(xs)]: on no data it raises [StatisticsError], a
    subclass of [ValueError]. *)
Definition mean (xs : list Q) : result Q :=
  match xs with
  | [] => Raise ValueError
  | _ => Return (Qmean xs)
  end.

(** *** Currency pairs *)

(** A value of [pair_performance]. *)
Record pair_data : Type := mkPairData {
  trades : nat;
  profit : Q;
  wins : nat
}.

(** [pair_performance]: keys in insertion order. *)
Definition pair_table : Type := list (string * pair_data).

(** The updates of [pair_performance[pair]] for one trade with result
    [p]; a new key starts from the defaults of the [defaultdict]. *)
Fixpoint record_trade (pair : string) (p : Q) (tbl : pair_table)
  : pair_table :=
  match tbl with
  | [] => [(pair, mkPairData 1 (0 + p) (if Qgtb p 0 then 1 else 0))]
  | (k, v) :: rest =>
      if String.eqb k pair
      then (k, mkPairData (S (trades v)) (profit v + p)
                 (if Qgtb p 0 then S (wins v) else wins v)) :: rest
      else (k, v) :: record_trade pair p rest
  end.

Definition pair_of (t : HistoricalTrade) : string :=
  replace_char "_"%char "/"%char (instrument t).

Definition pair_performance (closed_trades : list HistoricalTrade)
  : pair_table :=
  fold_left (fun tbl t => record_trade (pair_of t) (pl t) tbl)
    closed_trades [].

(** [sorted(items, key=profit)], which is stable: [first a b] tells that
    an item of profit [a] stays ahead of a later item of profit [b]. *)
Fixpoint insert_item (first : Q -> Q -> bool) (x : string * pair_data)
    (l : pair_table) : pair_table :=
  match l with
  | [] => [x]
  | y :: l' =>
      if first (profit (snd x)) (profit (snd y)) then x :: l
      else y :: insert_item first x l'
  end.

Definition sorted_items (first : Q -> Q -> bool) (tbl : pair_table)
  : pair_table :=
  fold_right (insert_item first) [] tbl.

Definition ascending (a b : Q) : bool := Qle_bool a b.
Definition descending (a b : Q) : bool := Qle_bool b a.

(** [sorted(..., reverse=True)[:3]] and [sorted(...)[:3]] *)
Definition best_pairs (tbl : pair_table) : pair_table :=
  firstn 3 (sorted_items descending tbl).
Definition worst_pairs (tbl : pair_table) : pair_table :=
  firstn 3 (sorted_items ascending tbl).

(** *** Durations *)

(** [[t.duration_hours for t in ts if t.duration_hours]]: [None] and
    [0.0] both count as false. *)
Definition durations (ts : list HistoricalTrade) : list Q :=
  flat_map (fun t => match duration_hours t with
                     | Some h => if Qeq_bool h 0 then [] else [h]
                     | None => []
                     end) ts.

Record duration_data : Type := mkDurations {
  avg_duration_hours : Q;
  avg_winner_duration : Q;
  avg_loser_duration : Q
}.

(** [duration_analysis]: [None] is the empty dictionary. *)
Definition duration_analysis
    (closed_trades winners losers : list HistoricalTrade)
  : result (option duration_data) :=
  match closed_trades, durations closed_trades with
  | _ :: _, _ :: _ =>
      a <- mean (durations closed_trades) ;;
      w <- match winners with
           | [] => Return 0
           | _ => mean (durations winners)
           end ;;
      l <- match losers with
           | [] => Return 0
           | _ => mean (durations losers)
           end ;;
      Return (Some (mkDurations a w l))
  | _, _ => Return None
  end.

(** *** Bot decisions *)

Definition executed_decisions (ds : list BotDecision) : list BotDecision :=
  filter (fun d => String.eqb (action_taken d) "EXECUTED") ds.
Definition rejected_decisions (ds : list BotDecision) : list BotDecision :=
  filter (fun d => String.eqb (action_taken d) "REJECTED") ds.

(** [decision.rejection_reason or 'Unknown'] *)
Definition reason_of (d : BotDecision) : string :=
  match rejection_reason d with
  | None => "Unknown"
  | Some r => if String.eqb r "" then "Unknown" else r
  end.

(** [rejection_reasons[r] += 1] *)
Fixpoint count_reason (r : string) (tbl : list (string * nat))
  : list (string * nat) :=
  match tbl with
  | [] => [(r, 1%nat)]
  | (k, n) :: rest =>
      if String.eqb k r then (k, S n) :: rest
      else (k, n) :: count_reason r rest
  end.

Record bot_data : Type := mkBot {
  total_decisions : nat;
  executed_count : nat;
  rejected_count : nat;
  execution_rate : Q;
  avg_confidence_executed : Q;
  rejection_reasons : list (string * nat)
}.

(** [[d.confidence for d in executed_decisions if d.confidence > 0]] *)
Definition positive_confidences (ds : list BotDecision) : list Q :=
  map confidence (filter (fun d => Qgtb (confidence d) 0) ds).

(** [bot_analysis]: [None] is the empty dictionary. *)
Definition bot_analysis (bot_decisions : list BotDecision)
  : result (option bot_data) :=
  match bot_decisions with
  | [] => Return None
  | _ =>
      let executed := executed_decisions bot_decisions in
      let rejected := rejected_decisions bot_decisions in
      let reasons :=
        fold_left (fun tbl d => count_reason (reason_of d) tbl) rejected [] in
      avg <- match executed with
             | [] => Return 0
             | _ => mean (positive_confidences executed)
             end ;;
      Return (Some (mkBot (List.length bot_decisions) (List.length executed)
                      (List.length rejected)
                      (inject_Z (Z.of_nat (List.length executed))
                       / inject_Z (Z.of_nat (List.length bot_decisions)))
                      avg reasons))
  end.

(** *** Open positions *)

Record position : Type := mkPosition {
  pos_pair : string;
  pos_type : string;
  pos_pl : Q;
  pos_duration : option Q
}.

Definition position_of (t : HistoricalTrade) : position :=
  mkPosition (pair_of t) (trade_type t) (pl t) (duration_hours t).

(** *** The analysis *)

(** The dictionary the analysis returns, without its [time_analysis]: the
    hour and weekday tables read the wall-clock fields of [open_time],
    raise nothing and feed no other section. *)
Record report : Type := mkReport {
  overall : overall_performance;
  best_performing : pair_table;
  worst_performing : pair_table;
  duration_section : option duration_data;
  bot_section : option bot_data;
  positions_count : nat;
  total_unrealized_pl : Q;
  positions : list position
}.

(** What [analyze_what_worked_vs_failed] returns: the [error] dictionary
    of an empty history, the [error] dictionary of its [except] clause, or
    the analysis. *)
Inductive outcome : Type :=
| NoTrades
| Failed (e : exn)
| Report (r : report).

Definition analyze_what_worked_vs_failed
    (historical_trades : list HistoricalTrade)
    (bot_decisions : list BotDecision) : outcome :=
  match Historical.analyze_what_worked_vs_failed historical_trades with
  | AnalysisError => NoTrades
  | Analysis overall =>
      let closed_trades := filter is_closed historical_trades in
      let open_trades := filter is_open historical_trades in
      let winners := filter is_winner closed_trades in
      let losers := filter is_loser closed_trades in
      let pair_performance := pair_performance closed_trades in
      match
        (duration <- duration_analysis closed_trades winners losers ;;
         bot <- bot_analysis bot_decisions ;;
         Return (mkReport overall (best_pairs pair_performance)
                   (worst_pairs pair_performance) duration bot
                   (List.length open_trades) (Qsum (map pl open_trades))
                   (map position_of open_trades)))
      with
      | Return r => Report r
      | Raise e => Failed e
      end
  end.

(** *** The report *)

(** A line of a pair list: pair, profit, trades, win rate. *)
Definition pair_line (item : string * pair_data) : string * Q * nat * Q :=
  (fst item, profit (snd item), trades (snd item),
   if (0 <? trades (snd item))%nat
   then inject_Z (Z.of_nat (wins (snd item)))
        / inject_Z (Z.of_nat (trades (snd item)))
   else 0).

(** A line of the open positions: [{duration:.1f}] raises [TypeError] on
    [None]. *)
Definition position_line (p : position)
  : result (string * string * string * Q * Q) :=
  let status :=
    if Qgtb (pos_pl p) 0 then "🟢"
    else if Qltb (pos_pl p) 0 then "🔴" else "⚪" in
  match pos_duration p with
  | Some h => Return (status, pos_pair p, pos_type p, pos_pl p, h)
  | None => Raise TypeError
  end.

Fixpoint position_lines (ps : list position)
  : result (list (string * string * string * Q * Q)) :=
  match ps with
  | [] => Return []
  | p :: rest =>
      l <- position_line p ;;
      ls <- position_lines rest ;;
      Return (l :: ls)
  end.

(** The text [generate_insights_report] returns, as the data it prints:
    the error line, or the sections present. *)
Inductive insights : Type :=
| ErrorLine
| Insights (stats : overall_performance)
    (best worst : list (string * Q * nat * Q))
    (bot : option bot_data) (top_reasons : list (string * nat))
    (duration : option duration_data)
    (open_positions : list (string * string * string * Q * Q)).

Definition generate_insights_report (analysis : outcome) : result insights :=
  match analysis with
  | NoTrades => Return ErrorLine
  | Failed _ => Return ErrorLine
  | Report r =>
      ps <- position_lines (positions r) ;;
      Return (Insights (overall r)
                (map pair_line (firstn 3 (best_performing r)))
                (map pair_line (firstn 3 (worst_performing r)))
                (bot_section r)
                (match bot_section r with
                 | Some b => firstn 5 (rejection_reasons b)
                 | None => []
                 end)
                (duration_section r) ps)
  end.

(** [_generate_sample_bot_logs] *)
Definition _generate_sample_bot_logs : string :=
  "
2024-06-01 08:15:23 - INFO - 🔍 Scanning for ultra-refined trading signals...
2024-06-01 08:15:25 - INFO - 📡 Signal found for EUR/USD: BUY (Confidence: 72%)
2024-06-01 08:15:27 - INFO - ✅ ULTRA-REFINED TRADE EXECUTED:
2024-06-01 08:15:27 - INFO - 📊 EUR/USD BUY | Order ID: 12345
2024-06-01 08:15:27 - INFO - 💰 Position Size: 5000 units
2024-06-01 08:15:27 - INFO - 🎯 Entry: 1.15200
2024-06-01 08:15:27 - INFO - 🛡️ Stop Loss: 1.15000 (20.0 pips)
2024-06-01 08:15:27 - INFO - 🎯 Take Profit: 1.15600 (40.0 pips)
2024-06-01 08:15:27 - INFO - 📈 Risk/Reward: 2.0

2024-06-01 10:30:15 - INFO - 📡 Signal found for GBP/USD: SELL (Confidence: 65%)
2024-06-01 10:30:17 - INFO - ✅ ULTRA-REFINED TRADE EXECUTED:
2024-06-01 10:30:17 - INFO - 📊 GBP/USD SELL | Order ID: 12346
2024-06-01 10:30:17 - INFO - 💰 Position Size: 10000 units
2024-06-01 10:30:17 - INFO - 🎯 Entry: 1.35800
2024-06-01 10:30:17 - INFO - 🛡️ Stop Loss: 1.36100 (30.0 pips)
2024-06-01 10:30:17 - INFO - 🎯 Take Profit: 1.35200 (60.0 pips)
2024-06-01 10:30:17 - INFO - 📈 Risk/Reward: 2.0

2024-06-01 14:45:30 - INFO - 📡 Signal found for AUD/USD: SELL (Confidence: 58%)
2024-06-01 14:45:32 - INFO - ❌ Signal rejected: Low confidence 58%

2024-06-01 16:20:10 - INFO - 📡 Signal found for AUD/USD: SELL (Confidence: 68%)
2024-06-01 16:20:12 - INFO - ✅ ULTRA-REFINED TRADE EXECUTED:
2024-06-01 16:20:12 - INFO - 📊 AUD/USD SELL | Order ID: 12347
2024-06-01 16:20:12 - INFO - 💰 Position Size: 5000 units
2024-06-01 16:20:12 - INFO - 🎯 Entry: 0.64950
2024-06-01 16:20:12 - INFO - 🛡️ Stop Loss: 0.65150 (20.0 pips)
2024-06-01 16:20:12 - INFO - 🎯 Take Profit: 0.64550 (40.0 pips)
2024-06-01 16:20:12 - INFO - 📈 Risk/Reward: 2.0

2024-06-02 09:15:45 - INFO - 🎯 TRADE CLOSED: EUR/USD BUY | CLOSED_WIN | 35.0 pips | $175.00

2024-06-03 11:30:22 - INFO - 🎯 TRADE CLOSED: GBP/USD SELL | CLOSED_LOSS | -15.0 pips | -$150.00
        ".

(** A line of the last branch of the parser's chain. *)
Definition is_signal_line (line : string) : bool :=
  contains "Signal found for" line && contains "Confidence:" line.

(** No signal line of [lines] arrives while a builder is open, when the
    parser runs from the state [st]. *)
Fixpoint signals_before_builders (now : datetime) (lines : list string)
    (st : parser_state) : bool :=
  match lines with
  | [] => true
  | line :: rest =>
      (negb (is_signal_line line)
       || match current_decision st with None => true | Some _ => false end)
      && signals_before_builders now rest (parse_line now st line)
  end.

Section Pipeline.

Variable fromisoformat : string -> result datetime.
Variable float : string -> result Q.

(** [run_comprehensive_analysis] over what its requests return: the
    ledger, the open trades and the log text.  [now_utc] is the clock of
    the normaliser, [now] that of the parser. *)
Definition run_comprehensive_analysis (now_utc now : datetime)
    (transactions : list ledger_entry)
    (open_trades : option (list open_trade_entry)) (log_content : string)
  : result insights :=
  let historical_trades :=
    fetch_extended_trade_history fromisoformat float now_utc transactions
      open_trades in
  let bot_decisions := parse_bot_decisions now log_content in
  generate_insights_report
    (analyze_what_worked_vs_failed historical_trades bot_decisions).

End Pipeline.

End Analyzer.

(** ** comprehensive_trading_analysis.py: the bot's closed positions and
    their comparison with the ledger *)

Module Railway.

Import PyStr.
Local Open Scope string_scope.

(** An entry of [bot_closed_positions]. *)
Record closed_position : Type := mkClosed {
  cp_pair : string;
  cp_trade_id : string;
  cp_source : string
}.

(** A row of the [ORDER_FILL] frame, with the columns the comparison
    reads; [TICKET] is the text [astype(str)] gives. *)
Record fill : Type := mkFill {
  TICKET : string;
  INSTRUMENT : string;
  PL_NUMERIC : Q
}.

(** The fields of the analyzer the comparison depends on. *)
Record analyzer : Type := mkAnalyzer {
  oanda_transactions : list fill;
  railway_logs : string;
  bot_closed_positions : list closed_position
}.

Definition POSITION_MARKER : string := "🔍 Detected closed position:".

(** [🔍 Detected closed position: (\w+/\w+) \(Trade ID: (\d+)\)] *)
Definition closed_position_re : Re.pattern :=
  [Re.Lit "🔍 Detected closed position: "; Re.Plus is_word; Re.Lit "/";
   Re.Plus is_word; Re.Lit " (Trade ID: "; Re.Plus is_digit; Re.Lit ")"].

(** The body of the loop of [parse_railway_logs]: what a line appends. *)
Definition parse_line (line : string) : list closed_position :=
  if contains POSITION_MARKER line then
    match Re.search closed_position_re line with
    | Some g =>
        [mkClosed (Re.part 1 g ++ Re.part 2 g ++ Re.part 3 g) (Re.part 5 g)
           "railway_bot"]
    | None => []
    end
  else [].

(** [parse_railway_logs]: it reads the [railway_logs] of the analyzer and
    stores what it returns. *)
Definition parse_railway_logs (a : analyzer)
  : list closed_position * analyzer :=
  let closed_positions := flat_map parse_line (split_lines (railway_logs a)) in
  (closed_positions,
   mkAnalyzer (oanda_transactions a) (railway_logs a) closed_positions).

(** [_get_sample_logs] *)
Definition _get_sample_logs : string :=
  "
INFO:__main__:🔍 Detected closed position: USD/CAD (Trade ID: 2904)
INFO:__main__:🔍 Detected closed position: USD/JPY (Trade ID: 2908)
INFO:__main__:🔍 Detected closed position: USD/JPY (Trade ID: 2967)
INFO:__main__:🔍 Detected closed position: USD/CHF (Trade ID: 2971)
INFO:__main__:🔍 Detected closed position: USD/CAD (Trade ID: 2979)
INFO:__main__:🔍 Detected closed position: NZD/USD (Trade ID: 2983)
INFO:__main__:🔍 Detected closed position: USD/JPY (Trade ID: 2993)
INFO:__main__:🔍 Detected closed position: USD/CHF (Trade ID: 2997)
INFO:__main__:🔍 Detected closed position: USD/JPY (Trade ID: 3017)
INFO:__main__:⏸️ Daily trade limit reached (12/12)
INFO:__main__:🚀 Starting trading session...
INFO:__main__:📊 Open positions: 3
INFO:__main__:💰 Account Balance: $10,114.99
INFO:__main__:📊 NAV: $10,125.39
INFO:__main__:📈 Margin Used: $594.74
INFO:__main__:📉 Margin Available: $9,531.69
INFO:__main__:💚 Health check passed - Balance: $10,114.99
INFO:__main__:📈 Performance: $+115.00 (+1.15%) since start
        ".

(** [fetch_railway_logs]: [cli] is the output of [railway logs] when the
    command ran and returned 0, and [None] when it returned another code,
    timed out or could not be started.  Only the first case assigns
    [self.railway_logs]. *)
Definition fetch_railway_logs (cli : option string) (a : analyzer)
  : string * analyzer :=
  match cli with
  | Some stdout =>
      (stdout, mkAnalyzer (oanda_transactions a) stdout
                 (bot_closed_positions a))
  | None => (_get_sample_logs, a)
  end.

(** [set(xs)]: only its members and its size are read. *)
Definition to_set (xs : list string) : list string := nodup string_dec xs.

Definition member (x : string) (s : list string) : bool :=
  existsb (String.eqb x) s.

(** [matched_analysis], without its [pairs] counts. *)
Record matched_data : Type := mkMatched {
  m_count : nat;
  m_total_pnl : Q;
  m_avg_pnl : Q
}.

Record comparison : Type := mkComparison {
  bot_detected_trades : nat;
  oanda_total_trades : nat;
  matched_trades : nat;
  bot_only_trades : nat;
  oanda_only_trades : nat;
  sync_percentage : Q;
  matched_analysis : option matched_data
}.

(** [compare_bot_vs_oanda]; [None] is the [error] dictionary of an empty
    frame. *)
Definition compare_bot_vs_oanda (a : analyzer) : option comparison :=
  let bot_trade_ids := to_set (map cp_trade_id (bot_closed_positions a)) in
  match oanda_transactions a with
  | [] => None
  | df =>
      let oanda_trade_ids := to_set (map TICKET df) in
      let matched :=
        filter (fun x => member x oanda_trade_ids) bot_trade_ids in
      let bot_only :=
        filter (fun x => negb (member x oanda_trade_ids)) bot_trade_ids in
      let oanda_only :=
        filter (fun x => negb (member x bot_trade_ids)) oanda_trade_ids in
      let matched_analysis :=
        match matched with
        | [] => None
        | _ =>
            let matched_df :=
              filter (fun r => member (TICKET r) matched) df in
            Some (mkMatched (List.length matched_df)
                    (Qsum (map PL_NUMERIC matched_df))
                    (Qmean (map PL_NUMERIC matched_df)))
        end in
      Some (mkComparison (List.length bot_trade_ids)
              (List.length oanda_trade_ids) (List.length matched)
              (List.length bot_only) (List.length oanda_only)
              (match bot_trade_ids with
               | [] => 0
               | _ => inject_Z (Z.of_nat (List.length matched))
                      / inject_Z (Z.of_nat (List.length bot_trade_ids)) * 100
               end)
              matched_analysis)
  end.

(** The analyzer after [__init__] and a [load_oanda_transactions] that
    read the frame [df]. *)
Definition loaded (df : list fill) : analyzer := mkAnalyzer df "" [].

(** The steps of [generate_comprehensive_report] up to the comparison:
    the value [fetch_railway_logs] returns is dropped. *)
Definition comparison_of_report (df : list fill) (cli : option string)
  : option comparison :=
  let a1 := snd (fetch_railway_logs cli (loaded df)) in
  let a2 := snd (parse_railway_logs a1) in
  compare_bot_vs_oanda a2.

(** The line the bot writes for a closed position. *)
Definition position_line (prefix pair1 pair2 trade_id : string) : string :=
  prefix ++ "🔍 Detected closed position: " ++ pair1 ++ "/" ++ pair2
  ++ " (Trade ID: " ++ trade_id ++ ")".

(** Every character of [s] is in the class [f]. *)
Fixpoint all_in (f : ascii -> bool) (s : string) : bool :=
  match s with
  | EmptyString => true
  | String c s' => f c && all_in f s'
  end.

Definition word (s : string) : bool :=
  negb (String.eqb s "") && all_in is_word s.
Definition digits (s : string) : bool :=
  negb (String.eqb s "") && all_in is_digit s.

End Railway.

(** ** confidence_vs_winrate_analysis.py: simulated confidences and the
    confidence bins *)

Module Bins.

Import PyStr ConfidenceWinRate.
Local Open Scope string_scope.

(** A float that may be [nan]: the mean of an empty selection. *)
Inductive value : Type :=
| Number (q : Q)
| NotANumber.

(** *** simulate_confidence_levels *)

(** What the simulation reads of a row of the frame.  [INSTRUMENT] is
    [None] for a missing value or one that is no text, [hour] is [None]
    without a transaction date, and [random_factor] is the draw of
    [np.random.normal(0, 0.08)] for the row. *)
Record trade_row : Type := mkTradeRow {
  INSTRUMENT : option string;
  UNITS : Q;
  hour : option Z;
  random_factor : Q;
  PL : Q
}.

(** [pair_bonuses.get(pair_formatted, 0)] *)
Definition pair_bonus (pair_formatted : string) : Q :=
  if String.eqb pair_formatted "USD/CAD" then 0.15
  else if String.eqb pair_formatted "USD/CHF" then 0.12
  else if String.eqb pair_formatted "GBP/USD" then 0.05
  else if String.eqb pair_formatted "EUR/USD" then 0.02
  else if String.eqb pair_formatted "AUD/USD" then - 0.05
  else if String.eqb pair_formatted "NZD/USD" then - 0.08
  else if String.eqb pair_formatted "USD/JPY" then 0.08
  else 0.

(** [max(0.45, min(0.95, base_confidence))] *)
Definition clamp (base_confidence : Q) : Q :=
  let m := if Qltb base_confidence 0.95 then base_confidence else 0.95 in
  if Qgtb m 0.45 then m else 0.45.

(** The body of the loop over the rows. *)
Definition confidence_of (row : trade_row) : Q :=
  let base_confidence := 0.6 in
  let pair := dget (INSTRUMENT row) "UNKNOWN" in
  let pair_formatted := replace_char "_"%char "/"%char pair in
  let base_confidence := base_confidence + pair_bonus pair_formatted in
  let units := Qabs (UNITS row) in
  let base_confidence :=
    if Qgtb units 15000 then base_confidence + 0.08
    else if Qgtb units 10000 then base_confidence + 0.05
    else if Qltb units 5000 then base_confidence - 0.03
    else base_confidence in
  let base_confidence :=
    match hour row with
    | Some h =>
        if ((13 <=? h) && (h <=? 17))%Z then base_confidence + 0.06
        else if ((22 <=? h) || (h <=? 6))%Z then base_confidence - 0.04
        else base_confidence
    | None => base_confidence
    end in
  let base_confidence := base_confidence + random_factor row in
  let pnl := PL row in
  let base_confidence :=
    if Qgtb pnl 50 then base_confidence + 0.05
    else if Qltb pnl (- 30) then base_confidence - 0.03
    else base_confidence in
  clamp base_confidence.

(** [simulate_confidence_levels] on a loaded frame: the new column, and
    [ValueError] from [min(confidence_scores)] when the frame has no
    row. *)
Definition simulate_confidence_levels (df : list trade_row)
  : result (list row) :=
  match df with
  | [] => Raise ValueError
  | _ => Return (map (fun r => mkRow (confidence_of r) (PL r)) df)
  end.

(** *** The bins *)

Definition confidence_bins : list Q :=
  [0.5; 0.6; 0.65; 0.7; 0.75; 0.8; 0.85; 0.9; 0.95; 1.0].

(** The intervals between consecutive edges. *)
Fixpoint intervals (edges : list Q) : list (Q * Q) :=
  match edges with
  | lo :: (hi :: _) as rest => (lo, hi) :: intervals rest
  | _ => []
  end.

(** The categories of [pd.cut]: the label [f"{lo:.0%}-{hi:.0%}"] of each
    interval, with its edges. *)
Definition categories : list (string * (Q * Q)) :=
  combine
    ["50%-60%"; "60%-65%"; "65%-70%"; "70%-75%"; "75%-80%"; "80%-85%";
     "85%-90%"; "90%-95%"; "95%-100%"]
    (intervals confidence_bins).

(** [pd.cut] puts a value in the interval that is open on the left and
    closed on the right. *)
Definition in_bin (edges : Q * Q) (r : row) : bool :=
  Qltb (fst edges) (SIMULATED_CONFIDENCE r)
  && Qle_bool (SIMULATED_CONFIDENCE r) (snd edges).

Record bin_record : Type := mkBin {
  confidence_range : string;
  avg_confidence : Q;
  bin_total_trades : nat;
  winning_trades : nat;
  win_rate : Q;
  total_pnl : Q;
  avg_winner : Q;
  avg_loser : value;
  profit_factor : value
}.

Definition winner (r : row) : bool := Qgtb (PL_NUMERIC r) 0.
Definition loser (r : row) : bool := Qltb (PL_NUMERIC r) 0.

(** The mean of a selection of a column: [nan] when nothing is selected. *)
Definition column_mean (xs : list Q) : value :=
  match xs with
  | [] => NotANumber
  | _ => Number (Qmean xs)
  end.

(** The dictionary appended for a bin with the rows [bin_data]. *)
Definition bin_entry (bin_label : string) (bin_data : list row)
  : bin_record :=
  let total_trades := List.length bin_data in
  let winning_trades := List.length (filter winner bin_data) in
  let win_rate :=
    if (0 <? total_trades)%nat
    then inject_Z (Z.of_nat winning_trades)
         / inject_Z (Z.of_nat total_trades)
    else 0 in
  let avg_winner :=
    if (0 <? winning_trades)%nat
    then Qmean (map PL_NUMERIC (filter winner bin_data)) else 0 in
  let avg_loser :=
    if (0 <? total_trades - winning_trades)%nat
    then column_mean (map PL_NUMERIC (filter loser bin_data))
    else Number 0 in
  let total_pnl := Qsum (map PL_NUMERIC bin_data) in
  let avg_confidence := Qmean (map SIMULATED_CONFIDENCE bin_data) in
  let profit_factor :=
    match avg_loser with
    | NotANumber => NotANumber
    | Number l =>
        if negb (Qeq_bool l 0) then Number (Qabs (avg_winner / l))
        else Number 0
    end in
  mkBin bin_label avg_confidence total_trades winning_trades win_rate
    total_pnl avg_winner avg_loser profit_factor.

(** [bin_analysis]: the categories in their order, the empty ones
    skipped. *)
Definition bin_analysis (df : list row) : list bin_record :=
  flat_map (fun category =>
              match filter (in_bin (snd category)) df with
              | [] => []
              | bin_data => [bin_entry (fst category) bin_data]
              end)
    categories.

(** *** print_analysis_results *)

(** [max(items, key=win_rate)]: the first item of the highest key. *)
Fixpoint max_by_win_rate (best : bin_record) (items : list bin_record)
  : bin_record :=
  match items with
  | [] => best
  | b :: rest =>
      max_by_win_rate (if Qgtb (win_rate b) (win_rate best) then b else best)
        rest
  end.

(** [min(items, key=win_rate)]: the first item of the lowest key. *)
Fixpoint min_by_win_rate (worst : bin_record) (items : list bin_record)
  : bin_record :=
  match items with
  | [] => worst
  | b :: rest =>
      min_by_win_rate
        (if Qltb (win_rate b) (win_rate worst) then b else worst) rest
  end.

(** [min(xs)] of floats, [xs] not empty. *)
Fixpoint min_from (m : Q) (xs : list Q) : Q :=
  match xs with
  | [] => m
  | x :: rest => min_from (if Qltb x m then x else m) rest
  end.

(** The key insights [print_analysis_results] prints. *)
Record insights : Type := mkInsights {
  best_bin : bin_record;
  worst_bin : bin_record;
  min_good_confidence : option Q
}.

(** The key insights of [print_analysis_results]: the two selections
    raise [ValueError] on an empty [bin_analysis]. *)
Definition key_insights (bin_analysis : list bin_record) : result insights :=
  match bin_analysis with
  | [] => Raise ValueError
  | b :: rest =>
      let profitable_bins :=
        filter (fun b => Qgtb (win_rate b) 0.15) bin_analysis in
      Return (mkInsights (max_by_win_rate b rest) (min_by_win_rate b rest)
                (match map avg_confidence profitable_bins with
                 | [] => None
                 | c :: cs => Some (min_from c cs)
                 end))
  end.

(** The rows [pd.cut] puts in some bin. *)
Definition binned (r : row) : bool :=
  Qltb 0.5 (SIMULATED_CONFIDENCE r)
  && Qle_bool (SIMULATED_CONFIDENCE r) 1.0.

End Bins.

(** ** Views of the normaliser's data *)

Module Trades.

Import Historical.
Local Open Scope string_scope.

(** [trades.keys()] *)
Definition keys (d : trades_dict) : list string := map fst d.

(** The [MARKET_ORDER] entries of a ledger. *)
Definition market_orders (txs : list ledger_entry) : list ledger_entry :=
  filter (fun tx => String.eqb (dget (tx_type tx) "") "MARKET_ORDER") txs.

End Trades.

(** ** More sample records *)

Module Samples.

Import PyTime.
Local Open Scope string_scope.

(** A market order as the broker lists it: no [price], no [pl]. *)
Definition raw_market_order : Fetcher.raw_transaction :=
  Fetcher.mkRaw (Some "MARKET_ORDER") (Some "12345")
    (Some "2024-06-01T08:15:37") (Some "EUR_USD") (Some "5000") None None
    (Some "CLIENT_ORDER") None.

(** A stand-in for [datetime.fromisoformat] on a text without offset. *)
Definition iso_plain (s : string) : result datetime :=
  if String.eqb s "2024-06-01T08:15:37"
  then Return (mkDatetime false (Examples.T0 + 10000000))
  else Raise ValueError.

(** An order fill whose [tradesClosed] list is empty and which opens no
    trade. *)
Definition fill_closing_nothing : Historical.ledger_entry :=
  Historical.mkEntry (Some "ORDER_FILL") (Some "102")
    (Some "2024-06-01T09:15:27Z") (Some "EUR_USD") (Some "5000")
    (Some "1.15600") (Some "0.00") None (Some []).

(** A market order without [time]. *)
Definition market_order_no_time : Historical.ledger_entry :=
  Historical.mkEntry (Some "MARKET_ORDER") (Some "103") None
    (Some "EUR_USD") (Some "5000") (Some "1.15205") None None None.

(** Two open trades of the broker's answer; the time of the second has no
    form [Examples.iso_sample] knows. *)
Definition open_entry_200 : Historical.open_trade_entry :=
  Historical.mkOpenEntry (Some "200") (Some "2024-06-01T09:15:27Z")
    (Some "USD_CAD") (Some "1000") (Some "1.36000") (Some "12.50").

Definition open_entry_bad_time : Historical.open_trade_entry :=
  Historical.mkOpenEntry (Some "201") (Some "yesterday")
    (Some "USD_CAD") (Some "1000") (Some "1.36000") (Some "1.00").

Definition now_sample : datetime := mkDatetime true (Examples.T0 + 7200000000).

Definition open_trade_200 : Historical.HistoricalTrade :=
  Historical.mkTrade "200" (mkDatetime true (Examples.T0 + 3600000000)) None
    "USD_CAD" 1000 (1 + 36000 / 100000) None (12 + 50 / 100)
    (Some (total_seconds 3600000000%Z / 3600)) "BUY" "OPEN".

(** The trade of a ledger that holds one market order and nothing else. *)
Definition unclosed_100 : Historical.HistoricalTrade :=
  Eval vm_compute in
    hd Examples.open_position
      (Historical.fetch_extended_trade_history Examples.iso_sample
         PyNum.float_of_string now_sample [Examples.market_order_100] None).

(** An analyzer that parsed the sample text and loaded three fills, two
    of them under one ticket. *)
Definition compared : Railway.analyzer :=
  snd (Railway.parse_railway_logs
         (Railway.mkAnalyzer
            [Railway.mkFill "2904" "USD_CAD" 12;
             Railway.mkFill "2904" "USD_CAD" (-3);
             Railway.mkFill "77" "EUR_USD" 5]
            Railway._get_sample_logs [])).

(** A row with every bonus of the simulation and a large draw. *)
Definition crowded_row : Bins.trade_row :=
  Bins.mkTradeRow (Some "USD_CAD") 20000 (Some 14%Z) 0.3 120.

(** A "trade executed" line that names the pair, followed by an entry
    price with a full stop after it. *)
Definition marker_with_pair : string :=
  "2024-06-01 08:15:27 - INFO - ✅ ULTRA-REFINED TRADE EXECUTED: EUR/USD BUY".

Definition entry_with_full_stop : string :=
  "2024-06-01 08:15:27 - INFO - 🎯 Entry: 1.15200.".

End Samples.

(** * Properties *)

Unset Implicit Arguments.

(** ** The reconciler *)

Section Reconciler.

Import PyTime PyStr Live MatchingRule Examples.
Local Open Scope string_scope.
Local Open Scope list_scope.

Lemma Qltb_lt (a b : Q) : Qltb a b = true <-> a < b.
Proof.
  unfold Qltb. rewrite negb_true_iff. split; intro H.
  - apply Qnot_le_lt. intro L. apply Qle_bool_iff in L. congruence.
  - destruct (Qle_bool b a) eqn:E; [|reflexivity].
    apply Qle_bool_iff in E. exfalso. exact (Qlt_not_le _ _ H E).
Qed.

Lemma candidateb_candidate (i : BotTradeIntention) (t : OANDATransaction) :
  candidateb i t = true <-> candidate i t.
Proof.
  unfold candidateb, candidate.
  rewrite !andb_true_iff, String.eqb_eq, !Qle_bool_iff.
  split.
  - intros [[[[H1 H2] H3] H4] H5]. repeat split; auto.
    + intro E. apply String.eqb_eq in E. rewrite E in H2. simpl in H2.
      now apply Qltb_lt.
    + intro E. apply String.eqb_eq in E. rewrite E in H3. simpl in H3.
      now apply Qltb_lt.
  - intros (H1 & H2 & H3 & H4 & H5). repeat split; auto.
    + destruct (String.eqb (signal_type i) "BUY") eqn:E; [|reflexivity].
      simpl. apply Qltb_lt, H2. now apply String.eqb_eq.
    + destruct (String.eqb (signal_type i) "SELL") eqn:E; [|reflexivity].
      simpl. apply Qltb_lt, H3. now apply String.eqb_eq.
Qed.

Lemma trades_match_candidateb (i : BotTradeIntention) (t : OANDATransaction) :
  comparable i t = true -> _trades_match i t = Return (candidateb i t).
Proof.
  unfold comparable. rewrite andb_true_iff, negb_true_iff. intros [Ha Hp].
  unfold _trades_match, candidateb, dt_sub, py_div, Qgtb, Qltb.
  rewrite Ha, Hp. simpl.
  destruct (String.eqb (replace_char "/" "_" (pair i)) (instrument t));
    simpl; [|reflexivity].
  destruct (String.eqb (signal_type i) "BUY"); simpl;
    destruct (Qle_bool (units t) 0); simpl; try reflexivity;
    destruct (String.eqb (signal_type i) "SELL"); simpl;
    destruct (Qle_bool 0 (units t)); simpl; try reflexivity;
    destruct (Qle_bool _ 300); simpl; try reflexivity;
    destruct (Qle_bool _ (1 # 1000)); reflexivity.
Qed.

(** Without any assumption: the answer is true exactly on the candidates
    whose quantities are defined. *)
Lemma trades_match_true_iff (i : BotTradeIntention) (t : OANDATransaction) :
  _trades_match i t = Return true
  <-> comparable i t = true /\ candidate i t.
Proof.
  split.
  - intros H. assert (C : comparable i t = true).
    { unfold _trades_match, dt_sub, py_div, comparable in *.
      destruct (negb (String.eqb _ (instrument t))); [discriminate|].
      destruct (String.eqb (signal_type i) "BUY" && Qle_bool (units t) 0);
        [discriminate|].
      destruct (String.eqb (signal_type i) "SELL" && Qle_bool 0 (units t));
        [discriminate|].
      destruct (Bool.eqb (dt_aware (timestamp i)) (dt_aware (time t)));
        simpl in *; [|discriminate].
      destruct (Qgtb _ 300); [discriminate|].
      destruct (Qeq_bool (price t) 0); simpl in *; [discriminate|reflexivity]. }
    split; [assumption|]. apply candidateb_candidate.
    rewrite (trades_match_candidateb _ _ C) in H. congruence.
  - intros [C H]. rewrite (trades_match_candidateb _ _ C).
    apply candidateb_candidate in H. now rewrite H.
Qed.



Lemma subseq_length {A : Type} (xs ys : list A) :
  subseq xs ys -> (List.length xs <= List.length ys)%nat.
Proof. induction 1; simpl; lia. Qed.

Lemma first_match_in (i : BotTradeIntention) (ts : list OANDATransaction) t :
  first_match i ts = Return (Some t) ->
  In t ts /\ _trades_match i t = Return true.
Proof.
  induction ts as [|t' ts IH]; simpl; [discriminate|].
  destruct (_trades_match i t') as [b|e] eqn:E; simpl; [|discriminate].
  destruct b.
  - intros [= <-]. auto.
  - intros H. destruct (IH H). auto.
Qed.

Lemma match_loop_claims (ts : list OANDATransaction) :
  forall (ins : list BotTradeIntention) matches ms,
    match_loop ts matches ins = Return ms ->
    exists new,
      ms = matches ++ new
      /\ subseq (map fst new) (filter executed ins)
      /\ (forall p, In p new ->
            In (snd p) ts /\ _trades_match (fst p) (snd p) = Return true).
Proof.
  induction ins as [|i ins IH]; intros matches ms; simpl.
  - intros [= <-]. exists []. rewrite app_nil_r.
    split; [reflexivity|]. split; [apply subseq_nil|]. intros p [].
  - destruct (executed i); simpl.
    + destruct (first_match i ts) as [[t|]|e] eqn:E; simpl;
        [| |discriminate]; intros H.
      * destruct (IH _ _ H) as (new & -> & Hs & Hin).
        exists ((i, t) :: new). rewrite <- app_assoc. simpl.
        split; [reflexivity|]. split; [apply subseq_take; assumption|].
        intros p [<-|Hp]; [now apply first_match_in|now apply Hin].
      * destruct (IH _ _ H) as (new & -> & Hs & Hin).
        exists new. split; [reflexivity|].
        split; [apply subseq_skip; assumption|assumption].
    + intros H. exact (IH _ _ H).
Qed.

(** The specification's two examples: the fill at 1.15205 matches, the
    fill at 1.15350 does not. *)
Example spec_example_match : _trades_match i1 t_ok = Return true.
Proof. reflexivity. Qed.

Example spec_example_non_match : _trades_match i1 t_far = Return false.
Proof. reflexivity. Qed.

(** C1, as stated, fails: two executed intentions that both fit the one
    transaction of the ledger are both paired with it, so the result holds
    the same Transaction in two MatchedPairs. *)
Lemma C1_transaction_claimed_twice :
  exists ms,
    match_trades [i1; i2] [t_ok] = Return ms /\ ~ NoDup (map snd ms).
Proof.
  exists [(i1, t_ok); (i2, t_ok)]. split; [reflexivity|].
  simpl. intro H. inversion H as [|x l Hn Hd]. apply Hn. now left.
Qed.

(** C1, amended: the result claims each Intention at most once.  The
    intentions of the pairs are a subsequence of the executed intentions
    (so there are at most as many pairs as executed intentions), and every
    paired transaction is a transaction of the ledger that matches its
    intention.  Nothing keeps a transaction from being paired again. *)
Theorem C1_each_intention_claimed_once
    (ins : list BotTradeIntention) (ts : list OANDATransaction)
    (ms : list (BotTradeIntention * OANDATransaction)) :
  match_trades ins ts = Return ms ->
  subseq (map fst ms) (filter executed ins)
  /\ (List.length ms <= List.length (filter executed ins))%nat
  /\ (forall p, In p ms ->
        In (snd p) ts /\ _trades_match (fst p) (snd p) = Return true).
Proof.
  unfold match_trades. intros H.
  destruct (match_loop_claims _ _ _ _ H) as (new & -> & Hs & Hin).
  simpl. split; [assumption|]. split; [|assumption].
  rewrite <- (length_map fst). now apply subseq_length.
Qed.

Lemma C1_each_intention_claimed_once_witness :
  match_trades [i1; i2] [t_ok] = Return [(i1, t_ok); (i2, t_ok)]
  /\ subseq [i1; i2] [i1; i2].
Proof.
  split; [reflexivity|].
  exact (proj1 (C1_each_intention_claimed_once
                  [i1; i2] [t_ok] [(i1, t_ok); (i2, t_ok)] eq_refl)).
Defined.

(** A transaction priced 0 that agrees with an executed intention on
    instrument, direction and time makes the price test divide by zero. *)
Lemma trades_match_zero_price (i : BotTradeIntention) (t : OANDATransaction) :
  candidateb i t = true -> Qeq_bool (price t) 0 = true ->
  Bool.eqb (dt_aware (timestamp i)) (dt_aware (time t)) = true ->
  _trades_match i t = Raise ZeroDivisionError.
Proof.
  unfold candidateb. rewrite !andb_true_iff.
  intros [[[[H1 H2] H3] H4] _] Hp Ha.
  unfold _trades_match, dt_sub, py_div, Qgtb. rewrite H1, Ha, Hp. simpl.
  unfold Qltb in H2, H3.
  destruct (String.eqb (signal_type i) "BUY"); simpl in *;
    [rewrite negb_true_iff in H2; rewrite H2|]; simpl;
    (destruct (String.eqb (signal_type i) "SELL"); simpl in *;
     [rewrite negb_true_iff in H3; rewrite H3|]; simpl;
     rewrite H4; reflexivity).
Qed.

(** A naive timestamp, as [strptime] yields, against an offset-aware time,
    as [fromisoformat] yields for a text with an offset: the time test cannot
    subtract them. *)
Lemma trades_match_mixed_times (i : BotTradeIntention) (t : OANDATransaction) :
  replace_char "/" "_" (pair i) = instrument t ->
  signal_type i = "BUY" -> 0 < units t ->
  dt_aware (timestamp i) = false -> dt_aware (time t) = true ->
  _trades_match i t = Raise TypeError.
Proof.
  intros Hi Hs Hu Hn Ha. unfold _trades_match, dt_sub.
  rewrite Hi, Hs, Hn, Ha, String.eqb_refl. simpl.
  apply Qltb_lt in Hu. unfold Qltb in Hu. apply negb_true_iff in Hu.
  rewrite Hu. reflexivity.
Qed.

(** C2: the code at the failing input.  The ledger holds one transaction
    whose price is the default 0; matching the executed intention [i1]
    against it raises [ZeroDivisionError], and [match_trades], which has no
    handler, ends with that error instead of leaving the transaction
    unmatched. *)
Theorem C2_zero_price_aborts_matching :
  _trades_match i1 t_zero = Raise ZeroDivisionError
  /\ match_trades [i1] [t_zero] = Raise ZeroDivisionError.
Proof. split; reflexivity. Qed.



End Reconciler.

(** ** The aggregator: profit factor *)

Section Aggregator.

Import ProfitFactor Examples.
Local Open Scope list_scope.

Lemma fold_Qplus_le (xs : list Q) :
  (forall x, In x xs -> x <= 0) -> forall a, fold_left Qplus xs a <= a.
Proof.
  induction xs as [|x xs IH]; intros H a; simpl; [apply Qle_refl|].
  apply Qle_trans with (a + x).
  - apply IH. intros y Hy. apply H. now right.
  - rewrite <- (Qplus_0_r a) at 2. apply Qplus_le_r. apply H. now left.
Qed.


Lemma fold_Qplus_ge (xs : list Q) :
  (forall x, In x xs -> 0 <= x) -> forall a, a <= fold_left Qplus xs a.
Proof.
  induction xs as [|x xs IH]; intros H a; simpl; [apply Qle_refl|].
  apply Qle_trans with (a + x).
  - rewrite <- (Qplus_0_r a) at 1. apply Qplus_le_r. apply H. now left.
  - apply IH. intros y Hy. apply H. now right.
Qed.

Lemma Qsum_nonneg (xs : list Q) :
  (forall x, In x xs -> 0 <= x) -> 0 <= Qsum xs.
Proof. intros H. now apply fold_Qplus_ge. Qed.











End Aggregator.

(** ** Text *)

Section Text.

Import PyStr.
Local Open Scope string_scope.

Lemma starts_with_app (l s : string) :
  starts_with l s = true -> s = l ++ drop (String.length l) s.
Proof.
  revert s. induction l as [|a l IH]; intros s H; simpl in *; [reflexivity|].
  destruct s as [|b s]; [discriminate|].
  apply andb_true_iff in H. destruct H as [Hab Hl].
  apply Ascii.eqb_eq in Hab. subst b. f_equal. now apply IH.
Qed.

Lemma span_app (f : ascii -> bool) (s run rest : string) :
  span f s = (run, rest) ->
  s = run ++ rest
  /\ (rest = "" \/ exists c r, rest = String c r /\ f c = false).
Proof.
  revert run rest. induction s as [|c s IH]; intros run rest H; simpl in H.
  - injection H as <- <-. split; [reflexivity|now left].
  - destruct (f c) eqn:Hc.
    + destruct (span f s) as [r t]. injection H as <- <-.
      destruct (IH _ _ eq_refl) as [E Hr]. split; [|assumption].
      simpl. now f_equal.
    + injection H as <- <-. split; [reflexivity|].
      right. now exists c, s.
Qed.








Lemma append_assoc (a b c : string) : (a ++ b) ++ c = a ++ b ++ c.
Proof. induction a; simpl; [reflexivity|now f_equal]. Qed.


End Text.

(** ** The event extractor *)

Section Extractor.

Import PyTime PyStr Historical Lifecycle Examples.
Local Open Scope string_scope.
Local Open Scope list_scope.

(** Case analysis on the tests of the parser, in the order the parser
    meets them. *)
Ltac break_test :=
  match goal with
  | |- context [contains ?m ?l] => destruct (contains m l) eqn:?
  | |- context [current_decision ?st] =>
      destruct (current_decision st) eqn:?
  | |- context [Re.search ?p ?l] => destruct (Re.search p l) eqn:?
  | |- context [PyNum.float_of_string ?x] =>
      destruct (PyNum.float_of_string x) eqn:?
  | |- context [line_timestamp ?n ?l] => destruct (line_timestamp n l) eqn:?
  end.

Ltac break_tests := repeat (break_test; simpl in * ).

Lemma filter_snoc {A : Type} (f : A -> bool) (xs : list A) (x : A) :
  filter f (xs ++ [x]) = filter f xs ++ (if f x then [x] else []).
Proof. rewrite filter_app. reflexivity. Qed.

(** What one line does to the executed decisions and to the builder. *)
Lemma parse_line_executed (now : datetime) (st : parser_state) (line : string) :
  builder_ok st ->
  filter is_executed (decisions (parse_line now st line))
  = filter is_executed (decisions st) ++ sealed st line
  /\ builder_ok (parse_line now st line)
  /\ (sealed st line <> [] -> current_decision (parse_line now st line) = None).
Proof.
  unfold builder_ok, parse_line, parse_line_body, sealed, risk_reward_line,
    update_decimal, parse_signal_line.
  intros Hok. break_tests.
  all: rewrite ?filter_snoc, ?app_nil_r; unfold is_executed; simpl.
  all: rewrite ?Hok, ?app_nil_r; simpl.
  all: repeat split; try congruence; try assumption; try reflexivity.
  all: repeat match goal with
              | H : Some _ = Some _ |- _ => injection H as <-
              end; simpl; try reflexivity; try assumption.
Qed.

Lemma parse_lines_executed (now : datetime) (lines : list string) :
  forall st,
    builder_ok st ->
    filter is_executed (decisions (parse_lines now lines st))
    = filter is_executed (decisions st) ++ emitted now lines st
    /\ builder_ok (parse_lines now lines st).
Proof.
  unfold parse_lines.
  induction lines as [|l ls IH]; intros st Hok; simpl.
  - now rewrite app_nil_r.
  - destruct (parse_line_executed now st l Hok) as (E & Hok' & _).
    destruct (IH _ Hok') as [E' Hok''].
    split; [|assumption]. rewrite E', E. now rewrite app_assoc.
Qed.

Lemma emitted_without_risk_reward (now : datetime) (lines : list string) :
  forall st,
    (forall l, In l lines -> risk_reward_line l = None) ->
    emitted now lines st = [].
Proof.
  induction lines as [|l ls IH]; intros st H; simpl; [reflexivity|].
  rewrite IH by (intros; apply H; now right).
  unfold sealed. rewrite (H l) by now left.
  now destruct (current_decision st).
Qed.

(** C5, as stated, fails: the third line of [log_invalid_date] is a
    "trade executed" line, yet it opens no builder and discards nothing,
    because its date does not exist and the line is skipped.  The builder
    of the first line survives it and is emitted by the last line, with the
    first line's time and the entry price read in between. *)
Lemma C5_marker_line_keeps_old_builder :
  nth_error (split_lines log_invalid_date) 2
  = Some "2024-02-30 10:30:17 - INFO - ✅ ULTRA-REFINED TRADE EXECUTED:"
  /\ contains EXECUTED_MARKER
       "2024-02-30 10:30:17 - INFO - ✅ ULTRA-REFINED TRADE EXECUTED:" = true
  /\ exists d,
       parse_bot_decisions now0 log_invalid_date = [d]
       /\ action_taken d = "EXECUTED"
       /\ timestamp d = mkDatetime false T0
       /\ entry_price d = 1.15200.
Proof.
  split; [reflexivity|]. split; [reflexivity|].
  eexists. split; [reflexivity|]. repeat split.
Qed.

(** C5, amended.  A "trade executed" line whose timestamp text is absent
    or names a valid date and time opens a new builder and drops the
    previous one without emitting it; a "trade executed" line whose
    timestamp text names no valid date and time is skipped and leaves the
    builder as it was.  A line adds an EXECUTED decision exactly when a
    builder is open and the line is its risk/reward field line: the
    decision is that builder, sealed, and the builder is closed.  Over a
    whole log the EXECUTED decisions are the builders sealed on the way,
    so a builder whose risk/reward line never appears is never emitted. *)
Theorem C5_builder_lifecycle
    (now : datetime) (st : parser_state) (line : string) :
  builder_ok st ->
  (contains EXECUTED_MARKER line = true ->
     parse_line now st line
     = match line_timestamp now line with
       | Return ts => mkState (decisions st) (Some (fresh_builder ts))
       | Raise _ => st
       end)
  /\ filter is_executed (decisions (parse_line now st line))
     = filter is_executed (decisions st) ++ sealed st line
  /\ (sealed st line <> [] ->
        current_decision (parse_line now st line) = None)
  /\ builder_ok (parse_line now st line)
  /\ (forall lines,
        filter is_executed (decisions (parse_lines now lines st))
        = filter is_executed (decisions st) ++ emitted now lines st)
  /\ (forall lines,
        (forall l, In l lines -> risk_reward_line l = None) ->
        filter is_executed (decisions (parse_lines now lines st))
        = filter is_executed (decisions st)).
Proof.
  intros Hok.
  destruct (parse_line_executed now st line Hok) as (E & Hok' & Hn).
  split; [|repeat split; try assumption].
  - intros Hm. unfold parse_line, parse_line_body. rewrite Hm.
    now destruct (line_timestamp now line).
  - intros lines. now apply parse_lines_executed.
  - intros lines H.
    rewrite (proj1 (parse_lines_executed now lines st Hok)).
    rewrite emitted_without_risk_reward by assumption. apply app_nil_r.
Qed.

(** On the sample log the first line opens a builder. *)
Lemma C5_builder_lifecycle_witness :
  parse_line now0 initial_state
    "2024-06-01 08:15:27 - INFO - ✅ ULTRA-REFINED TRADE EXECUTED:"
  = mkState [] (Some (fresh_builder (mkDatetime false T0))).
Proof.
  exact (proj1 (C5_builder_lifecycle now0 initial_state
                  "2024-06-01 08:15:27 - INFO - ✅ ULTRA-REFINED TRADE EXECUTED:"
                  I) eq_refl).
Defined.

(** *** Rejected signals *)



(** The same for the live analyzer: what one line adds. *)
Lemma live_parse_line (now : datetime) (lines : list string)
    (acc : list Live.BotTradeIntention) (line : string)
    (i : Live.BotTradeIntention) :
  In i (Live.parse_line now lines acc line) ->
  In i acc
  \/ (Live.executed i = true /\ Live.confidence i = 65 # 100)
    \/ (Live.executed i = false
      /\ contains REJECTED_MARKER line = true
      /\ exists ts,
           line_timestamp now line = Return ts
           /\ i = Live.mkIntention ts "UNKNOWN" "UNKNOWN" 0 0 0 0 0%Z 0 0 0
                   (Some (rejection_text line)) false).
Proof.
  unfold Live.parse_line.
  destruct (contains EXECUTED_MARKER line).
  - destruct (Live._parse_executed_trade now line lines) as [i0|] eqn:E;
      [|now left].
    intros Hin. apply in_app_or in Hin. destruct Hin as [Hin|[<-|[]]];
      [now left|]. right. left. split; [reflexivity|].
    unfold Live._parse_executed_trade, Live.parse_executed_trade_body in E.
    destruct (Live.scan_details _ _); simpl in E; [|discriminate].
    destruct (line_timestamp now line); simpl in E; [|discriminate].
    destruct (Re.search Re.pair_signal_re line); [|discriminate].
    injection E as <-. reflexivity.
  - destruct (contains REJECTED_MARKER line);
      [|destruct (contains CLOSED_MARKER line); now left].
    unfold Live._parse_rejected_signal.
    destruct (line_timestamp now line) as [ts|] eqn:Ht; [|now left].
    intros Hin. apply in_app_or in Hin. destruct Hin as [Hin|[<-|[]]];
      [now left|]. right. right. repeat split. now exists ts.
Qed.

Lemma live_parse_lines (now : datetime) (all_lines lines : list string) :
  forall acc i,
    In i (fold_left (Live.parse_line now all_lines) lines acc) ->
    In i acc
    \/ (Live.executed i = true /\ Live.confidence i = 65 # 100)
        \/ (Live.executed i = false
        /\ exists line ts,
             In line lines /\ contains REJECTED_MARKER line = true
             /\ line_timestamp now line = Return ts
             /\ i = Live.mkIntention ts "UNKNOWN" "UNKNOWN" 0 0 0 0 0%Z
                      0 0 0 (Some (rejection_text line)) false).
Proof.
  induction lines as [|l ls IH]; intros acc i Hin; simpl in Hin.
  - now left.
  - destruct (IH _ _ Hin) as [Ha|[He|(Hf & line & ts & Hl & Hm & Ht & ->)]].
    + destruct (live_parse_line _ _ _ _ _ Ha)
        as [H|[H|(Hf & Hm & ts & Ht & ->)]].
      * now left.
      * right. now left.
      * right. right. split; [reflexivity|].
        exists l, ts. split; [now left|]. now repeat split.
    + right. now left.
    + right. right. split; [reflexivity|].
      exists line, ts. split; [now right|]. now repeat split.
Qed.




(** *** The confidence of executed trades *)

(** C9: every intention [_parse_executed_trade] returns, and so every
    executed intention of [parse_bot_intentions], has the confidence 0.65,
    whatever the log says. *)
Theorem C9_confidence_is_default (now : datetime) :
  (forall line all_lines i,
     Live._parse_executed_trade now line all_lines = Some i ->
     Live.confidence i = 65 # 100)
  /\ (forall log i,
        In i (Live.parse_bot_intentions now log) ->
        Live.executed i = true ->
        Live.confidence i = 65 # 100).
Proof.
  split.
  - intros line all_lines i E.
    unfold Live._parse_executed_trade, Live.parse_executed_trade_body in E.
    destruct (Live.scan_details _ _); simpl in E; [|discriminate].
    destruct (line_timestamp now line); simpl in E; [|discriminate].
    destruct (Re.search Re.pair_signal_re line); [|discriminate].
    injection E as <-. reflexivity.
  - intros log i Hin He. unfold Live.parse_bot_intentions in Hin.
    destruct log as [|c log]; [contradiction|].
    destruct (live_parse_lines now _ _ [] i Hin)
      as [[]|[[_ Hc]|[Hf _]]]; [assumption|congruence].
Qed.

(** The log announces a confidence of 72% twice; the executed intention
    read from it carries 0.65. *)
Lemma C9_confidence_is_default_witness :
  exists i,
    Live.parse_bot_intentions now0 log_executed_72 = [i]
    /\ Live.executed i = true
    /\ contains "Confidence: 72%" log_executed_72 = true
    /\ Live.confidence i = 65 # 100.
Proof.
  eexists. split; [reflexivity|]. split; [reflexivity|].
  split; [reflexivity|].
  exact (proj2 (C9_confidence_is_default now0) log_executed_72 _
           (or_introl eq_refl) eq_refl).
Defined.

End Extractor.

(** ** The transaction normaliser *)

Section NormaliserProperties.

Import PyTime Historical Ledger Examples.
Local Open Scope string_scope.
Local Open Scope list_scope.

Variable fromisoformat : string -> result datetime.
Variable float : string -> result Q.

Local Abbreviation step := (Historical.process_entry fromisoformat float).
Local Abbreviation run :=
  (Historical.process_transactions fromisoformat float).
Local Abbreviation ok := (Ledger.entry_ok fromisoformat).

Lemma dict_set_Forall (P : string * HistoricalTrade -> Prop)
    (k : string) (v : HistoricalTrade) (d : trades_dict) :
  Forall P d -> P (k, v) -> Forall P (dict_set k v d).
Proof.
  intros Hd Hv. induction Hd as [|[k' v'] d Hk Hd IH]; simpl.
  - now constructor.
  - destruct (String.eqb k' k); constructor; assumption.
Qed.

Lemma dict_get_In (k : string) (d : trades_dict) (t : HistoricalTrade) :
  dict_get k d = Some t -> In (k, t) d.
Proof.
  induction d as [|[k' v'] d IH]; simpl; [discriminate|].
  destruct (String.eqb k' k) eqn:E.
  - apply String.eqb_eq in E. intros [= <-]. left. now subst.
  - intros H. right. now apply IH.
Qed.

Lemma opened_by_more (seen : list ledger_entry) (tx : ledger_entry)
    (t : HistoricalTrade) :
  opened_by seen t -> opened_by (seen ++ [tx]) t.
Proof.
  intros (tx' & Hin & Hm & Hid). exists tx'.
  split; [apply in_or_app; now left|now split].
Qed.

Lemma entry_ok_more (seen : list ledger_entry) (tx : ledger_entry)
    (d : trades_dict) :
  Forall (ok seen) d -> Forall (ok (seen ++ [tx])) d.
Proof.
  apply Forall_impl. intros kt (Hk & Ho & Hd).
  split; [assumption|]. split; [now apply opened_by_more|assumption].
Qed.

(** One entry of the ledger keeps the invariant. *)
Lemma process_entry_ok (seen : list ledger_entry) (tx : ledger_entry)
    (d d' : trades_dict) :
  Forall (ok seen) d ->
  step d tx = Return d' ->
  Forall (ok (seen ++ [tx])) d'.
Proof.
  intros Hd. pose proof (entry_ok_more seen tx d Hd) as Hd'.
  unfold Historical.process_entry.
  destruct (String.eqb (dget (tx_type tx) "") "MARKET_ORDER") eqn:Hm.
  - apply String.eqb_eq in Hm.
    unfold process_market_order, get_time.
    destruct (get_float float (tx_units tx)) as [u|]; simpl; [|discriminate].
    destruct (fromisoformat _) as [ot|] eqn:Hot; simpl; [|discriminate].
    destruct (get_float float (tx_price tx)) as [op|]; simpl; [|discriminate].
    intros [= <-]. apply dict_set_Forall; [assumption|].
    split; [reflexivity|]. split.
    + exists tx. split; [apply in_or_app; right; now left|]. now split.
    + split; [eexists; exact Hot|]. simpl. now split.
  - destruct (String.eqb (dget (tx_type tx) "") "ORDER_FILL");
      [|now intros [= <-]].
    unfold process_order_fill.
    destruct (fill_trade_id tx) as [id|]; simpl; [|discriminate].
    destruct (dict_get id d) as [t|] eqn:Hg; [|now intros [= <-]].
    apply dict_get_In in Hg.
    rewrite Forall_forall in Hd'. destruct (Hd' _ Hg) as (Hk & Ho & Hr & Hc).
    simpl in Hk, Ho, Hr, Hc.
    destruct (get_float float (tx_pl tx)) as [p|]; simpl; [|discriminate].
    destruct (reports_close tx).
    + unfold get_time.
      destruct (fromisoformat _) as [ct|] eqn:Hct; simpl; [|discriminate].
      destruct (get_float float (tx_price tx)) as [cp|]; simpl;
        [|discriminate].
      destruct (dt_sub ct (open_time t)) as [dl|] eqn:Hdl; simpl;
        [|discriminate].
      intros [= <-]. apply dict_set_Forall; [now apply Forall_forall|].
      split; [assumption|]. split; [assumption|].
      split; [assumption|]. simpl.
      split; [eexists; exact Hct|]. split; [reflexivity|].
      exists dl. now split.
    + intros [= <-]. apply dict_set_Forall; [now apply Forall_forall|].
      split; [assumption|]. split; [assumption|].
      split; [assumption|]. simpl. exact Hc.
Qed.

Lemma process_transactions_ok (transactions : list ledger_entry) :
  forall seen d d',
    Forall (ok seen) d ->
    run d transactions = Return d' ->
    Forall (ok (seen ++ transactions)) d'.
Proof.
  induction transactions as [|tx txs IH]; intros seen d d' Hd; simpl.
  - intros [= <-]. now rewrite app_nil_r.
  - destruct (Historical.process_entry fromisoformat float d tx)
      as [d1|] eqn:E; simpl; [|discriminate].
    intros H. pose proof (process_entry_ok seen tx d d1 Hd E) as H1.
    specialize (IH _ _ _ H1 H). now rewrite <- app_assoc in IH.
Qed.

Lemma process_transactions_app (a b : list ledger_entry) :
  forall d,
    run d (a ++ b)
    = bind (run d a) (fun d' => run d' b).
Proof.
  induction a as [|tx a IH]; intros d; simpl; [reflexivity|].
  destruct (Historical.process_entry fromisoformat float d tx); simpl;
    [apply IH|reflexivity].
Qed.

(** The trades of the ledger pass. *)
Lemma trade_list_ok (transactions : list ledger_entry)
    (ts : list HistoricalTrade) (t : HistoricalTrade) :
  trade_list fromisoformat float transactions = Return ts ->
  In t ts ->
  opened_by transactions t /\ ledger_duration fromisoformat t.
Proof.
  unfold trade_list.
  destruct (Historical.process_transactions fromisoformat float []
              transactions) as [d|] eqn:E; simpl; [|discriminate].
  intros [= <-] Hin. unfold dict_values in Hin. apply in_map_iff in Hin.
  destruct Hin as ([k t'] & <- & Hin).
  pose proof (process_transactions_ok transactions [] [] d
                (Forall_nil _) E) as H.
  rewrite Forall_forall in H. destruct (H _ Hin) as (_ & Ho & Hd).
  now split.
Qed.

(** The trades of the open-trades pass. *)
Lemma append_open_trades_ok (now : datetime)
    (entries : list open_trade_entry) :
  forall acc t,
    In t (append_open_trades fromisoformat float now acc entries) ->
    In t acc \/ open_duration fromisoformat now t.
Proof.
  induction entries as [|e es IH]; intros acc t Hin; simpl in Hin.
  - now left.
  - destruct (open_trade fromisoformat float now e) as [t'|] eqn:E;
      [|now left].
    destruct (IH _ _ Hin) as [Ha|Ho]; [|now right].
    apply in_app_or in Ha. destruct Ha as [Ha|[<-|[]]]; [now left|].
    right. unfold open_trade, get_time in E.
    destruct (fromisoformat _) as [ot|] eqn:Hot; simpl in E; [|discriminate].
    destruct (get_float float (ot_currentUnits e)); simpl in E;
      [|discriminate].
    destruct (get_float float (ot_price e)); simpl in E; [|discriminate].
    destruct (get_float float (ot_unrealizedPL e)); simpl in E;
      [|discriminate].
    destruct (dt_sub now ot) as [dl|] eqn:Hdl; simpl in E; [|discriminate].
    injection E as <-. split; [eexists; exact Hot|]. simpl.
    split; [reflexivity|]. split; [reflexivity|].
    exists dl. now split.
Qed.

(** C8: the duration of every trade the normaliser returns is either
    absent, and then the trade has no close time, or the difference of two
    times read from the broker's text: close time minus open time for a
    trade of the ledger, [now] minus open time for a currently open trade.
    No duration is set without both times. *)
Theorem C8_duration_needs_both_times
    (now : datetime) (transactions : list ledger_entry)
    (open_trades : option (list open_trade_entry)) (t : HistoricalTrade) :
  In t (fetch_extended_trade_history fromisoformat float now transactions
          open_trades) ->
  (ledger_duration fromisoformat t \/ open_duration fromisoformat now t)
  /\ resolved fromisoformat (open_time t)
  /\ match duration_hours t with
     | None => close_time t = None
     | Some h =>
         exists later d,
           (close_time t = Some later /\ resolved fromisoformat later
            \/ close_time t = None /\ later = now)
           /\ dt_sub later (open_time t) = Return d
           /\ h = total_seconds d / 3600
     end.
Proof.
  intros Hin.
  assert (H : ledger_duration fromisoformat t
              \/ open_duration fromisoformat now t).
  { unfold fetch_extended_trade_history in Hin.
    destruct (trade_list fromisoformat float transactions) as [ts|] eqn:E;
      [|contradiction].
    destruct open_trades as [entries|].
    - apply append_open_trades_ok in Hin. destruct Hin as [Hin|Ho];
        [|now right]. left. exact (proj2 (trade_list_ok _ _ _ E Hin)).
    - left. exact (proj2 (trade_list_ok _ _ _ E Hin)). }
  split; [exact H|].
  destruct H as [[Hr Hc]|(Hr & Hc & _ & d & Hd & Hh)].
  - split; [assumption|].
    destruct (close_time t) as [c|].
    + destruct Hc as (Hrc & _ & d & Hd & ->).
      exists c, d. split; [left; now split|now split].
    + destruct Hc as [-> _]. reflexivity.
  - split; [assumption|]. rewrite Hh.
    exists now, d. split; [right; now split|now split].
Qed.

(** C10: every trade of the ledger pass originates from a [MARKET_ORDER]
    entry of the batch; an [ORDER_FILL] entry whose trade id no earlier
    [MARKET_ORDER] of the batch carries leaves the dictionary as it was,
    so that the batch yields the same trades with and without it: its
    P&L is dropped. *)
Theorem C10_trades_come_from_market_orders
    (transactions : list ledger_entry) (ts : list HistoricalTrade) :
  trade_list fromisoformat float transactions = Return ts ->
  (forall t, In t ts -> opened_by transactions t)
  /\ (forall prior fill rest id,
        transactions = prior ++ fill :: rest ->
        is_order_fill fill ->
        fill_trade_id fill = Return id ->
        (forall tx, In tx prior -> is_market_order tx ->
                    dget (tx_id tx) "" <> id) ->
        (exists d,
           run [] prior = Return d
           /\ step d fill = Return d)
        /\ trade_list fromisoformat float (prior ++ rest) = Return ts).
Proof.
  intros Hts. split.
  - intros t Hin. exact (proj1 (trade_list_ok _ _ _ Hts Hin)).
  - intros prior fill rest id -> Hf Hid Hno.
    unfold trade_list in *.
    rewrite process_transactions_app in Hts.
    rewrite process_transactions_app.
    destruct (run [] prior) as [d|] eqn:Ep; simpl in *;
      [|discriminate].
    assert (E : step d fill = Return d).
    { unfold Historical.process_entry.
      unfold is_order_fill in Hf. rewrite Hf. simpl.
      unfold process_order_fill. rewrite Hid. simpl.
      destruct (dict_get id d) as [t|] eqn:Hg; [|reflexivity].
      exfalso. apply dict_get_In in Hg.
      pose proof (process_transactions_ok prior [] [] d (Forall_nil _) Ep)
        as H.
      rewrite Forall_forall in H.
      destruct (H _ Hg) as (Hk & (tx & Hin & Hm & Hi) & _).
      simpl in Hk, Hi. apply (Hno tx Hin Hm). congruence. }
    split; [exists d; now split|].
    simpl in Hts. rewrite E in Hts. exact Hts.
Qed.

End NormaliserProperties.

(** On the sample ledger the trade closed after an hour lasts one hour, and
    the fill that refers to the unknown trade 56 changes nothing. *)
Lemma C8_duration_needs_both_times_witness :
  In Examples.trade_100 Examples.fetched
  /\ Historical.duration_hours Examples.trade_100
     = Some (PyTime.total_seconds 3600000000%Z / 3600)
  /\ Ledger.resolved Examples.iso_sample
       (Historical.open_time Examples.trade_100).
Proof.
  split; [now left|]. split; [reflexivity|].
  exact (proj1 (proj2 (C8_duration_needs_both_times
                         Examples.iso_sample PyNum.float_of_string
                         (PyTime.mkDatetime true (Examples.T0 + 7200000000))
                         Examples.ledger None Examples.trade_100
                         (or_introl eq_refl)))).
Defined.

Lemma C10_trades_come_from_market_orders_witness :
  Historical.trade_list Examples.iso_sample PyNum.float_of_string
    Examples.ledger = Return [Examples.trade_100]
  /\ Historical.trade_list Examples.iso_sample PyNum.float_of_string
       [Examples.market_order_100; Examples.closing_fill_100]
     = Return [Examples.trade_100].
Proof.
  split; [reflexivity|].
  refine (proj2 (proj2 (C10_trades_come_from_market_orders
                          Examples.iso_sample PyNum.float_of_string
                          Examples.ledger [Examples.trade_100] eq_refl)
                   [Examples.market_order_100] Examples.orphan_fill
                   [Examples.closing_fill_100] "56"%string
                   eq_refl eq_refl eq_refl _)).
  intros tx [<-|[]] _. discriminate.
Defined.

(** ** The aggregator: correlation *)

Section Correlation.

Import ConfidenceWinRate Examples.
Local Open Scope list_scope.











End Correlation.

(** * Further properties *)

(** ** The ledger fetcher of the live analyzer *)

Section FetcherProperties.

Import PyTime PyStr Live MatchingRule Fetcher.
Local Open Scope string_scope.
Local Open Scope list_scope.

Variable fromisoformat : string -> result datetime.
Variable float : string -> result Q.

Local Abbreviation build' := (build fromisoformat float).
Local Abbreviation loop := (fetch_loop fromisoformat float).

Lemma fetch_loop_ok (raw : list raw_transaction) :
  forall acc out,
    loop acc raw = Return out ->
    exists built,
      out = acc ++ built
      /\ Forall2 (fun tx t => build' tx = Return t) (filter kept raw) built.
Proof.
  induction raw as [|tx raw IH]; intros acc out; simpl.
  - intros [= <-]. exists []. rewrite app_nil_r. split; [reflexivity|constructor].
  - destruct (kept tx).
    + destruct (build fromisoformat float tx) as [t|] eqn:E; simpl;
        [|discriminate].
      intros H. destruct (IH _ _ H) as (built & -> & HF).
      exists (t :: built). rewrite <- app_assoc. split; [reflexivity|].
      now constructor.
    + apply IH.
Qed.

Lemma fetch_loop_fails (raw : list raw_transaction) :
  forall acc e,
    loop acc raw = Raise e ->
    exists tx e', In tx raw /\ kept tx = true /\ build' tx = Raise e'.
Proof.
  induction raw as [|tx raw IH]; intros acc e; simpl; [discriminate|].
  destruct (kept tx) eqn:K.
  - destruct (build fromisoformat float tx) as [t|e'] eqn:E; simpl.
    + intros H. destruct (IH _ _ H) as (tx' & e'' & Hin & Hk & Hb).
      exists tx', e''. split; [now right|now split].
    + intros _. exists tx, e'. split; [now left|now split].
  - intros H. destruct (IH _ _ H) as (tx' & e'' & Hin & Hk & Hb).
    exists tx', e''. split; [now right|now split].
Qed.

(** X1: [fetch_oanda_transactions] returns the records of exactly the
    [ORDER_FILL] and [MARKET_ORDER] entries, in the order of the answer, or,
    as soon as one of these entries fails to convert, nothing at all. *)
Theorem fetch_keeps_all_or_nothing (raw : list raw_transaction) :
  Forall2 (fun tx t => build' tx = Return t) (filter kept raw)
    (fetch_oanda_transactions fromisoformat float raw)
  \/ (fetch_oanda_transactions fromisoformat float raw = []
      /\ exists tx e, In tx raw /\ kept tx = true /\ build' tx = Raise e).
Proof.
  unfold fetch_oanda_transactions.
  destruct (fetch_loop fromisoformat float [] raw) as [out|e] eqn:E.
  - left. destruct (fetch_loop_ok _ _ _ E) as (built & -> & HF). exact HF.
  - right. split; [reflexivity|]. exact (fetch_loop_fails _ _ _ E).
Qed.

(** X2: an entry without a [price] key is fetched with the price 0, and an
    executed intention that agrees with it on instrument, direction and time
    makes [match_trades] end in [ZeroDivisionError]: the fetcher hands the
    matcher the input it cannot take. *)
Theorem fetched_missing_price_aborts_matching
    (tx : raw_transaction) (t : OANDATransaction) (i : BotTradeIntention) :
  kept tx = true -> r_price tx = None -> build' tx = Return t ->
  executed i = true ->
  replace_char "/" "_" (pair i) = instrument t ->
  implb (String.eqb (signal_type i) "BUY") (Qltb 0 (units t)) = true ->
  implb (String.eqb (signal_type i) "SELL") (Qltb (units t) 0) = true ->
  dt_aware (timestamp i) = dt_aware (time t) ->
  Qabs (total_seconds (dt_us (timestamp i) - dt_us (time t))%Z) <= 300 ->
  price t = 0
  /\ fetch_oanda_transactions fromisoformat float [tx] = [t]
  /\ match_trades [i] (fetch_oanda_transactions fromisoformat float [tx])
     = Raise ZeroDivisionError.
Proof.
  intros Hk Hp Hb He Hi Hbuy Hsell Ha Ht.
  assert (P : price t = 0).
  { unfold build in Hb. rewrite Hp in Hb.
    destruct (Historical.get_time _ _); simpl in Hb; [|discriminate].
    destruct (Historical.get_float float (r_units tx)); simpl in Hb;
      [|discriminate].
    destruct (Historical.get_float float (r_pl tx)); simpl in Hb;
      [|discriminate].
    destruct (Historical.get_float float (r_accountBalance tx)); simpl in Hb;
      [|discriminate].
    injection Hb as <-. reflexivity. }
  assert (F : fetch_oanda_transactions fromisoformat float [tx] = [t]).
  { unfold fetch_oanda_transactions. simpl. rewrite Hk, Hb. reflexivity. }
  split; [assumption|]. split; [assumption|].
  rewrite F. unfold match_trades. simpl. rewrite He. simpl.
  assert (M : _trades_match i t = Raise ZeroDivisionError).
  { apply trades_match_zero_price.
    - unfold candidateb. apply Qle_bool_iff in Ht.
      rewrite Hi, String.eqb_refl, Hbuy, Hsell, Ht. cbn [andb].
      rewrite P. apply Qle_bool_iff. unfold Qdiv.
      setoid_replace (/ 0) with 0 by reflexivity.
      rewrite Qmult_0_r. discriminate.
    - rewrite P. reflexivity.
    - rewrite Ha. apply Bool.eqb_reflx. }
  rewrite M. reflexivity.
Qed.

End FetcherProperties.

Lemma fetched_missing_price_aborts_matching_witness :
  Live.match_trades [Examples.i1]
    (Fetcher.fetch_oanda_transactions Samples.iso_plain PyNum.float_of_string
       [Samples.raw_market_order])
  = Raise ZeroDivisionError.
Proof.
  refine (proj2 (proj2 (fetched_missing_price_aborts_matching
                          Samples.iso_plain PyNum.float_of_string
                          Samples.raw_market_order _ Examples.i1
                          eq_refl eq_refl eq_refl eq_refl eq_refl eq_refl
                          eq_refl eq_refl _))).
  vm_compute. discriminate.
Defined.

(** ** The performance metrics of the live analyzer *)

Section MetricsProperties.

Import PyTime Live MatchingRule Metrics.
Local Open Scope list_scope.

Lemma ratio_bounds (n d : nat) :
  (n <= d)%nat -> (0 < d)%nat -> 0 <= ratio n d <= 1.
Proof.
  intros Hn Hd. unfold ratio.
  assert (P : 0 < inject_Z (Z.of_nat d)).
  { unfold Qlt. simpl. lia. }
  split.
  - apply Qle_shift_div_l; [assumption|]. rewrite Qmult_0_l.
    unfold Qle. simpl. lia.
  - apply Qle_shift_div_r; [assumption|]. rewrite Qmult_1_l.
    unfold Qle. simpl. lia.
Qed.

Lemma fold_Qplus_bounds (c : Q) (xs : list Q) :
  (forall x, In x xs -> - c <= x <= c) ->
  forall a,
    a - inject_Z (Z.of_nat (List.length xs)) * c <= fold_left Qplus xs a
    /\ fold_left Qplus xs a <= a + inject_Z (Z.of_nat (List.length xs)) * c.
Proof.
  induction xs as [|x xs IH]; intros H a.
  - simpl. split; [ring_simplify|ring_simplify]; apply Qle_refl.
  - cbn [fold_left List.length].
    destruct (IH (fun y Hy => H y (or_intror Hy)) (a + x)) as [L U].
    destruct (H x (or_introl eq_refl)) as [Lx Ux].
    rewrite Nat2Z.inj_succ. unfold Z.succ. rewrite inject_Z_plus.
    split.
    + apply Qle_trans with (a + x - inject_Z (Z.of_nat (List.length xs)) * c);
        [|assumption].
      setoid_replace (a - (inject_Z (Z.of_nat (List.length xs)) + inject_Z 1) * c)
        with ((a + - c) - inject_Z (Z.of_nat (List.length xs)) * c) by ring.
      apply Qplus_le_l. now apply Qplus_le_r.
    + apply Qle_trans with (a + x + inject_Z (Z.of_nat (List.length xs)) * c);
        [assumption|].
      setoid_replace (a + (inject_Z (Z.of_nat (List.length xs)) + inject_Z 1) * c)
        with ((a + c) + inject_Z (Z.of_nat (List.length xs)) * c) by ring.
      apply Qplus_le_l. now apply Qplus_le_r.
Qed.

(** The mean of values within [-c, c] lies within [-c, c]. *)
Lemma mean_or_zero_bounds (c : Q) (xs : list Q) :
  0 <= c -> (forall x, In x xs -> Qabs x <= c) ->
  Qabs (mean_or_zero xs) <= c.
Proof.
  intros Hc H. destruct xs as [|x xs]; [simpl; exact Hc|].
  unfold mean_or_zero, Qmean, Qsum.
  set (l := x :: xs) in *.
  assert (P : 0 < inject_Z (Z.of_nat (List.length l))).
  { unfold Qlt. simpl. lia. }
  destruct (fold_Qplus_bounds c l) with (a := 0) as [L U].
  { intros y Hy. apply Qabs_Qle_condition. now apply H. }
  apply Qabs_Qle_condition. split.
  - apply Qle_shift_div_l; [assumption|].
    eapply Qle_trans; [|exact L]. ring_simplify. apply Qle_refl.
  - apply Qle_shift_div_r; [assumption|].
    eapply Qle_trans; [exact U|]. ring_simplify. apply Qle_refl.
Qed.

Lemma total_seconds_opp (a b : Z) :
  Qabs (total_seconds (a - b)%Z) == Qabs (total_seconds (b - a)%Z).
Proof.
  unfold total_seconds. rewrite <- (Qabs_opp ((b - a)%Z # 1000000)).
  apply Qabs_wd. unfold Qeq, Qopp. simpl. lia.
Qed.

(** The delays of pairs that match are defined and at most 300 seconds. *)
Lemma execution_delays_matched
    (ms : list (BotTradeIntention * OANDATransaction)) :
  (forall p, In p ms -> _trades_match (fst p) (snd p) = Return true) ->
  exists ds,
    execution_delays ms = Return ds
    /\ List.length ds = List.length ms
    /\ forall d, In d ds -> Qabs d <= 300.
Proof.
  induction ms as [|[i t] ms IH]; intros H.
  - exists []. repeat split. intros d [].
  - destruct IH as (ds & E & Hl & Hd).
    { intros p Hp. apply H. now right. }
    pose proof (H (i, t) (or_introl eq_refl)) as M. simpl in M.
    apply trades_match_true_iff in M. destruct M as [C (_ & _ & _ & T & _)].
    unfold comparable in C. apply andb_true_iff in C. destruct C as [C _].
    apply Bool.eqb_prop in C.
    simpl. unfold dt_sub. rewrite <- C, Bool.eqb_reflx. simpl. rewrite E. simpl.
    eexists. split; [reflexivity|]. split; [simpl; now rewrite Hl|].
    intros d [<-|Hin]; [|now apply Hd].
    rewrite total_seconds_opp. exact T.
Qed.

(** X3: on the pairs [match_trades] returns, [calculate_performance_metrics]
    raises nothing; the execution accuracy and the bot win rate lie between
    0 and 1, the average execution delay is at most 300 seconds either way,
    and executed and missed intentions add up to all bot signals. *)
Theorem metrics_of_matched_trades
    (ins : list BotTradeIntention) (ts : list OANDATransaction)
    (ms : list (BotTradeIntention * OANDATransaction)) :
  match_trades ins ts = Return ms ->
  exists m,
    calculate_performance_metrics ins ts ms = Return m
    /\ 0 <= execution_accuracy m <= 1
    /\ 0 <= bot_win_rate m <= 1
    /\ Qabs (avg_execution_delay m) <= 300
    /\ (missed_opportunities m + List.length (filter executed ins)
        = total_bot_signals m)%nat.
Proof.
  intros H. unfold match_trades in H.
  destruct (match_loop_claims _ _ _ _ H) as (new & -> & Hs & Hin).
  simpl app in *.
  destruct (execution_delays_matched new) as (ds & E & Hl & Hd).
  { intros p Hp. now apply Hin. }
  unfold calculate_performance_metrics. rewrite E. simpl.
  eexists. split; [reflexivity|]. simpl.
  apply subseq_length in Hs. rewrite length_map in Hs.
  split; [|split; [|split]].
  - destruct (filter executed ins) as [|e es] eqn:F.
    + split; [apply Qle_refl|discriminate].
    + apply ratio_bounds; [exact Hs|simpl; lia].
  - destruct new as [|p ps]; [split; [apply Qle_refl|discriminate]|].
    apply ratio_bounds; [apply filter_length_le|simpl; lia].
  - apply mean_or_zero_bounds; [discriminate|assumption].
  - clear. induction ins as [|i ins IH]; simpl; [reflexivity|].
    destruct (executed i); simpl; lia.
Qed.

End MetricsProperties.

Lemma metrics_of_matched_trades_witness :
  exists m,
    Metrics.calculate_performance_metrics [Examples.i1; Examples.i2]
      [Examples.t_ok] [(Examples.i1, Examples.t_ok); (Examples.i2, Examples.t_ok)]
    = Return m
    /\ Metrics.unexpected_trades m = (-1)%Z.
Proof.
  destruct (metrics_of_matched_trades [Examples.i1; Examples.i2]
              [Examples.t_ok]
              [(Examples.i1, Examples.t_ok); (Examples.i2, Examples.t_ok)]
              eq_refl) as (m & Hm & _).
  exists m. split; [exact Hm|]. injection Hm as <-. reflexivity.
Defined.

(** ** The ledger normaliser: keys, failures, open trades *)

Section LedgerProperties.

Import PyTime Historical Ledger Trades.
Local Open Scope string_scope.
Local Open Scope list_scope.

Variable fromisoformat : string -> result datetime.
Variable float : string -> result Q.

Local Abbreviation step := (Historical.process_entry fromisoformat float).
Local Abbreviation run :=
  (Historical.process_transactions fromisoformat float).
Local Abbreviation fetch :=
  (Historical.fetch_extended_trade_history fromisoformat float).
Local Abbreviation convert := (Historical.open_trade fromisoformat float).

Lemma dict_get_keys (k : string) (d : trades_dict) :
  dict_get k d = None <-> ~ In k (keys d).
Proof.
  induction d as [|[k' v'] d IH]; simpl.
  - split; [intros _ []|reflexivity].
  - destruct (String.eqb k' k) eqn:E.
    + apply String.eqb_eq in E. split; [discriminate|]. intros H.
      exfalso. apply H. now left.
    + apply String.eqb_neq in E. rewrite IH. tauto.
Qed.

Lemma dict_set_keys (k : string) (v : HistoricalTrade) (d : trades_dict) :
  keys (dict_set k v d)
  = match dict_get k d with
    | Some _ => keys d
    | None => keys d ++ [k]
    end.
Proof.
  induction d as [|[k' v'] d IH]; simpl; [reflexivity|].
  destruct (String.eqb k' k) eqn:E; simpl.
  - apply String.eqb_eq in E. now subst.
  - rewrite IH. now destruct (dict_get k d).
Qed.

Lemma NoDup_snoc (k : string) (ks : list string) :
  NoDup ks -> ~ In k ks -> NoDup (ks ++ [k]).
Proof.
  intros H Hk. induction H as [|x ks Hx H IH]; simpl.
  - constructor; [intros []|constructor].
  - constructor.
    + rewrite in_app_iff. intros [Hin|[->|[]]]; [now apply Hx|].
      apply Hk. now left.
    + apply IH. intros Hin. apply Hk. now right.
Qed.

(** What one entry does to the keys of [trades]. *)
Lemma process_entry_keys (d d' : trades_dict) (tx : ledger_entry) :
  step d tx = Return d' ->
  (keys d' = keys d
   \/ (dget (tx_type tx) "" = "MARKET_ORDER"
       /\ ~ In (dget (tx_id tx) "") (keys d)
       /\ keys d' = keys d ++ [dget (tx_id tx) ""]))
  /\ (dget (tx_type tx) "" = "MARKET_ORDER" ->
      In (dget (tx_id tx) "") (keys d')).
Proof.
  unfold Historical.process_entry.
  destruct (String.eqb (dget (tx_type tx) "") "MARKET_ORDER") eqn:M.
  - apply String.eqb_eq in M. unfold process_market_order.
    destruct (get_float float (tx_units tx)); simpl; [|discriminate].
    destruct (get_time fromisoformat (tx_time tx)); simpl; [|discriminate].
    destruct (get_float float (tx_price tx)); simpl; [|discriminate].
    intros [= <-]. rewrite dict_set_keys.
    destruct (dict_get (dget (tx_id tx) "") d) eqn:G.
    + split; [now left|]. intros _. apply dict_get_In in G.
      apply (in_map fst) in G. exact G.
    + split.
      * right. split; [assumption|]. split; [|reflexivity].
        now apply dict_get_keys.
      * intros _. apply in_or_app. right. now left.
  - apply String.eqb_neq in M.
    destruct (String.eqb (dget (tx_type tx) "") "ORDER_FILL") eqn:F.
    + unfold process_order_fill.
      destruct (fill_trade_id tx) as [k|]; simpl; [|discriminate].
      destruct (dict_get k d) eqn:G.
      * destruct (get_float float (tx_pl tx)); simpl; [|discriminate].
        destruct (reports_close tx).
        -- destruct (get_time fromisoformat (tx_time tx)) as [ct|]; simpl;
             [|discriminate].
           destruct (get_float float (tx_price tx)); simpl; [|discriminate].
           destruct (dt_sub ct _); simpl; [|discriminate].
           intros [= <-]. rewrite dict_set_keys, G. split; [now left|tauto].
        -- intros [= <-]. rewrite dict_set_keys, G. split; [now left|tauto].
      * intros [= <-]. split; [now left|tauto].
    + intros [= <-]. split; [now left|tauto].
Qed.

Lemma process_transactions_keys (txs : list ledger_entry) :
  forall d d',
    run d txs = Return d' ->
    NoDup (keys d) ->
    NoDup (keys d')
    /\ (forall k, In k (keys d) -> In k (keys d'))
    /\ (forall tx, In tx txs -> dget (tx_type tx) "" = "MARKET_ORDER" ->
        In (dget (tx_id tx) "") (keys d'))
    /\ (List.length d' <= List.length d + List.length (market_orders txs))%nat.
Proof.
  induction txs as [|tx txs IH]; intros d d'; simpl.
  - intros [= <-] H. split; [assumption|]. split; [tauto|].
    split; [intros tx []|lia].
  - destruct (Historical.process_entry fromisoformat float d tx) as [d1|] eqn:S;
      simpl; [|discriminate].
    intros R N. destruct (process_entry_keys d d1 tx S) as [K M].
    assert (N1 : NoDup (keys d1)).
    { destruct K as [->|(_ & Hk & ->)]; [assumption|now apply NoDup_snoc]. }
    assert (I1 : forall k, In k (keys d) -> In k (keys d1)).
    { intros k Hk. destruct K as [->|(_ & _ & ->)]; [assumption|].
      apply in_or_app. now left. }
    assert (L1 : (List.length d1
                  <= List.length d
                     + (if String.eqb (dget (tx_type tx) "") "MARKET_ORDER"
                        then 1 else 0))%nat).
    { rewrite <- (length_map fst d1), <- (length_map fst d).
      fold (keys d1) (keys d).
      destruct K as [->|(-> & _ & ->)]; [lia|].
      rewrite length_app. simpl. lia. }
    destruct (IH d1 d' R N1) as (N' & I' & O' & L').
    split; [assumption|]. split; [auto|]. split.
    + intros tx' [<-|Hin] Hm; [apply I'; now apply M|now apply O'].
    + unfold market_orders in *. simpl.
      destruct (String.eqb (dget (tx_type tx) "") "MARKET_ORDER"); simpl; lia.
Qed.

Lemma trade_ids_are_keys (d : trades_dict) :
  Forall (fun kt => trade_id (snd kt) = fst kt) d ->
  map trade_id (dict_values d) = keys d.
Proof.
  unfold dict_values, keys. induction 1 as [|kt d H _ IH]; simpl;
    [reflexivity|]. now rewrite H, IH.
Qed.

(** X4: the trades built from the ledger carry pairwise distinct ids; every
    MARKET_ORDER entry of the ledger has a trade with its id; and there are
    at most as many trades as MARKET_ORDER entries. *)
Theorem ledger_trades_one_per_order_id
    (txs : list ledger_entry) (ts : list HistoricalTrade) :
  trade_list fromisoformat float txs = Return ts ->
  NoDup (map trade_id ts)
  /\ (forall tx, In tx txs -> is_market_order tx ->
      exists t, In t ts /\ trade_id t = dget (tx_id tx) "")
  /\ (List.length ts <= List.length (market_orders txs))%nat.
Proof.
  unfold trade_list.
  destruct (Historical.process_transactions fromisoformat float [] txs)
    as [d|] eqn:R; simpl; [|discriminate].
  intros [= <-].
  pose proof (process_transactions_ok fromisoformat float txs [] [] d
                (Forall_nil _) R) as Hok.
  assert (Hid : Forall (fun kt => trade_id (snd kt) = fst kt) d).
  { revert Hok. apply Forall_impl. now intros kt (H & _). }
  destruct (process_transactions_keys txs [] d R (NoDup_nil _))
    as (N & _ & O & L).
  rewrite (trade_ids_are_keys d Hid).
  split; [assumption|]. split.
  - intros tx Hin Hm. specialize (O tx Hin Hm).
    rewrite <- (trade_ids_are_keys d Hid) in O.
    apply in_map_iff in O. destruct O as (t & Ht & Hin'). now exists t.
  - unfold dict_values. rewrite length_map. simpl in L. exact L.
Qed.

Lemma process_transactions_raises (a b : list ledger_entry)
    (tx : ledger_entry) :
  (forall d, exists e, step d tx = Raise e) ->
  forall d, exists e, run d (a ++ tx :: b) = Raise e.
Proof.
  intros H d. rewrite process_transactions_app.
  destruct (Historical.process_transactions fromisoformat float d a)
    as [d1|e]; simpl; [|now exists e].
  destruct (H d1) as [e ->]. now exists e.
Qed.

Lemma fetch_raises (now : datetime) (txs : list ledger_entry)
    (open_trades : option (list open_trade_entry)) :
  (exists e, run [] txs = Raise e) -> fetch now txs open_trades = [].
Proof.
  intros [e H]. unfold Historical.fetch_extended_trade_history, trade_list.
  now rewrite H.
Qed.

(** X5: an ORDER_FILL entry that opens no trade and whose [tradesClosed]
    list is empty, anywhere in the ledger, leaves the whole history empty:
    the trades of the other entries and the open trades are lost with it. *)
Theorem empty_trades_closed_empties_history
    (now : datetime) (a b : list ledger_entry) (tx : ledger_entry)
    (open_trades : option (list open_trade_entry)) :
  is_order_fill tx ->
  tx_tradeOpened tx = None \/ tx_tradeOpened tx = Some None ->
  tx_tradesClosed tx = Some [] ->
  fetch now (a ++ tx :: b) open_trades = [].
Proof.
  intros Hf Ho Hc. apply fetch_raises.
  apply process_transactions_raises. intros d. exists IndexError.
  unfold Historical.process_entry, is_order_fill in *. rewrite Hf. simpl.
  unfold process_order_fill, fill_trade_id. rewrite Hc.
  now destruct Ho as [-> | ->].
Qed.

(** X6: a MARKET_ORDER entry whose [time] text [datetime.fromisoformat]
    rejects, anywhere in the ledger, leaves the whole history empty. *)
Theorem unreadable_order_time_empties_history
    (now : datetime) (a b : list ledger_entry) (tx : ledger_entry)
    (open_trades : option (list open_trade_entry)) (e : exn) :
  is_market_order tx ->
  fromisoformat (replace_Z (dget (tx_time tx) "")) = Raise e ->
  fetch now (a ++ tx :: b) open_trades = [].
Proof.
  intros Hm Ht. apply fetch_raises.
  apply process_transactions_raises. intros d.
  unfold Historical.process_entry, is_market_order in *. rewrite Hm. simpl.
  unfold process_market_order, get_time. rewrite Ht.
  destruct (get_float float (tx_units tx)) as [u|e']; simpl; eauto.
Qed.

Lemma append_open_trades_all (now : datetime) (a : list open_trade_entry)
    (ta : list HistoricalTrade) :
  Forall2 (fun e t => convert now e = Return t) a ta ->
  forall acc rest,
    append_open_trades fromisoformat float now acc (a ++ rest)
    = append_open_trades fromisoformat float now (acc ++ ta) rest.
Proof.
  induction 1 as [|e t a ta He _ IH]; intros acc rest; simpl.
  - now rewrite app_nil_r.
  - rewrite He, IH, <- app_assoc. reflexivity.
Qed.

(** X7: the open trades are appended to the ledger's trades in order, and
    the first one that fails to convert ends the loop: those before it are
    kept, it and those after it are left out, and the ledger's trades stay
    as they are. *)
Theorem open_trades_stop_at_first_failure
    (now : datetime) (txs : list ledger_entry) (ts : list HistoricalTrade)
    (a b : list open_trade_entry) (ta : list HistoricalTrade)
    (e : open_trade_entry) (x : exn) :
  trade_list fromisoformat float txs = Return ts ->
  Forall2 (fun e t => convert now e = Return t) a ta ->
  convert now e = Raise x ->
  fetch now txs (Some a) = ts ++ ta
  /\ fetch now txs (Some (a ++ e :: b)) = ts ++ ta.
Proof.
  intros Hts Ha He. unfold Historical.fetch_extended_trade_history.
  rewrite Hts. split.
  - rewrite <- (app_nil_r a), (append_open_trades_all now a ta Ha).
    reflexivity.
  - rewrite (append_open_trades_all now a ta Ha). simpl. now rewrite He.
Qed.

End LedgerProperties.

Lemma ledger_trades_one_per_order_id_witness :
  NoDup (map Historical.trade_id [Examples.trade_100]).
Proof.
  exact (proj1 (ledger_trades_one_per_order_id Examples.iso_sample
                  PyNum.float_of_string Examples.ledger [Examples.trade_100]
                  eq_refl)).
Defined.

Lemma empty_trades_closed_empties_history_witness :
  Historical.fetch_extended_trade_history Examples.iso_sample
    PyNum.float_of_string Samples.now_sample
    ([Examples.market_order_100] ++ Samples.fill_closing_nothing
       :: [Examples.closing_fill_100])
    (Some [Samples.open_entry_200])
  = [].
Proof.
  apply (empty_trades_closed_empties_history Examples.iso_sample
           PyNum.float_of_string Samples.now_sample
           [Examples.market_order_100] [Examples.closing_fill_100]
           Samples.fill_closing_nothing (Some [Samples.open_entry_200])).
  - reflexivity.
  - left. reflexivity.
  - reflexivity.
Defined.

Lemma unreadable_order_time_empties_history_witness :
  Historical.fetch_extended_trade_history Examples.iso_sample
    PyNum.float_of_string Samples.now_sample
    ([Examples.market_order_100; Examples.closing_fill_100]
       ++ Samples.market_order_no_time :: [])
    None
  = [].
Proof.
  apply (unreadable_order_time_empties_history Examples.iso_sample
           PyNum.float_of_string Samples.now_sample
           [Examples.market_order_100; Examples.closing_fill_100] []
           Samples.market_order_no_time None ValueError).
  - reflexivity.
  - reflexivity.
Defined.

Lemma open_trades_stop_at_first_failure_witness :
  Historical.fetch_extended_trade_history Examples.iso_sample
    PyNum.float_of_string Samples.now_sample Examples.ledger
    (Some ([Samples.open_entry_200] ++ Samples.open_entry_bad_time
             :: [Samples.open_entry_200]))
  = [Examples.trade_100] ++ [Samples.open_trade_200].
Proof.
  refine (proj2 (open_trades_stop_at_first_failure Examples.iso_sample
                   PyNum.float_of_string Samples.now_sample Examples.ledger
                   [Examples.trade_100] [Samples.open_entry_200]
                   [Samples.open_entry_200] [Samples.open_trade_200]
                   Samples.open_entry_bad_time ValueError eq_refl _ eq_refl)).
  constructor; [reflexivity|constructor].
Defined.

(** ** The whole analysis and its report *)

Section AnalyzerProperties.

Import PyTime PyStr Historical Analyzer.
Local Open Scope string_scope.
Local Open Scope list_scope.

Ltac split_test :=
  match goal with
  | |- context [contains ?m ?l] => destruct (contains m l) eqn:?
  | |- context [current_decision ?st] =>
      destruct (current_decision st) eqn:?
  | |- context [Re.search ?p ?l] => destruct (Re.search p l) eqn:?
  | |- context [PyNum.float_of_string ?x] =>
      destruct (PyNum.float_of_string x) eqn:?
  | |- context [line_timestamp ?n ?l] => destruct (line_timestamp n l) eqn:?
  end.

(** No decision and no builder of the state has a confidence. *)
Local Abbreviation unrated st :=
  (Forall (fun d => confidence d = 0) (decisions st)
   /\ forall cur, current_decision st = Some cur -> confidence cur = 0).

(** What one line can do to the state of the parser. *)
Lemma parse_line_shapes (now : datetime) (st : parser_state)
    (line : string) :
  parse_line now st line = st
  \/ (exists ts,
        parse_line now st line
        = mkState (decisions st) (Some (fresh_builder ts)))
  \/ (exists cur cur',
        current_decision st = Some cur
        /\ parse_line now st line = mkState (decisions st) (Some cur')
        /\ (confidence cur' = confidence cur
            \/ is_signal_line line = true))
  \/ (exists cur rr,
        current_decision st = Some cur
        /\ parse_line now st line
           = mkState (decisions st ++ [seal rr cur]) None)
  \/ (exists ts,
        parse_line now st line
        = mkState
            (decisions st ++ [rejected_decision ts (rejection_text line)])
            (current_decision st)).
Proof.
  unfold parse_line, parse_line_body, update_decimal, parse_signal_line,
    is_signal_line.
  repeat (split_test; simpl in * ).
  all: try (left; reflexivity).
  all: try (right; left; eexists; reflexivity).
  all: try (right; right; left; do 2 eexists;
            split; [reflexivity|split; [reflexivity|]];
            first [left; reflexivity|right; reflexivity]).
  all: try (right; right; right; left; do 2 eexists;
            split; reflexivity).
  all: right; right; right; right; eexists; reflexivity.
Qed.

Lemma parse_line_unrated (now : datetime) (st : parser_state)
    (line : string) :
  is_signal_line line = false \/ current_decision st = None ->
  unrated st -> unrated (parse_line now st line).
Proof.
  intros Hq [Hd Hc].
  destruct (parse_line_shapes now st line)
    as [E|[(ts & E)|[(cur & cur' & C & E & K)|[(cur & rr & C & E)|(ts & E)]]]];
    rewrite E; simpl.
  - now split.
  - split; [assumption|]. now intros c [= <-].
  - split; [assumption|]. intros c [= <-].
    destruct K as [K|K]; [rewrite K; now apply Hc|].
    destruct Hq as [Hq|Hq]; congruence.
  - split; [|discriminate]. apply Forall_app. split; [assumption|].
    constructor; [|constructor]. simpl. now apply Hc.
  - split; [|assumption]. apply Forall_app. split; [assumption|].
    constructor; [reflexivity|constructor].
Qed.

Lemma parse_lines_unrated (now : datetime) (lines : list string) :
  forall st,
    signals_before_builders now lines st = true ->
    unrated st -> unrated (parse_lines now lines st).
Proof.
  unfold parse_lines.
  induction lines as [|l ls IH]; intros st Hq Hu; simpl; [assumption|].
  simpl in Hq. apply andb_true_iff in Hq. destruct Hq as [Hl Hq].
  apply IH; [assumption|]. apply parse_line_unrated; [|assumption].
  apply orb_true_iff in Hl. destruct Hl as [Hl|Hl].
  - left. now apply negb_true_iff.
  - right. now destruct (current_decision st).
Qed.

Lemma quiet_log_unrated (now : datetime) (log : string) (d : BotDecision) :
  signals_before_builders now (split_lines log) initial_state = true ->
  In d (parse_bot_decisions now log) -> confidence d = 0.
Proof.
  intros Hq. unfold parse_bot_decisions.
  destruct log as [|c log']; [intros []|].
  destruct (parse_lines_unrated now (split_lines (String c log'))
              initial_state Hq) as [H _].
  { split; [constructor|discriminate]. }
  rewrite Forall_forall in H. apply H.
Qed.

(** X8: a decision takes its confidence only from a signal line that
    arrives while its builder is open.  In a log where every signal line
    arrives with no builder open, as in the bot's own format where the
    signal line precedes the "trade executed" line, every decision of
    [parse_bot_decisions] has the confidence 0. *)
Theorem confidence_needs_signal_inside_block
    (now : datetime) (log : string) :
  signals_before_builders now (split_lines log) initial_state = true ->
  Forall (fun d => confidence d = 0) (parse_bot_decisions now log).
Proof.
  intros Hq. apply Forall_forall. intros d.
  now apply quiet_log_unrated.
Qed.

Lemma analysis_of_trades (ts : list HistoricalTrade) :
  ts <> [] ->
  exists o, Historical.analyze_what_worked_vs_failed ts = Analysis o.
Proof.
  destruct ts as [|t ts]; [congruence|]. intros _.
  unfold Historical.analyze_what_worked_vs_failed. eexists. reflexivity.
Qed.

Lemma mean_raises (xs : list Q) (e : exn) :
  mean xs = Raise e <-> xs = [] /\ e = ValueError.
Proof.
  destruct xs; simpl; split.
  - intros [= <-]. now split.
  - now intros [_ ->].
  - discriminate.
  - intros [H _]. discriminate.
Qed.

Lemma duration_analysis_raises
    (closed winners losers : list HistoricalTrade) (e : exn) :
  duration_analysis closed winners losers = Raise e <->
  e = ValueError
  /\ durations closed <> []
  /\ ((winners <> [] /\ durations winners = [])
      \/ (losers <> [] /\ durations losers = [])).
Proof.
  unfold duration_analysis.
  destruct closed as [|c closed].
  - simpl. split; [discriminate|]. intros (_ & H & _). now elim H.
  - destruct (durations (c :: closed)) as [|h hs] eqn:D.
    + split; [discriminate|]. intros (_ & H & _). now elim H.
    + cbn [mean bind].
      destruct winners as [|w ws].
      * cbn [bind]. destruct losers as [|l ls].
        -- cbn [bind]. split; [discriminate|].
           intros (_ & _ & [[H _]|[H _]]); now elim H.
        -- destruct (durations (l :: ls)) as [|x xs] eqn:L.
           ++ cbn [mean bind]. split.
              ** intros [= <-]. split; [reflexivity|].
                 split; [discriminate|]. right. split; [discriminate|].
                 reflexivity.
              ** now intros (-> & _).
           ++ cbn [mean bind]. split; [discriminate|].
              intros (_ & _ & [[H _]|[_ H]]); [now elim H|discriminate].
      * destruct (durations (w :: ws)) as [|x xs] eqn:W.
        -- cbn [mean bind]. split.
           ++ intros [= <-]. split; [reflexivity|].
              split; [discriminate|]. left. split; [discriminate|].
              reflexivity.
           ++ now intros (-> & _).
        -- cbn [mean bind]. destruct losers as [|l ls].
           ++ cbn [bind]. split; [discriminate|].
              intros (_ & _ & [[_ H]|[H _]]); [discriminate|now elim H].
           ++ destruct (durations (l :: ls)) as [|y ys] eqn:L.
              ** cbn [mean bind]. split.
                 --- intros [= <-]. split; [reflexivity|].
                     split; [discriminate|]. right.
                     split; [discriminate|reflexivity].
                 --- now intros (-> & _).
              ** cbn [mean bind]. split; [discriminate|].
                 intros (_ & _ & [[_ H]|[_ H]]); discriminate.
Qed.

Lemma positive_confidences_none (ds : list BotDecision) :
  positive_confidences ds = [] <-> Forall (fun d => confidence d <= 0) ds.
Proof.
  unfold positive_confidences. induction ds as [|d ds IH]; simpl.
  - split; [constructor|reflexivity].
  - unfold Qgtb at 1. destruct (Qle_bool (confidence d) 0) eqn:E; simpl.
    + rewrite IH. apply Qle_bool_iff in E. split.
      * now constructor.
      * now inversion 1.
    + split; [discriminate|]. inversion 1 as [|? ? H1 _]; subst.
      apply Qle_bool_iff in H1. congruence.
Qed.

Lemma bot_analysis_raises (ds : list BotDecision) (e : exn) :
  bot_analysis ds = Raise e <->
  e = ValueError
  /\ executed_decisions ds <> []
  /\ Forall (fun d => confidence d <= 0) (executed_decisions ds).
Proof.
  unfold bot_analysis. destruct ds as [|d ds].
  - simpl. split; [discriminate|]. intros (_ & H & _). now elim H.
  - rewrite <- positive_confidences_none.
    destruct (executed_decisions (d :: ds)) as [|x xs].
    + cbn [bind]. split; [discriminate|]. intros (_ & H & _). now elim H.
    + destruct (positive_confidences (x :: xs)).
      * cbn [mean bind]. split.
        -- intros [= <-]. split; [reflexivity|]. split; [discriminate|].
           reflexivity.
        -- now intros (-> & _).
      * cbn [mean bind]. split; [discriminate|]. intros (_ & _ & H).
        discriminate.
Qed.

(** X9: on a history that is not empty the analysis never answers "no
    trades"; its [except] clause is reached by [StatisticsError] only, and
    exactly in two cases: some closed trade has a duration but the winners,
    or the losers, exist and none of them has one; or the log gave executed
    decisions and none of them has a positive confidence. *)
Theorem analysis_fails_exactly_when
    (ts : list HistoricalTrade) (ds : list BotDecision) :
  ts <> [] ->
  let closed := filter is_closed ts in
  let winners := filter is_winner closed in
  let losers := filter is_loser closed in
  analyze_what_worked_vs_failed ts ds <> NoTrades
  /\ (forall e, analyze_what_worked_vs_failed ts ds = Failed e ->
      e = ValueError)
  /\ (analyze_what_worked_vs_failed ts ds = Failed ValueError <->
      (durations closed <> []
       /\ ((winners <> [] /\ durations winners = [])
           \/ (losers <> [] /\ durations losers = [])))
      \/ (executed_decisions ds <> []
          /\ Forall (fun d => confidence d <= 0) (executed_decisions ds))).
Proof.
  intros Hts closed winners losers.
  destruct (analysis_of_trades ts Hts) as [o Ho].
  unfold analyze_what_worked_vs_failed. rewrite Ho.
  fold closed. fold winners. fold losers.
  pose proof (duration_analysis_raises closed winners losers) as HD.
  pose proof (bot_analysis_raises ds) as HB.
  destruct (duration_analysis closed winners losers) as [d|e1].
  - cbn [bind]. destruct (bot_analysis ds) as [b|e2].
    + cbn [bind]. split; [discriminate|]. split; [discriminate|].
      split; [discriminate|].
      intros [H|H].
      * assert (X : Return d = Raise ValueError :> result _)
          by (apply HD; tauto). discriminate.
      * assert (X : Return b = Raise ValueError :> result _)
          by (apply HB; tauto). discriminate.
    + cbn [bind]. destruct (proj1 (HB e2) eq_refl) as (-> & B1 & B2).
      split; [discriminate|]. split; [now intros e [= <-]|].
      split; [intros _; right; now split|reflexivity].
  - cbn [bind]. destruct (proj1 (HD e1) eq_refl) as (-> & D1 & D2).
    split; [discriminate|]. split; [now intros e [= <-]|].
    split; [intros _; left; now split|reflexivity].
Qed.

Lemma position_lines_raise (ps : list position) :
  (forall e, position_lines ps = Raise e -> e = TypeError)
  /\ (position_lines ps = Raise TypeError <->
      exists p, In p ps /\ pos_duration p = None)
  /\ (forall ls, position_lines ps = Return ls ->
      List.length ls = List.length ps).
Proof.
  induction ps as [|p ps (IH1 & IH2 & IH3)]; simpl.
  - split; [discriminate|]. split.
    + split; [discriminate|]. now intros (p & [] & _).
    + now intros ls [= <-].
  - unfold position_line. destruct (pos_duration p) as [h|] eqn:D; simpl.
    + destruct (position_lines ps) as [ls|e]; simpl.
      * split; [discriminate|]. split.
        -- split; [discriminate|]. intros (q & [<-|Hq] & Hn); [congruence|].
           assert (X : Return ls = Raise TypeError :> result _).
           { apply IH2. now exists q. }
           discriminate.
        -- intros ls' [= <-]. simpl. now rewrite (IH3 ls eq_refl).
      * split; [intros e' [= <-]; now apply IH1|]. split; [|discriminate].
        rewrite (IH1 e eq_refl) in *. split; [|reflexivity]. intros _.
        destruct (proj1 IH2 eq_refl) as (q & Hq & Hn).
        exists q. split; [now right|assumption].
    + split; [now intros e [= <-]|]. split; [|discriminate].
      split; [|reflexivity]. intros _. exists p. split; [now left|assumption].
Qed.

Lemma positions_of_report (ts : list HistoricalTrade)
    (ds : list BotDecision) (r : report) :
  analyze_what_worked_vs_failed ts ds = Report r ->
  positions r = map position_of (filter is_open ts)
  /\ positions_count r = List.length (filter is_open ts).
Proof.
  unfold analyze_what_worked_vs_failed.
  destruct (Historical.analyze_what_worked_vs_failed ts); [discriminate|].
  destruct (duration_analysis _ _ _); cbn [bind]; [|discriminate].
  destruct (bot_analysis ds); cbn [bind]; [|discriminate].
  intros [= <-]. split; reflexivity.
Qed.

Lemma open_without_duration (ts : list HistoricalTrade) :
  (exists p, In p (map position_of (filter is_open ts))
             /\ pos_duration p = None)
  <-> exists t, In t ts /\ status t = "OPEN" /\ duration_hours t = None.
Proof.
  split.
  - intros (p & Hp & Hn). apply in_map_iff in Hp.
    destruct Hp as (t & <- & Ht). apply filter_In in Ht.
    destruct Ht as [Ht Ho]. exists t. split; [assumption|].
    split; [now apply String.eqb_eq|assumption].
  - intros (t & Ht & Ho & Hn). exists (position_of t). split; [|assumption].
    apply in_map. apply filter_In. split; [assumption|].
    unfold is_open. rewrite Ho. reflexivity.
Qed.

(** X10: the report of an analysis is written unless an open position has
    no duration: then, and only then, formatting the position raises
    [TypeError].  A report that is written lists every open position. *)
Theorem report_needs_durations_of_open_positions
    (ts : list HistoricalTrade) (ds : list BotDecision) (r : report) :
  analyze_what_worked_vs_failed ts ds = Report r ->
  (generate_insights_report (Report r) = Raise TypeError <->
   exists t, In t ts /\ status t = "OPEN" /\ duration_hours t = None)
  /\ (forall e, generate_insights_report (Report r) = Raise e ->
      e = TypeError)
  /\ (forall stats best worst bot top duration lines,
        generate_insights_report (Report r)
        = Return (Insights stats best worst bot top duration lines) ->
        List.length lines = List.length (filter is_open ts)).
Proof.
  intros H. destruct (positions_of_report ts ds r H) as [P _].
  destruct (position_lines_raise (positions r)) as (R1 & R2 & R3).
  rewrite <- open_without_duration, <- P, <- R2.
  unfold generate_insights_report.
  destruct (position_lines (positions r)) as [ls|e]; cbn [bind].
  - split; [split; discriminate|]. split; [discriminate|].
    intros stats best worst bot top duration lines [= _ _ _ _ _ _ <-].
    rewrite (R3 ls eq_refl), P. now rewrite length_map.
  - rewrite (R1 e eq_refl). split; [tauto|]. split; [now intros e' [= <-]|].
    discriminate.
Qed.

(** *** Currency pairs *)

Local Abbreviation bumped p v :=
  (mkPairData (S (trades v)) (profit v + p)
     (if Qgtb p 0 then S (wins v) else wins v)).
Local Abbreviation fresh p :=
  (mkPairData 1 (0 + p) (if Qgtb p 0 then 1%nat else 0%nat)).

Lemma record_trade_keys (k : string) (p : Q) (tbl : pair_table) :
  map fst (record_trade k p tbl) = map fst tbl
  \/ (~ In k (map fst tbl)
      /\ map fst (record_trade k p tbl) = map fst tbl ++ [k]).
Proof.
  induction tbl as [|[k' v'] tbl IH]; simpl.
  - right. split; [tauto|reflexivity].
  - destruct (String.eqb k' k) eqn:E; simpl; [now left|].
    apply String.eqb_neq in E.
    destruct IH as [->|(Hn & ->)]; [now left|].
    right. split; [tauto|reflexivity].
Qed.

Lemma record_trade_key_in (k : string) (p : Q) (tbl : pair_table) :
  In k (map fst (record_trade k p tbl)).
Proof.
  induction tbl as [|[k' v'] tbl IH]; simpl; [now left|].
  destruct (String.eqb k' k) eqn:E; simpl.
  - left. now apply String.eqb_eq.
  - now right.
Qed.

Lemma record_trade_entries (k : string) (p : Q) (tbl : pair_table)
    (k' : string) (v' : pair_data) :
  NoDup (map fst tbl) ->
  In (k', v') (record_trade k p tbl) ->
  (k' <> k /\ In (k', v') tbl)
  \/ (k' = k
      /\ ((exists v, In (k, v) tbl /\ v' = bumped p v)
          \/ (~ In k (map fst tbl) /\ v' = fresh p))).
Proof.
  induction tbl as [|[k0 v0] tbl IH]; simpl; intros N.
  - intros [[= <- <-]|[]]. right. split; [reflexivity|]. right.
    split; [tauto|reflexivity].
  - inversion N as [|? ? N1 N2]; subst.
    destruct (String.eqb k0 k) eqn:E.
    + apply String.eqb_eq in E. subst k0. intros [[= <- <-]|Hin].
      * right. split; [reflexivity|]. left. exists v0. split; [now left|].
        reflexivity.
      * left. split; [|now right]. intros ->. apply N1.
        apply (in_map fst) in Hin. exact Hin.
    + apply String.eqb_neq in E. intros [[= <- <-]|Hin].
      * left. split; [assumption|now left].
      * destruct (IH N2 Hin) as [[Hn Hi]|[-> [(v & Hv & ->)|[Hn ->]]]].
        -- left. split; [assumption|now right].
        -- right. split; [reflexivity|]. left. exists v.
           split; [now right|reflexivity].
        -- right. split; [reflexivity|]. right. split; [|reflexivity].
           intros [H|H]; [congruence|contradiction].
Qed.

(** The closed trades of a pair. *)
Local Abbreviation trades_of k ts :=
  (filter (fun t => String.eqb (pair_of t) k) ts).

(** The entry [v] of the pair [k] sums up the trades [seen]. *)
Local Abbreviation sums_up k v seen :=
  (trades v = List.length (trades_of k seen)
   /\ lt 0 (trades v)
   /\ wins v = List.length (filter is_winner (trades_of k seen))
   /\ profit v == Qsum (map pl (trades_of k seen))).

Lemma Qsum_snoc (xs : list Q) (x : Q) : Qsum (xs ++ [x]) = Qsum xs + x.
Proof. unfold Qsum. now rewrite fold_left_app. Qed.

Lemma pair_table_step (tbl : pair_table) (seen : list HistoricalTrade)
    (t : HistoricalTrade) :
  NoDup (map fst tbl) ->
  (forall u, In u seen -> In (pair_of u) (map fst tbl)) ->
  (forall k v, In (k, v) tbl -> sums_up k v seen) ->
  let tbl' := record_trade (pair_of t) (pl t) tbl in
  NoDup (map fst tbl')
  /\ (forall u, In u (seen ++ [t]) -> In (pair_of u) (map fst tbl'))
  /\ (forall k v, In (k, v) tbl' -> sums_up k v (seen ++ [t])).
Proof.
  intros N K S tbl'.
  pose proof (record_trade_keys (pair_of t) (pl t) tbl) as RK.
  fold tbl' in RK.
  split; [|split].
  - destruct RK as [->|(Hn & ->)]; [assumption|].
    clear - N Hn. induction N as [|x ks Hx N IH]; simpl.
    + constructor; [intros []|constructor].
    + constructor.
      * rewrite in_app_iff. intros [H|[<-|[]]]; [now apply Hx|].
        apply Hn. now left.
      * apply IH. intros H. apply Hn. now right.
  - intros u Hu. apply in_app_or in Hu. destruct Hu as [Hu|[<-|[]]].
    + specialize (K u Hu).
      destruct RK as [->|(_ & ->)]; [assumption|].
      apply in_or_app. now left.
    + apply record_trade_key_in.
  - intros k v Hin.
    rewrite filter_app. cbn [filter].
    destruct (record_trade_entries (pair_of t) (pl t) tbl k v N Hin)
      as [[Hn Hi]|[-> [(v0 & Hv & ->)|[Hn ->]]]].
    + assert (E : String.eqb (pair_of t) k = false).
      { apply String.eqb_neq. congruence. }
      rewrite E, app_nil_r. now apply S.
    + rewrite String.eqb_refl.
      destruct (S _ _ Hv) as (S1 & S2 & S3 & S4). cbn [trades wins profit].
      rewrite filter_app, map_app, !length_app. cbn [filter map List.length].
      rewrite Qsum_snoc. unfold is_winner at 2.
      split; [lia|]. split; [lia|]. split.
      * destruct (Qgtb (pl t) 0); simpl; lia.
      * now rewrite S4.
    + rewrite String.eqb_refl.
      assert (E : trades_of (pair_of t) seen = []).
      { clear - K Hn. induction seen as [|u seen IH]; simpl; [reflexivity|].
        destruct (String.eqb (pair_of u) (pair_of t)) eqn:E.
        - apply String.eqb_eq in E. exfalso. apply Hn. rewrite <- E.
          apply K. now left.
        - apply IH. intros w Hw. apply K. now right. }
      rewrite E. cbn [trades wins profit app filter map List.length].
      unfold is_winner. split; [reflexivity|]. split; [lia|]. split.
      * now destruct (Qgtb (pl t) 0).
      * reflexivity.
Qed.

Lemma pair_table_fold (rest : list HistoricalTrade) :
  forall tbl seen,
    NoDup (map fst tbl) ->
    (forall u, In u seen -> In (pair_of u) (map fst tbl)) ->
    (forall k v, In (k, v) tbl -> sums_up k v seen) ->
    let tbl' :=
      fold_left (fun tbl t => record_trade (pair_of t) (pl t) tbl) rest tbl in
    NoDup (map fst tbl')
    /\ (forall u, In u (seen ++ rest) -> In (pair_of u) (map fst tbl'))
    /\ (forall k v, In (k, v) tbl' -> sums_up k v (seen ++ rest)).
Proof.
  induction rest as [|t rest IH]; intros tbl seen N K S; simpl.
  - rewrite app_nil_r. split; [assumption|]. split; assumption.
  - destruct (pair_table_step tbl seen t N K S) as (N' & K' & S').
    specialize (IH _ _ N' K' S').
    replace (seen ++ t :: rest) with ((seen ++ [t]) ++ rest)
      by now rewrite <- app_assoc.
    exact IH.
Qed.

(** X13: [pair_performance] has one entry for each pair that occurs among
    the closed trades and no other; the entry of a pair counts the closed
    trades of that pair, counts those with a positive result as wins, and
    its profit is the sum of their results. *)
Theorem pair_table_sums_up_its_trades (closed : list HistoricalTrade) :
  NoDup (map fst (pair_performance closed))
  /\ (forall t, In t closed ->
      In (pair_of t) (map fst (pair_performance closed)))
  /\ (forall k v, In (k, v) (pair_performance closed) ->
      trades v = List.length (trades_of k closed)
      /\ (0 < trades v)%nat
      /\ wins v = List.length (filter is_winner (trades_of k closed))
      /\ profit v == Qsum (map pl (trades_of k closed))).
Proof.
  unfold pair_performance.
  apply (pair_table_fold closed [] []).
  - constructor.
  - intros u [].
  - intros k v [].
Qed.

(** *** Sorting *)

Lemma insert_item_In (first : Q -> Q -> bool) (x y : string * pair_data)
    (l : pair_table) :
  In x (insert_item first y l) <-> x = y \/ In x l.
Proof.
  induction l as [|z l IH]; simpl.
  - intuition congruence.
  - destruct (first (profit (snd y)) (profit (snd z))); simpl.
    + intuition congruence.
    + rewrite IH. intuition congruence.
Qed.

Lemma sorted_items_In (first : Q -> Q -> bool) (x : string * pair_data)
    (tbl : pair_table) :
  In x (sorted_items first tbl) <-> In x tbl.
Proof.
  unfold sorted_items. induction tbl as [|y tbl IH]; simpl; [tauto|].
  rewrite insert_item_In, IH. intuition congruence.
Qed.

Lemma insert_item_length (first : Q -> Q -> bool) (y : string * pair_data)
    (l : pair_table) :
  List.length (insert_item first y l) = S (List.length l).
Proof.
  induction l as [|z l IH]; simpl; [reflexivity|].
  destruct (first _ _); simpl; [reflexivity|now rewrite IH].
Qed.

Lemma sorted_items_length (first : Q -> Q -> bool) (tbl : pair_table) :
  List.length (sorted_items first tbl) = List.length tbl.
Proof.
  unfold sorted_items. induction tbl as [|y tbl IH]; simpl; [reflexivity|].
  now rewrite insert_item_length, IH.
Qed.

Lemma firstn_incl {A : Type} (n : nat) (l : list A) (x : A) :
  In x (firstn n l) -> In x l.
Proof.
  intros H. rewrite <- (firstn_skipn n l). apply in_or_app. now left.
Qed.

Section Order.

Variable first : Q -> Q -> bool.
Hypothesis first_total : forall a b, first a b = false -> first b a = true.
Hypothesis first_trans :
  forall a b c, first a b = true -> first b c = true -> first a c = true.

Local Abbreviation ahead :=
  (fun x y : string * pair_data =>
     first (profit (snd x)) (profit (snd y)) = true).

Lemma insert_item_sorted (y : string * pair_data) (l : pair_table) :
  StronglySorted ahead l -> StronglySorted ahead (insert_item first y l).
Proof.
  induction 1 as [|z l Hl IH Hz]; simpl.
  - constructor; constructor.
  - destruct (first (profit (snd y)) (profit (snd z))) eqn:E.
    + constructor; [now constructor|]. constructor; [assumption|].
      rewrite Forall_forall in *. intros w Hw.
      apply first_trans with (profit (snd z)); [assumption|now apply Hz].
    + constructor; [assumption|]. apply Forall_forall. intros w Hw.
      apply insert_item_In in Hw. destruct Hw as [->|Hw].
      * now apply first_total.
      * rewrite Forall_forall in Hz. now apply Hz.
Qed.

Lemma sorted_items_sorted (tbl : pair_table) :
  StronglySorted ahead (sorted_items first tbl).
Proof.
  unfold sorted_items. induction tbl as [|y tbl IH]; simpl.
  - constructor.
  - now apply insert_item_sorted.
Qed.

Lemma firstn_ahead (n : nat) (l : pair_table) :
  StronglySorted ahead l ->
  StronglySorted ahead (firstn n l)
  /\ forall x y, In x (firstn n l) -> In y l ->
                 In y (firstn n l) \/ ahead x y.
Proof.
  intros H. revert n. induction H as [|z l Hl IH Hz]; intros [|n]; simpl.
  - split; [constructor|intros x y []].
  - split; [constructor|intros x y []].
  - split; [constructor|intros x y []].
  - destruct (IH n) as [S1 S2]. rewrite Forall_forall in Hz. split.
    + constructor; [assumption|]. apply Forall_forall. intros w Hw.
      apply Hz. eapply firstn_incl. exact Hw.
    + intros x y [<-|Hx] [<-|Hy].
      * left. now left.
      * right. now apply Hz.
      * left. now left.
      * destruct (S2 x y Hx Hy) as [H|H]; [left; now right|now right].
Qed.

End Order.

Lemma Qle_bool_total (a b : Q) : Qle_bool a b = false -> Qle_bool b a = true.
Proof.
  intros H. apply Qle_bool_iff. apply Qlt_le_weak. apply Qnot_le_lt.
  intros L. apply Qle_bool_iff in L. congruence.
Qed.

Lemma Qle_bool_trans (a b c : Q) :
  Qle_bool a b = true -> Qle_bool b c = true -> Qle_bool a c = true.
Proof.
  rewrite !Qle_bool_iff. apply Qle_trans.
Qed.

Lemma StronglySorted_weaken {A : Type} (R S : A -> A -> Prop) (l : list A) :
  (forall x y, R x y -> S x y) -> StronglySorted R l -> StronglySorted S l.
Proof.
  intros H. induction 1 as [|x l Hl IH Hx]; constructor; [assumption|].
  revert Hx. apply Forall_impl. intros y. apply H.
Qed.

Lemma pairs_of_report (ts : list HistoricalTrade)
    (ds : list BotDecision) (r : report) :
  analyze_what_worked_vs_failed ts ds = Report r ->
  best_performing r = best_pairs (pair_performance (filter is_closed ts))
  /\ worst_performing r
     = worst_pairs (pair_performance (filter is_closed ts)).
Proof.
  unfold analyze_what_worked_vs_failed.
  destruct (Historical.analyze_what_worked_vs_failed ts); [discriminate|].
  destruct (duration_analysis _ _ _); cbn [bind]; [|discriminate].
  destruct (bot_analysis ds); cbn [bind]; [|discriminate].
  intros [= <-]. split; reflexivity.
Qed.

(** X14: the best pairs of an analysis are the three entries of the pair
    table with the highest profit (all entries when there are fewer), in
    falling order of profit; the worst pairs the three with the lowest
    profit, in rising order.  No entry left out of the best pairs has more
    profit than one of them, none left out of the worst pairs has less. *)
Theorem best_and_worst_pairs
    (ts : list HistoricalTrade) (ds : list BotDecision) (r : report) :
  analyze_what_worked_vs_failed ts ds = Report r ->
  let tbl := pair_performance (filter is_closed ts) in
  List.length (best_performing r) = Nat.min 3 (List.length tbl)
  /\ List.length (worst_performing r) = Nat.min 3 (List.length tbl)
  /\ (forall x, In x (best_performing r) \/ In x (worst_performing r) ->
      In x tbl)
  /\ (forall x y, In x (best_performing r) -> In y tbl ->
      In y (best_performing r) \/ profit (snd y) <= profit (snd x))
  /\ (forall x y, In x (worst_performing r) -> In y tbl ->
      In y (worst_performing r) \/ profit (snd x) <= profit (snd y))
  /\ StronglySorted (fun x y => profit (snd y) <= profit (snd x))
       (best_performing r)
  /\ StronglySorted (fun x y => profit (snd x) <= profit (snd y))
       (worst_performing r).
Proof.
  intros H tbl. destruct (pairs_of_report ts ds r H) as [-> ->].
  fold tbl. unfold best_pairs, worst_pairs.
  assert (D : forall a b, descending a b = false -> descending b a = true).
  { intros a b. apply Qle_bool_total. }
  assert (DT : forall a b c, descending a b = true -> descending b c = true ->
                             descending a c = true).
  { intros a b c H1 H2. unfold descending in *.
    now apply Qle_bool_trans with b. }
  assert (A : forall a b, ascending a b = false -> ascending b a = true).
  { intros a b. apply Qle_bool_total. }
  assert (AT : forall a b c, ascending a b = true -> ascending b c = true ->
                             ascending a c = true).
  { intros a b c. apply Qle_bool_trans. }
  destruct (firstn_ahead descending 3 (sorted_items descending tbl)
              (sorted_items_sorted descending D DT tbl)) as [B1 B2].
  destruct (firstn_ahead ascending 3 (sorted_items ascending tbl)
              (sorted_items_sorted ascending A AT tbl)) as [W1 W2].
  rewrite !length_firstn, !sorted_items_length.
  split; [reflexivity|]. split; [reflexivity|]. split; [|split; [|split; [|split]]].
  - intros x [Hx|Hx]; apply firstn_incl in Hx;
      now apply sorted_items_In in Hx.
  - intros x y Hx Hy. apply (sorted_items_In descending) in Hy.
    destruct (B2 x y Hx Hy) as [K|K]; [now left|right].
    now apply Qle_bool_iff.
  - intros x y Hx Hy. apply (sorted_items_In ascending) in Hy.
    destruct (W2 x y Hx Hy) as [K|K]; [now left|right].
    now apply Qle_bool_iff.
  - revert B1. apply StronglySorted_weaken. intros x y K.
    now apply Qle_bool_iff.
  - revert W1. apply StronglySorted_weaken. intros x y K.
    now apply Qle_bool_iff.
Qed.

Section PipelineProperties.

Variable fromisoformat : string -> result datetime.
Variable float : string -> result Q.

Lemma append_open_trades_keeps (now : datetime)
    (entries : list open_trade_entry) :
  forall acc t,
    In t acc -> In t (append_open_trades fromisoformat float now acc entries).
Proof.
  induction entries as [|e es IH]; intros acc t Hin; simpl; [assumption|].
  destruct (Historical.open_trade fromisoformat float now e);
    [|assumption].
  apply IH. apply in_or_app. now left.
Qed.

(** X11: a trade of the ledger that no ORDER_FILL closed keeps the status
    OPEN and has no duration, so [run_comprehensive_analysis] writes no
    report for a ledger with such a trade: it returns the error line or
    raises [TypeError], whatever the log holds. *)
Theorem unclosed_ledger_trade_blocks_report
    (now_utc now : datetime) (txs : list ledger_entry)
    (open_trades : option (list open_trade_entry)) (log : string)
    (ts : list HistoricalTrade) (t : HistoricalTrade) :
  trade_list fromisoformat float txs = Return ts ->
  In t ts -> status t = "OPEN" ->
  duration_hours t = None
  /\ (run_comprehensive_analysis fromisoformat float now_utc now txs
        open_trades log = Return ErrorLine
      \/ run_comprehensive_analysis fromisoformat float now_utc now txs
           open_trades log = Raise TypeError).
Proof.
  intros Hts Hin Ho.
  assert (Hn : duration_hours t = None).
  { destruct (trade_list_ok fromisoformat float txs ts t Hts Hin)
      as (_ & _ & Hd).
    destruct (close_time t); [|tauto].
    destruct Hd as (_ & Hs & _). congruence. }
  split; [assumption|].
  unfold run_comprehensive_analysis.
  set (hist := fetch_extended_trade_history _ _ _ _ _).
  assert (Hh : In t hist).
  { unfold hist, fetch_extended_trade_history. rewrite Hts.
    destruct open_trades; [now apply append_open_trades_keeps|assumption]. }
  destruct (analyze_what_worked_vs_failed hist
              (parse_bot_decisions now log)) as [| |r] eqn:A;
    [now left|now left|].
  right. destruct (positions_of_report _ _ _ A) as [P _].
  destruct (position_lines_raise (positions r)) as (_ & R2 & _).
  unfold generate_insights_report.
  assert (X : position_lines (positions r) = Raise TypeError).
  { apply R2. rewrite P. apply open_without_duration. now exists t. }
  now rewrite X.
Qed.

(** X12: when every signal line of the log arrives with no builder open
    and the log yields an executed decision, [run_comprehensive_analysis]
    returns the error line for every ledger: either the history is empty,
    or the mean of the positive confidences has no data. *)
Theorem log_without_timely_signal_gives_error_line
    (now_utc now : datetime) (txs : list ledger_entry)
    (open_trades : option (list open_trade_entry)) (log : string) :
  signals_before_builders now (split_lines log) initial_state = true ->
  executed_decisions (parse_bot_decisions now log) <> [] ->
  run_comprehensive_analysis fromisoformat float now_utc now txs
    open_trades log = Return ErrorLine.
Proof.
  intros Hq He. unfold run_comprehensive_analysis.
  set (hist := fetch_extended_trade_history _ _ _ _ _).
  set (ds := parse_bot_decisions now log) in *.
  assert (B : bot_analysis ds = Raise ValueError).
  { apply bot_analysis_raises. split; [reflexivity|]. split; [assumption|].
    apply Forall_forall. intros d Hd. unfold executed_decisions in Hd.
    apply filter_In in Hd. destruct Hd as [Hd _].
    rewrite (quiet_log_unrated now log d Hq Hd). apply Qle_refl. }
  unfold analyze_what_worked_vs_failed.
  destruct (Historical.analyze_what_worked_vs_failed hist); [reflexivity|].
  destruct (duration_analysis _ _ _); cbn [bind]; [|reflexivity].
  rewrite B. reflexivity.
Qed.

End PipelineProperties.

End AnalyzerProperties.

Lemma unclosed_ledger_trade_blocks_report_witness :
  Historical.duration_hours Samples.unclosed_100 = None
  /\ Analyzer.run_comprehensive_analysis Examples.iso_sample
       PyNum.float_of_string Samples.now_sample Examples.now0
       [Examples.market_order_100] None EmptyString
     = Raise TypeError.
Proof.
  split.
  - exact (proj1 (unclosed_ledger_trade_blocks_report Examples.iso_sample
                    PyNum.float_of_string Samples.now_sample Examples.now0
                    [Examples.market_order_100] None EmptyString
                    [Samples.unclosed_100] Samples.unclosed_100
                    eq_refl (or_introl eq_refl) eq_refl)).
  - reflexivity.
Defined.

Lemma log_without_timely_signal_gives_error_line_witness :
  Analyzer.run_comprehensive_analysis Examples.iso_sample
    PyNum.float_of_string Samples.now_sample Examples.now0
    Examples.ledger None Analyzer._generate_sample_bot_logs
  = Return Analyzer.ErrorLine.
Proof.
  apply (log_without_timely_signal_gives_error_line Examples.iso_sample
           PyNum.float_of_string Samples.now_sample Examples.now0
           Examples.ledger None Analyzer._generate_sample_bot_logs).
  - vm_compute. reflexivity.
  - vm_compute. discriminate.
Defined.

Lemma confidence_needs_signal_inside_block_witness :
  Forall (fun d => Historical.confidence d = 0)
    (Historical.parse_bot_decisions Examples.now0
       Analyzer._generate_sample_bot_logs)
  /\ List.length (Analyzer.executed_decisions
                    (Historical.parse_bot_decisions Examples.now0
                       Analyzer._generate_sample_bot_logs)) = 3%nat.
Proof.
  split.
  - apply (confidence_needs_signal_inside_block Examples.now0
             Analyzer._generate_sample_bot_logs).
    vm_compute. reflexivity.
  - vm_compute. reflexivity.
Defined.

Lemma analysis_fails_exactly_when_witness :
  Analyzer.analyze_what_worked_vs_failed [Examples.closed_with 10] []
  <> Analyzer.NoTrades.
Proof.
  apply (analysis_fails_exactly_when [Examples.closed_with 10] []).
  discriminate.
Defined.

Lemma report_needs_durations_of_open_positions_witness :
  exists lines,
    Analyzer.position_lines
      (map Analyzer.position_of
         (filter Historical.is_open
            [Examples.closed_with 10; Examples.open_position]))
    = Return lines
    /\ List.length lines = 1%nat.
Proof.
  eexists. split; [reflexivity|].
  exact (proj2 (proj2 (report_needs_durations_of_open_positions
                         [Examples.closed_with 10; Examples.open_position]
                         [] _ eq_refl))
           _ _ _ _ _ _ _ eq_refl).
Defined.

Lemma best_and_worst_pairs_witness :
  exists r,
    Analyzer.analyze_what_worked_vs_failed
      [Examples.closed_with 10; Examples.open_position] [] = Analyzer.Report r
    /\ List.length (Analyzer.best_performing r) = 1%nat.
Proof.
  eexists. split; [reflexivity|].
  exact (proj1 (best_and_worst_pairs
                  [Examples.closed_with 10; Examples.open_position] []
                  _ eq_refl)).
Defined.

(** ** The live extractor: where an executed intention comes from *)

Section LiveExtractor.

Import PyTime PyStr Live Metrics.
Local Open Scope string_scope.
Local Open Scope list_scope.

Lemma contains_skip (p a b : string) :
  contains p b = true -> contains p (a ++ b)%string = true.
Proof.
  intros H. induction a as [|c a IH]; simpl; [assumption|].
  rewrite IH. apply orb_true_r.
Qed.

Lemma contains_here (p s : string) :
  starts_with p s = true -> contains p s = true.
Proof. intros H. destruct s; simpl; rewrite H; reflexivity. Qed.

Lemma starts_with_keep (p a b : string) :
  starts_with p a = true -> starts_with p (a ++ b)%string = true.
Proof.
  revert a. induction p as [|c p IH]; intros a H; [reflexivity|].
  destruct a as [|d a]; [discriminate|]. cbn [starts_with append] in *.
  apply andb_true_iff in H. destruct H as [H1 H2].
  now rewrite H1, (IH a H2).
Qed.

Lemma contains_keep (p a b : string) :
  contains p a = true -> contains p (a ++ b)%string = true.
Proof.
  induction a as [|c a IH]; intros H.
  - cbn [contains] in H. rewrite orb_false_r in H.
    apply contains_here. now apply starts_with_keep.
  - cbn [contains append] in *. apply orb_true_iff in H.
    destruct H as [H|H].
    + change (String c (a ++ b)%string) with (String c a ++ b)%string.
      rewrite (starts_with_keep p (String c a) b H). reflexivity.
    + rewrite (IH H). apply orb_true_r.
Qed.

(** A match of [(\w+/\w+) (\w+)] at the start of [s]. *)
Lemma pair_signal_here (s : string) (g : list string) :
  Re.match_here Re.pair_signal_re s = Some g ->
  exists post,
    s = ((Re.part 0 g ++ Re.part 1 g ++ Re.part 2 g) ++ " " ++ Re.part 4 g
         ++ post)%string
    /\ contains "/" (Re.part 0 g ++ Re.part 1 g ++ Re.part 2 g)%string = true.
Proof.
  unfold Re.pair_signal_re. cbn [Re.match_here].
  destruct (span is_word s) as [r1 t1] eqn:S1.
  destruct r1 as [|c1 r1]; [discriminate|].
  destruct (starts_with "/" t1) eqn:L1; [|discriminate].
  cbn [option_map String.length].
  destruct (span is_word (drop 1 t1)) as [r2 t2] eqn:S2.
  destruct r2 as [|c2 r2]; [discriminate|].
  destruct (starts_with " " t2) eqn:L2; [|discriminate].
  cbn [option_map String.length].
  destruct (span is_word (drop 1 t2)) as [r3 t3] eqn:S3.
  destruct r3 as [|c3 r3]; [discriminate|].
  cbn [option_map]. intros [= <-]. cbn [Re.part nth].
  apply span_app in S1. destruct S1 as [E1 _].
  apply span_app in S2. destruct S2 as [E2 _].
  apply span_app in S3. destruct S3 as [E3 _].
  apply starts_with_app in L1. apply starts_with_app in L2.
  cbn [String.length] in L1, L2.
  exists t3. split.
  - rewrite E1, L1, E2, L2, E3 at 1.
    now rewrite !append_assoc.
  - apply contains_skip. reflexivity.
Qed.

Lemma pair_signal_found (s : string) (g : list string) :
  Re.search Re.pair_signal_re s = Some g ->
  exists pre post,
    s = (pre ++ (Re.part 0 g ++ Re.part 1 g ++ Re.part 2 g) ++ " "
         ++ Re.part 4 g ++ post)%string
    /\ contains "/" (Re.part 0 g ++ Re.part 1 g ++ Re.part 2 g)%string = true.
Proof.
  induction s as [|c s IH].
  - simpl. discriminate.
  - cbn [Re.search].
    destruct (Re.match_here Re.pair_signal_re (String c s)) as [g'|] eqn:M.
    + intros [= <-]. destruct (pair_signal_here _ _ M) as (post & E & C).
      exists "", post. now split.
    + intros H. destruct (IH H) as (pre & post & E & C).
      exists (String c pre), post. split; [|assumption].
      exact (f_equal (String c) E).
Qed.

Lemma executed_trade_from_line (now : datetime) (line : string)
    (all_lines : list string) (i : BotTradeIntention) :
  _parse_executed_trade now line all_lines = Some i ->
  exists pre post,
    line = (pre ++ pair i ++ " " ++ signal_type i ++ post)%string
    /\ contains "/" (pair i) = true.
Proof.
  unfold _parse_executed_trade, parse_executed_trade_body.
  destruct (scan_details _ _); simpl; [|discriminate].
  destruct (line_timestamp now line); simpl; [|discriminate].
  destruct (Re.search Re.pair_signal_re line) as [g|] eqn:S; [|discriminate].
  intros [= <-].
  destruct (pair_signal_found _ _ S) as (pre & post & E & C).
  exists pre, post. split; [exact E|exact C].
Qed.

Lemma live_executed_from_marker (now : datetime)
    (all_lines lines : list string) :
  forall acc i,
    In i (fold_left (Live.parse_line now all_lines) lines acc) ->
    executed i = true ->
    In i acc
    \/ exists line pre post,
         In line lines
         /\ contains EXECUTED_MARKER line = true
         /\ line = (pre ++ pair i ++ " " ++ signal_type i ++ post)%string
         /\ contains "/" (pair i) = true.
Proof.
  induction lines as [|l ls IH]; intros acc i Hin He; simpl in Hin.
  - now left.
  - destruct (IH _ _ Hin He) as [Ha|(line & pre & post & Hl & R)].
    + unfold Live.parse_line in Ha.
      destruct (contains EXECUTED_MARKER l) eqn:M.
      * destruct (_parse_executed_trade now l all_lines) as [i0|] eqn:P;
          [|now left].
        apply in_app_or in Ha. destruct Ha as [Ha|[<-|[]]]; [now left|].
        right. destruct (executed_trade_from_line _ _ _ _ P)
          as (pre & post & E & C).
        exists l, pre, post. split; [now left|]. now repeat split.
      * destruct (contains REJECTED_MARKER l).
        -- destruct (_parse_rejected_signal now l all_lines) as [i0|] eqn:P;
             [|now left].
           apply in_app_or in Ha. destruct Ha as [Ha|[<-|[]]]; [now left|].
           simpl in He. discriminate.
        -- destruct (contains CLOSED_MARKER l); now left.
    + right. exists line, pre, post. split; [now right|assumption].
Qed.

(** X15: every executed intention of [parse_bot_intentions] takes its pair
    and its direction from the "trade executed" line itself: the line
    holds the pair, which contains a slash, then a blank, then the
    direction.  The lines around it give prices and sizes only. *)
Theorem executed_intention_reads_marker_line
    (now : datetime) (log : string) (i : BotTradeIntention) :
  In i (parse_bot_intentions now log) -> executed i = true ->
  exists line pre post,
    In line (split_lines log)
    /\ contains EXECUTED_MARKER line = true
    /\ line = (pre ++ pair i ++ " " ++ signal_type i ++ post)%string
    /\ contains "/" (pair i) = true.
Proof.
  unfold parse_bot_intentions. destruct log as [|c log]; [intros []|].
  intros Hin He.
  destruct (live_executed_from_marker now _ _ _ _ Hin He) as [[]|H].
  exact H.
Qed.

Lemma match_loop_unexecuted (ts : list OANDATransaction)
    (ins : list BotTradeIntention) :
  filter executed ins = [] ->
  forall acc, match_loop ts acc ins = Return acc.
Proof.
  induction ins as [|i ins IH]; intros H acc; simpl; [reflexivity|].
  simpl in H. destruct (executed i); [discriminate|]. simpl. now apply IH.
Qed.

Lemma filter_none {A : Type} (f : A -> bool) (l : list A) :
  (forall x, In x l -> f x = false) -> filter f l = [].
Proof.
  induction l as [|x l IH]; intros H; simpl; [reflexivity|].
  rewrite (H x (or_introl eq_refl)). apply IH. intros y Hy. apply H.
  now right.
Qed.

Lemma filter_all {A : Type} (f : A -> bool) (l : list A) :
  filter f l = [] -> filter (fun x => negb (f x)) l = l.
Proof.
  induction l as [|x l IH]; simpl; [reflexivity|].
  destruct (f x); [discriminate|]. intros H. simpl. now rewrite IH.
Qed.

(** X16: in a log whose "trade executed" lines hold no slash, as in the
    bot's format where the pair stands on the next line, no intention is
    executed: [match_trades] pairs nothing with any ledger, and the metrics
    report no matched trade, an execution accuracy of 0, every signal
    missed and every transaction unexpected. *)
Theorem marker_lines_without_pair_match_nothing
    (now : datetime) (log : string) (ts : list OANDATransaction) :
  forallb (fun line => negb (contains EXECUTED_MARKER line)
                       || negb (contains "/" line))
    (split_lines log) = true ->
  filter executed (parse_bot_intentions now log) = []
  /\ match_trades (parse_bot_intentions now log) ts = Return []
  /\ exists m,
       calculate_performance_metrics (parse_bot_intentions now log) ts []
       = Return m
       /\ matched_trades m = 0%nat
       /\ execution_accuracy m = 0
       /\ missed_opportunities m = total_bot_signals m
       /\ unexpected_trades m = Z.of_nat (List.length ts).
Proof.
  intros H.
  assert (F : filter executed (parse_bot_intentions now log) = []).
  { apply filter_none. intros i Hin.
    destruct (executed i) eqn:He; [exfalso|reflexivity].
    unfold parse_bot_intentions in Hin.
    destruct log as [|c log]; [destruct Hin|].
    destruct (live_executed_from_marker now _ _ _ _ Hin He)
      as [[]|(line & pre & post & Hl & M & E & C)].
    rewrite forallb_forall in H. specialize (H line Hl).
    rewrite M in H. simpl in H. apply negb_true_iff in H.
    assert (X : contains "/" line = true).
    { rewrite E. apply contains_skip. now apply contains_keep. }
    congruence. }
  split; [assumption|]. split.
  - unfold match_trades. now apply match_loop_unexecuted.
  - unfold calculate_performance_metrics. cbn [execution_delays bind].
    eexists. split; [reflexivity|]. cbn.
    rewrite F. split; [reflexivity|]. split; [reflexivity|].
    split; [now rewrite (filter_all _ _ F)|]. lia.
Qed.

End LiveExtractor.

Lemma executed_intention_reads_marker_line_witness :
  exists line pre post,
    In line (PyStr.split_lines Examples.log_executed_72)
    /\ PyStr.contains EXECUTED_MARKER line = true
    /\ line = (pre ++ "EUR/USD" ++ " " ++ "BUY" ++ post)%string
    /\ PyStr.contains "/" "EUR/USD" = true.
Proof.
  exact (executed_intention_reads_marker_line Examples.now0
           Examples.log_executed_72
           (hd Examples.i1
              (Live.parse_bot_intentions Examples.now0
                 Examples.log_executed_72))
           (or_introl eq_refl) eq_refl).
Defined.

Lemma marker_lines_without_pair_match_nothing_witness :
  Live.match_trades
    (Live.parse_bot_intentions Examples.now0
       Analyzer._generate_sample_bot_logs)
    [Examples.t_ok]
  = Return [].
Proof.
  refine (proj1 (proj2 (marker_lines_without_pair_match_nothing
                          Examples.now0 Analyzer._generate_sample_bot_logs
                          [Examples.t_ok] _))).
  vm_compute. reflexivity.
Defined.

(** ** The comprehensive analyzer: overall statistics *)

Section OverallStatistics.

Import Comprehensive.
Local Open Scope list_scope.






Lemma Qmean_sign (xs : list Q) :
  xs <> [] ->
  ((forall x, In x xs -> 0 <= x) -> 0 <= Qmean xs)
  /\ ((forall x, In x xs -> x <= 0) -> Qmean xs <= 0).
Proof.
  intros H.
  assert (P : 0 < inject_Z (Z.of_nat (List.length xs))).
  { destruct xs; [congruence|]. unfold Qlt. simpl. lia. }
  unfold Qmean. split; intros K.
  - apply Qle_shift_div_l; [assumption|]. rewrite Qmult_0_l.
    now apply Qsum_nonneg.
  - apply Qle_shift_div_r; [assumption|]. rewrite Qmult_0_l.
    unfold Qsum. now apply fold_Qplus_le.
Qed.


End OverallStatistics.


(** ** The comprehensive analyzer: bot positions against the ledger *)

Section BotAgainstLedger.

Import PyStr Railway.
Local Open Scope list_scope.
Local Open Scope string_scope.

Lemma member_In (x : string) (l : list string) :
  member x l = true <-> In x l.
Proof.
  unfold member. rewrite existsb_exists. split.
  - intros (y & Hy & E). apply String.eqb_eq in E. now subst.
  - intros H. exists x. split; [assumption|apply String.eqb_refl].
Qed.

Lemma filter_split {A : Type} (f : A -> bool) (l : list A) :
  (List.length (filter f l)
   + List.length (filter (fun x => negb (f x)) l))%nat = List.length l.
Proof.
  induction l as [|x l IH]; simpl; [reflexivity|].
  destruct (f x); simpl; lia.
Qed.

Lemma NoDup_filter' {A : Type} (f : A -> bool) (l : list A) :
  NoDup l -> NoDup (filter f l).
Proof.
  induction 1 as [|x l Hx _ IH]; simpl; [constructor|].
  destruct (f x); [|assumption]. constructor; [|assumption].
  intros H. apply filter_In in H. now apply Hx.
Qed.

(** The two ways to write the intersection of two sets have one size. *)
Lemma intersection_size (a b : list string) :
  NoDup a -> NoDup b ->
  List.length (filter (fun x => member x b) a)
  = List.length (filter (fun x => member x a) b).
Proof.
  intros Ha Hb. apply Nat.le_antisymm; apply NoDup_incl_length;
    try (now apply NoDup_filter').
  - intros x Hx. apply filter_In in Hx. destruct Hx as [H1 H2].
    apply member_In in H2. apply filter_In. split; [assumption|].
    now apply member_In.
  - intros x Hx. apply filter_In in Hx. destruct Hx as [H1 H2].
    apply member_In in H2. apply filter_In. split; [assumption|].
    now apply member_In.
Qed.

(** X18: in the comparison every bot trade id is either matched or
    bot-only and every ledger ticket either matched or ledger-only, ids and
    tickets being counted once each; the sync percentage lies between 0 and
    100 and is 100 when no detected id is bot-only; and the matched rows
    are analysed exactly when an id matched, at least one row per id. *)
Theorem comparison_counts_add_up (a : analyzer) (c : comparison) :
  compare_bot_vs_oanda a = Some c ->
  (matched_trades c + bot_only_trades c = bot_detected_trades c)%nat
  /\ (matched_trades c + oanda_only_trades c = oanda_total_trades c)%nat
  /\ (0 < oanda_total_trades c)%nat
  /\ 0 <= sync_percentage c <= 100
  /\ ((0 < bot_detected_trades c)%nat -> bot_only_trades c = 0%nat ->
      sync_percentage c == 100)
  /\ (matched_analysis c = None <-> matched_trades c = 0%nat)
  /\ (forall m, matched_analysis c = Some m ->
      (matched_trades c <= m_count m)%nat).
Proof.
  unfold compare_bot_vs_oanda.
  destruct (oanda_transactions a) as [|r0 df0] eqn:D; [discriminate|].
  rewrite <- D. clear r0 df0 D' || idtac.
  set (bot := to_set (map cp_trade_id (bot_closed_positions a))).
  set (oanda := to_set (map TICKET (oanda_transactions a))).
  set (matched := filter (fun x => member x oanda) bot).
  intros [= <-].
  cbn [matched_trades bot_only_trades oanda_only_trades bot_detected_trades
         oanda_total_trades sync_percentage matched_analysis].
  assert (Nb : NoDup bot) by apply NoDup_nodup.
  assert (No : NoDup oanda) by apply NoDup_nodup.
  assert (Hm : (List.length matched <= List.length bot)%nat)
    by apply filter_length_le.
  split; [apply filter_split|]. split.
  { unfold matched. rewrite (intersection_size bot oanda Nb No).
    apply filter_split. }
  split.
  { unfold oanda, to_set. rewrite D.
    assert (X : In (TICKET r0) (nodup string_dec (map TICKET (r0 :: df0)))).
    { apply nodup_In. now left. }
    destruct (nodup string_dec (map TICKET (r0 :: df0))); [destruct X|].
    simpl. lia. }
  split.
  { destruct bot as [|b0 bot0] eqn:B; [split; [apply Qle_refl|discriminate]|].
    rewrite <- B in *.
    assert (P : (0 < List.length bot)%nat) by (rewrite B; simpl; lia).
    destruct (ratio_bounds (List.length matched) (List.length bot) Hm P)
      as [B1 B2]. unfold Metrics.ratio in *. split.
    - apply Qmult_le_0_compat; [assumption|discriminate].
    - setoid_replace 100 with (1 * 100) at 2 by ring.
      apply Qmult_le_compat_r; [assumption|discriminate]. }
  split.
  { intros P Z. pose proof (filter_split (fun x => member x oanda) bot) as S.
    cbv beta in S. fold matched in S. rewrite Z, Nat.add_0_r in S.
    rewrite S.
    destruct bot as [|b0 bot0] eqn:B; [simpl in P; lia|]. rewrite <- B in *.
    setoid_replace (inject_Z (Z.of_nat (List.length bot))
                    / inject_Z (Z.of_nat (List.length bot))) with 1;
      [ring|].
    apply Qmult_inv_r. unfold Qeq. simpl. lia. }
  split.
  { destruct matched; simpl; split; congruence || discriminate. }
  intros m. destruct matched as [|x0 m0] eqn:M; [discriminate|].
  rewrite <- M in *. intros [= <-]. cbn [m_count].
  rewrite <- (length_map TICKET).
  apply NoDup_incl_length; [unfold matched; now apply NoDup_filter'|].
  intros x Hx. apply in_map_iff.
  assert (Hx' := Hx). unfold matched in Hx'. apply filter_In in Hx'.
  destruct Hx' as [_ Ho]. apply member_In in Ho.
  unfold oanda, to_set in Ho. apply nodup_In in Ho.
  apply in_map_iff in Ho. destruct Ho as (r & <- & Hr).
  exists r. split; [reflexivity|]. apply filter_In. split; [assumption|].
  now apply member_In.
Qed.

(** X19: when [railway logs] gives no output, [fetch_railway_logs] returns
    the sample text but leaves [railway_logs] as it was, so the report's
    comparison runs on no bot position at all: no detected trade, no match,
    a sync percentage of 0, every ticket ledger-only.  Parsing the returned
    sample text would give nine positions. *)
Theorem sample_logs_are_returned_not_parsed (df : list fill) (a : analyzer) :
  fst (fetch_railway_logs None a) = _get_sample_logs
  /\ railway_logs (snd (fetch_railway_logs None a)) = railway_logs a
  /\ (forall c, comparison_of_report df None = Some c ->
      bot_detected_trades c = 0%nat
      /\ matched_trades c = 0%nat
      /\ sync_percentage c = 0
      /\ matched_analysis c = None
      /\ oanda_only_trades c = oanda_total_trades c)
  /\ List.length
       (fst (parse_railway_logs (mkAnalyzer df _get_sample_logs []))) = 9%nat.
Proof.
  split; [reflexivity|]. split; [reflexivity|]. split; [|reflexivity].
  unfold comparison_of_report, compare_bot_vs_oanda. cbn.
  destruct df as [|r df]; [discriminate|]. intros c [= <-]. cbn.
  repeat split.
  set (l := if in_dec string_dec (TICKET r) (map TICKET df)
            then nodup string_dec (map TICKET df)
            else TICKET r :: nodup string_dec (map TICKET df)).
  clearbody l. f_equal. induction l as [|x l IH]; simpl; [reflexivity|].
  now rewrite IH.
Qed.

(** *** Reading the closed-position lines *)

Lemma span_all_in (f : ascii -> bool) (s run rest : string) :
  span f s = (run, rest) -> all_in f run = true.
Proof.
  revert run rest. induction s as [|c s IH]; intros run rest; simpl.
  - now intros [= <- <-].
  - destruct (f c) eqn:F.
    + destruct (span f s) as [r t]. intros [= <- <-]. simpl.
      rewrite F. now apply (IH r t).
    + now intros [= <- <-].
Qed.

Lemma span_class (f : ascii -> bool) (w : string) (c : ascii) (r : string) :
  all_in f w = true -> f c = false ->
  span f (w ++ String c r) = (w, String c r).
Proof.
  intros Hw Hc. induction w as [|a w IH]; simpl.
  - now rewrite Hc.
  - simpl in Hw. apply andb_true_iff in Hw. destruct Hw as [Ha Hw].
    now rewrite Ha, (IH Hw).
Qed.

Lemma class_word (f : ascii -> bool) (w : string) :
  negb (String.eqb w "") && all_in f w = true ->
  all_in f w = true /\ exists c w', w = String c w'.
Proof.
  intros H. apply andb_true_iff in H. destruct H as [H1 H2].
  split; [assumption|]. destruct w as [|c w']; [discriminate|].
  now exists c, w'.
Qed.

(** A match of the closed-position pattern at the start of [s]. *)
Lemma closed_position_here (s : string) (g : list string) :
  Re.match_here closed_position_re s = Some g ->
  exists post,
    s = "🔍 Detected closed position: " ++ Re.part 1 g ++ "/" ++ Re.part 3 g
        ++ " (Trade ID: " ++ Re.part 5 g ++ ")" ++ post
    /\ Re.part 2 g = "/"
    /\ word (Re.part 1 g) = true /\ word (Re.part 3 g) = true
    /\ digits (Re.part 5 g) = true.
Proof.
  unfold closed_position_re. cbn [Re.match_here].
  destruct (starts_with "🔍 Detected closed position: " s) eqn:L0;
    [|discriminate].
  destruct (span is_word (drop _ s)) as [r1 t1] eqn:S1.
  destruct r1 as [|c1 r1]; [discriminate|].
  destruct (starts_with "/" t1) eqn:L1; [|discriminate].
  destruct (span is_word (drop _ t1)) as [r2 t2] eqn:S2.
  destruct r2 as [|c2 r2]; [discriminate|].
  destruct (starts_with " (Trade ID: " t2) eqn:L2; [|discriminate].
  destruct (span is_digit (drop _ t2)) as [r3 t3] eqn:S3.
  destruct r3 as [|c3 r3]; [discriminate|].
  destruct (starts_with ")" t3) eqn:L3; [|discriminate].
  cbn [option_map Re.match_here]. intros [= <-]. cbn [Re.part nth].
  pose proof (span_all_in _ _ _ _ S1) as A1.
  pose proof (span_all_in _ _ _ _ S2) as A2.
  pose proof (span_all_in _ _ _ _ S3) as A3.
  apply span_app in S1. destruct S1 as [E1 _].
  apply span_app in S2. destruct S2 as [E2 _].
  apply span_app in S3. destruct S3 as [E3 _].
  apply starts_with_app in L0, L1, L2, L3.
  exists (drop (String.length ")") t3). split.
  - rewrite L0 at 1. f_equal. rewrite E1, L1, E2, L2, E3, L3 at 1.
    reflexivity.
  - split; [reflexivity|]. unfold word, digits. now rewrite A1, A2, A3.
Qed.

Lemma closed_position_found (s : string) (g : list string) :
  Re.search closed_position_re s = Some g ->
  exists pre post,
    s = pre ++ "🔍 Detected closed position: " ++ Re.part 1 g ++ "/"
        ++ Re.part 3 g ++ " (Trade ID: " ++ Re.part 5 g ++ ")" ++ post
    /\ Re.part 2 g = "/"
    /\ word (Re.part 1 g) = true /\ word (Re.part 3 g) = true
    /\ digits (Re.part 5 g) = true.
Proof.
  induction s as [|c s IH].
  - simpl. discriminate.
  - cbn [Re.search].
    destruct (Re.match_here closed_position_re (String c s)) as [g'|] eqn:M.
    + intros [= <-]. destruct (closed_position_here _ _ M) as (post & E & R).
      exists "", post. now split.
    + intros H. destruct (IH H) as (pre & post & E & R).
      exists (String c pre), post. split; [|assumption].
      exact (f_equal (String c) E).
Qed.

(** X20: a record of [parse_railway_logs] comes from a line that holds
    the closed-position text with a pair of two words around a slash and
    a trade id of digits; the record carries that pair and that id. *)
Theorem closed_position_comes_from_its_line
    (line : string) (p : closed_position) :
  In p (parse_line line) ->
  exists pre w1 w2 post,
    line = pre ++ "🔍 Detected closed position: " ++ w1 ++ "/" ++ w2
           ++ " (Trade ID: " ++ cp_trade_id p ++ ")" ++ post
    /\ cp_pair p = w1 ++ "/" ++ w2
    /\ word w1 = true /\ word w2 = true
    /\ digits (cp_trade_id p) = true
    /\ cp_source p = "railway_bot".
Proof.
  unfold parse_line. destruct (contains POSITION_MARKER line); [|intros []].
  destruct (Re.search closed_position_re line) as [g|] eqn:S; [|intros []].
  intros [<-|[]]. cbn [cp_pair cp_trade_id cp_source].
  destruct (closed_position_found _ _ S) as (pre & post & E & P2 & W1 & W3 & D).
  exists pre, (Re.part 1 g), (Re.part 3 g), post. rewrite P2.
  now repeat split.
Qed.

Lemma marker_not_early (c : ascii) (p rest : string) :
  starts_with "🔍" (String c p) = false ->
  starts_with "🔍 Detected closed position: "
    (String c (p ++ "🔍 Detected closed position: " ++ rest)) = false.
Proof.
  intros H.
  destruct p as [|c1 [|c2 [|c3 p']]]; cbn [append starts_with] in *.
  - destruct (Ascii.eqb _ c); reflexivity.
  - destruct (Ascii.eqb _ c), (Ascii.eqb _ c1); reflexivity.
  - destruct (Ascii.eqb _ c), (Ascii.eqb _ c1), (Ascii.eqb _ c2);
      reflexivity.
  - rewrite andb_true_r in H.
    destruct (Ascii.eqb _ c); [|reflexivity].
    destruct (Ascii.eqb _ c1); [|reflexivity].
    destruct (Ascii.eqb _ c2); [|reflexivity].
    destruct (Ascii.eqb _ c3); [discriminate|reflexivity].
Qed.

Lemma search_after_prefix (prefix rest : string) :
  contains "🔍" prefix = false ->
  Re.search closed_position_re
    (prefix ++ "🔍 Detected closed position: " ++ rest)
  = Re.search closed_position_re ("🔍 Detected closed position: " ++ rest).
Proof.
  induction prefix as [|c p IH]; intros H; [reflexivity|].
  cbn [contains] in H. apply orb_false_iff in H. destruct H as [H1 H2].
  change (String c p ++ "🔍 Detected closed position: " ++ rest)
    with (String c (p ++ "🔍 Detected closed position: " ++ rest)).
  cbn [Re.search]. unfold closed_position_re at 1. cbn [Re.match_here].
  rewrite (marker_not_early c p rest H1). now apply IH.
Qed.

Lemma starts_with_append (l r : string) : starts_with l (l ++ r) = true.
Proof.
  induction l as [|c l IH]; simpl; [reflexivity|].
  now rewrite Ascii.eqb_refl, IH.
Qed.

Lemma drop_append (l r : string) : drop (String.length l) (l ++ r) = r.
Proof. induction l as [|c l IH]; simpl; [reflexivity|assumption]. Qed.

Lemma match_lit (l r : string) (p : Re.pattern) :
  Re.match_here (Re.Lit l :: p) (l ++ r)
  = option_map (cons l) (Re.match_here p r).
Proof.
  cbn [Re.match_here]. now rewrite starts_with_append, drop_append.
Qed.

Lemma match_plus (f : ascii -> bool) (w : string) (c : ascii) (r : string)
    (p : Re.pattern) :
  negb (String.eqb w "") && all_in f w = true -> f c = false ->
  Re.match_here (Re.Plus f :: p) (w ++ String c r)
  = option_map (cons w) (Re.match_here p (String c r)).
Proof.
  intros Hw Hc. destruct (class_word _ _ Hw) as (A & a & w' & ->).
  cbn [Re.match_here]. now rewrite (span_class f _ c r A Hc).
Qed.

(** X21: a line the bot writes for a closed position is read back: after
    any prefix without the magnifying glass, the closed-position text
    with a pair of two words and a trade id of digits yields exactly one
    record, with that pair and that id. *)
Theorem closed_position_line_is_read_back
    (prefix w1 w2 trade_id : string) :
  contains "🔍" prefix = false ->
  word w1 = true -> word w2 = true -> digits trade_id = true ->
  parse_line (position_line prefix w1 w2 trade_id)
  = [mkClosed (w1 ++ "/" ++ w2) trade_id "railway_bot"].
Proof.
  intros Hp H1 H2 H3.
  unfold parse_line, position_line.
  assert (C : contains POSITION_MARKER
                (prefix ++ "🔍 Detected closed position: " ++ w1 ++ "/"
                 ++ w2 ++ " (Trade ID: " ++ trade_id ++ ")") = true).
  { apply contains_skip. reflexivity. }
  rewrite C, search_after_prefix by assumption.
  assert (M : Re.match_here closed_position_re
                ("🔍 Detected closed position: " ++ w1 ++ "/" ++ w2
                 ++ " (Trade ID: " ++ trade_id ++ ")")
              = Some ["🔍 Detected closed position: "; w1; "/"; w2;
                      " (Trade ID: "; trade_id; ")"]).
  { unfold closed_position_re.
    rewrite match_lit.
    change (w1 ++ "/" ++ w2 ++ " (Trade ID: " ++ trade_id ++ ")")
      with (w1 ++ String "/" (w2 ++ " (Trade ID: " ++ trade_id ++ ")")).
    rewrite (match_plus is_word w1 "/" _ _ H1 eq_refl).
    change (String "/" (w2 ++ " (Trade ID: " ++ trade_id ++ ")"))
      with ("/" ++ w2 ++ " (Trade ID: " ++ trade_id ++ ")").
    rewrite match_lit.
    change (w2 ++ " (Trade ID: " ++ trade_id ++ ")")
      with (w2 ++ String " " ("(Trade ID: " ++ trade_id ++ ")")).
    rewrite (match_plus is_word w2 " " _ _ H2 eq_refl).
    change (String " " ("(Trade ID: " ++ trade_id ++ ")"))
      with (" (Trade ID: " ++ trade_id ++ ")").
    rewrite match_lit.
    change (trade_id ++ ")") with (trade_id ++ String ")" "").
    rewrite (match_plus is_digit trade_id ")" _ _ H3 eq_refl).
    reflexivity. }
  assert (S : Re.search closed_position_re
                ("🔍 Detected closed position: " ++ w1 ++ "/" ++ w2
                 ++ " (Trade ID: " ++ trade_id ++ ")")
              = Some ["🔍 Detected closed position: "; w1; "/"; w2;
                      " (Trade ID: "; trade_id; ")"]).
  { revert M.
    generalize (w1 ++ "/" ++ w2 ++ " (Trade ID: " ++ trade_id ++ ")").
    intros rest M.
    change ("🔍 Detected closed position: " ++ rest)
      with (String "240" ("" ++ String "159" (String "148" (String "141"
              (" Detected closed position: " ++ rest))))) in *.
    cbn [Re.search]. now rewrite M. }
  rewrite S. reflexivity.
Qed.

End BotAgainstLedger.

Lemma comparison_counts_add_up_witness :
  exists c,
    Railway.compare_bot_vs_oanda Samples.compared = Some c
    /\ (Railway.matched_trades c + Railway.bot_only_trades c
        = Railway.bot_detected_trades c)%nat.
Proof.
  eexists. split; [reflexivity|].
  exact (proj1 (comparison_counts_add_up Samples.compared _ eq_refl)).
Defined.

Lemma closed_position_comes_from_its_line_witness :
  exists pre w1 w2 post,
    "INFO:__main__:🔍 Detected closed position: USD/CAD (Trade ID: 2904)"%string
    = (pre ++ "🔍 Detected closed position: " ++ w1 ++ "/" ++ w2
       ++ " (Trade ID: " ++ "2904" ++ ")" ++ post)%string
    /\ "USD/CAD"%string = (w1 ++ "/" ++ w2)%string.
Proof.
  destruct (closed_position_comes_from_its_line
              "INFO:__main__:🔍 Detected closed position: USD/CAD (Trade ID: 2904)"
              (Railway.mkClosed "USD/CAD" "2904" "railway_bot")
              (or_introl eq_refl))
    as (pre & w1 & w2 & post & E & P & _).
  exists pre, w1, w2, post. split; [exact E|exact P].
Defined.

Lemma closed_position_line_is_read_back_witness :
  Railway.parse_line
    (Railway.position_line "INFO:__main__:" "USD" "CAD" "2904")
  = [Railway.mkClosed "USD/CAD" "2904" "railway_bot"].
Proof.
  exact (closed_position_line_is_read_back "INFO:__main__:" "USD" "CAD"
           "2904" eq_refl eq_refl eq_refl eq_refl).
Defined.

(** ** The confidence bins *)

Section BinProperties.

Import ConfidenceWinRate Bins.
Local Open Scope string_scope.
Local Open Scope list_scope.

Lemma Qltb_false (a b : Q) : Qltb a b = false <-> b <= a.
Proof.
  unfold Qltb. rewrite negb_false_iff. apply Qle_bool_iff.
Qed.

Lemma Qle_bool_false (a b : Q) : Qle_bool a b = false -> b < a.
Proof.
  intros H. apply Qnot_le_lt. intros L. apply Qle_bool_iff in L. congruence.
Qed.

Lemma last_cons {A : Type} (a d : A) (l : list A) :
  last (a :: l) d = last l a.
Proof.
  revert a d. induction l as [|b l IH]; intros a d; [reflexivity|].
  change (last (a :: b :: l) d) with (last (b :: l) d).
  now rewrite (IH b d), (IH b a).
Qed.

Lemma last_in {A : Type} (a : A) (l : list A) : In (last l a) (a :: l).
Proof.
  revert a. induction l as [|b l IH]; intros a; [now left|].
  rewrite last_cons. right. apply IH.
Qed.

Lemma list_sum_cons (x : nat) (l : list nat) :
  list_sum (x :: l) = (x + list_sum l)%nat.
Proof. reflexivity. Qed.

(** A value lies in at most one of the intervals between rising edges,
    and in one exactly when it lies between the first and the last. *)
Lemma one_interval (c : Q) (edges : list Q) :
  forall e0,
    StronglySorted Qle (e0 :: edges) ->
    list_sum (map (fun e : Q * Q =>
                     if Qltb (fst e) c && Qle_bool c (snd e)
                     then 1%nat else 0%nat)
                (intervals (e0 :: edges)))
    = if Qltb e0 c && Qle_bool c (last edges e0) then 1%nat else 0%nat.
Proof.
  induction edges as [|e1 es IH]; intros e0 H.
  - simpl. destruct (Qltb e0 c) eqn:A; [|reflexivity].
    apply Qltb_lt in A. destruct (Qle_bool c e0) eqn:B; [|reflexivity].
    apply Qle_bool_iff in B. exfalso. apply (Qlt_irrefl e0).
    now apply Qlt_le_trans with c.
  - inversion H as [|? ? H1 H0]; subst.
    change (intervals (e0 :: e1 :: es))
      with ((e0, e1) :: intervals (e1 :: es)).
    rewrite map_cons, list_sum_cons, (IH e1 H1), last_cons.
    cbn [fst snd].
    assert (L : e1 <= last es e1).
    { destruct (last_in e1 es) as [<-|Hin]; [apply Qle_refl|].
      inversion H1 as [|? ? _ F]; subst. rewrite Forall_forall in F.
      now apply F. }
    assert (E : e0 <= e1).
    { rewrite Forall_forall in H0. apply H0. now left. }
    destruct (Qltb e0 c) eqn:A, (Qle_bool c e1) eqn:B,
      (Qltb e1 c) eqn:C, (Qle_bool c (last es e1)) eqn:D;
      cbn [andb Nat.add]; try reflexivity; exfalso;
      repeat match goal with
             | H : Qltb _ _ = true |- _ => apply Qltb_lt in H
             | H : Qltb _ _ = false |- _ => apply Qltb_false in H
             | H : Qle_bool _ _ = true |- _ => apply Qle_bool_iff in H
             | H : Qle_bool _ _ = false |- _ => apply Qle_bool_false in H
             end; lra.
Qed.

Lemma edges_rise : StronglySorted Qle confidence_bins.
Proof.
  unfold confidence_bins.
  repeat (constructor; [|repeat (constructor; [discriminate|]); constructor]).
  constructor.
Qed.

Lemma one_category (r : row) :
  list_sum (map (fun cat : string * (Q * Q) =>
                   if in_bin (snd cat) r then 1%nat else 0%nat) categories)
  = if binned r then 1%nat else 0%nat.
Proof.
  pose proof (one_interval (SIMULATED_CONFIDENCE r)
                (tl confidence_bins) 0.5 edges_rise) as H.
  rewrite <- (map_map snd
                (fun e : Q * Q =>
                   if in_bin e r then 1%nat else 0%nat) categories).
  exact H.
Qed.

(** Counting by categories and then by rows, or the other way round. *)
Lemma count_by_category (cats : list (string * (Q * Q))) (df : list row) :
  list_sum (map (fun cat => List.length (filter (in_bin (snd cat)) df)) cats)
  = list_sum (map (fun r =>
                     list_sum (map (fun cat : string * (Q * Q) =>
                                      if in_bin (snd cat) r
                                      then 1%nat else 0%nat) cats)) df).
Proof.
  induction df as [|r df IH]; simpl.
  - induction cats as [|c cats IHc]; simpl; [reflexivity|assumption].
  - rewrite <- IH. clear IH.
    induction cats as [|c cats IHc]; simpl; [reflexivity|].
    rewrite IHc. destruct (in_bin (snd c) r); simpl; lia.
Qed.

Lemma filter_count {A : Type} (f : A -> bool) (l : list A) :
  list_sum (map (fun x => if f x then 1%nat else 0%nat) l)
  = List.length (filter f l).
Proof.
  induction l as [|x l IH]; simpl; [reflexivity|].
  destruct (f x); simpl; now rewrite IH.
Qed.

Lemma bin_analysis_totals (cats : list (string * (Q * Q))) (df : list row) :
  list_sum
    (map bin_total_trades
       (flat_map (fun category =>
                    match filter (in_bin (snd category)) df with
                    | [] => []
                    | bin_data => [bin_entry (fst category) bin_data]
                    end) cats))
  = list_sum (map (fun cat => List.length (filter (in_bin (snd cat)) df))
                cats).
Proof.
  induction cats as [|c cats IH]; simpl; [reflexivity|].
  rewrite map_app, list_sum_app, IH.
  destruct (filter (in_bin (snd c)) df); simpl; lia.
Qed.


Lemma bin_analysis_In (df : list row) (b : bin_record) :
  In b (bin_analysis df) <->
  exists label edges,
    In (label, edges) categories
    /\ filter (in_bin edges) df <> []
    /\ b = bin_entry label (filter (in_bin edges) df).
Proof.
  unfold bin_analysis. rewrite in_flat_map. split.
  - intros ([label edges] & Hc & Hb). cbn [fst snd] in Hb.
    exists label, edges. split; [assumption|].
    destruct (filter (in_bin edges) df) as [|r l] eqn:F; [destruct Hb|].
    destruct Hb as [<-|[]]. split; [discriminate|reflexivity].
  - intros (label & edges & Hc & Hn & ->). exists (label, edges).
    split; [assumption|]. cbn [fst snd].
    destruct (filter (in_bin edges) df); [congruence|now left].
Qed.



Lemma some_fail {A : Type} (f : A -> bool) (l : list A) :
  (0 <? List.length l - List.length (filter f l))%nat = true
  <-> exists x, In x l /\ f x = false.
Proof.
  rewrite Nat.ltb_lt. induction l as [|x l IH].
  - simpl. split; [lia|]. now intros (x & [] & _).
  - pose proof (filter_length_le f l) as B. cbn [filter List.length].
    destruct (f x) eqn:F; cbn [List.length].
    + split.
      * intros H. destruct (proj1 IH) as (y & Hy & Fy); [lia|].
        exists y. split; [now right|assumption].
      * intros (y & [<-|Hy] & Fy); [congruence|].
        assert (X : (0 < List.length l - List.length (filter f l))%nat).
        { apply IH. now exists y. }
        lia.
    + split; [|lia]. intros _. exists x. split; [now left|assumption].
Qed.

Lemma filter_nil_iff {A : Type} (f : A -> bool) (l : list A) :
  filter f l = [] <-> forall x, In x l -> f x = false.
Proof.
  split; [|apply filter_none].
  intros H x Hx. destruct (f x) eqn:F; [|reflexivity].
  assert (X : In x (filter f l)) by (apply filter_In; now split).
  rewrite H in X. destruct X.
Qed.

(** X23: a bin that holds a trade which did not win, but no trade that
    lost, takes its average loser from an empty selection: the average
    loser is [nan], and so is the profit factor of the bin.  That is the
    only way either is [nan].  A bin of winners only has the average loser
    0 and the profit factor 0, and an average loser that is a number is
    never positive. *)
Theorem bin_without_a_loser_has_no_average_loser
    (label : string) (bin_data : list row) :
  (avg_loser (bin_entry label bin_data) = NotANumber <->
   (exists r, In r bin_data /\ winner r = false)
   /\ forall r, In r bin_data -> loser r = false)
  /\ (profit_factor (bin_entry label bin_data) = NotANumber <->
      avg_loser (bin_entry label bin_data) = NotANumber)
  /\ ((forall r, In r bin_data -> winner r = true) ->
      avg_loser (bin_entry label bin_data) = Number 0
      /\ profit_factor (bin_entry label bin_data) = Number 0)
  /\ (forall l, avg_loser (bin_entry label bin_data) = Number l -> l <= 0).
Proof.
  cbn [bin_entry avg_loser profit_factor].
  pose proof (some_fail winner bin_data) as SF.
  pose proof (filter_nil_iff loser bin_data) as FN.
  destruct (0 <? List.length bin_data - List.length (filter winner bin_data))%nat
    eqn:T.
  - destruct (filter loser bin_data) as [|x xs] eqn:L.
    + cbn [map column_mean]. split; [|split; [|split]].
      * split; [intros _|reflexivity]. split; [now apply SF|now apply FN].
      * tauto.
      * intros W. destruct (proj1 SF eq_refl) as (r & Hr & Fr).
        rewrite (W r Hr) in Fr. discriminate.
      * discriminate.
    + assert (CM : column_mean (map PL_NUMERIC (x :: xs))
                   = Number (Qmean (map PL_NUMERIC (x :: xs))))
        by reflexivity.
      rewrite CM, <- L. clear CM.
      assert (N : map PL_NUMERIC (filter loser bin_data) <> []).
      { rewrite L. discriminate. }
      assert (Neg : Qmean (map PL_NUMERIC (filter loser bin_data)) <= 0).
      { apply Qmean_sign; [assumption|]. intros y Hy.
        apply in_map_iff in Hy. destruct Hy as (q & <- & Hq).
        apply filter_In in Hq. destruct Hq as [_ Hq].
        apply Qlt_le_weak. now apply Qltb_lt. }
      split; [|split; [|split]].
      * split; [discriminate|]. intros [_ K].
        apply FN in K. rewrite K in L. discriminate.
      * split; [|discriminate].
        destruct (negb (Qeq_bool _ 0)); discriminate.
      * intros W. destruct (proj1 SF eq_refl) as (r & Hr & Fr).
        rewrite (W r Hr) in Fr. discriminate.
      * now intros l [= <-].
  - split; [|split; [|split]].
    + split; [discriminate|]. intros [E _]. apply SF in E. discriminate.
    + split; discriminate.
    + intros _. split; reflexivity.
    + intros l [= <-]. apply Qle_refl.
Qed.

Lemma bins_rows (df : list row) :
  list_sum (map bin_total_trades (bin_analysis df))
  = List.length (filter binned df)
  /\ forall b, In b (bin_analysis df) -> (0 < bin_total_trades b)%nat.
Proof.
  split.
  - unfold bin_analysis. rewrite bin_analysis_totals, count_by_category.
    rewrite <- filter_count. f_equal. apply map_ext. apply one_category.
  - intros b Hb. apply bin_analysis_In in Hb.
    destruct Hb as (label & edges & _ & Hn & ->).
    cbn [bin_total_trades bin_entry].
    destruct (filter (in_bin edges) df); [congruence|simpl; lia].
Qed.

Lemma clamp_bounds (x : Q) : 0.45 <= clamp x <= 0.95.
Proof.
  unfold clamp. destruct (Qltb x 0.95) eqn:A.
  - apply Qltb_lt in A. unfold Qgtb. destruct (Qle_bool x 0.45) eqn:B; simpl.
    + split; [apply Qle_refl|discriminate].
    + apply Qle_bool_false in B. split; lra.
  - split; discriminate.
Qed.

(** X24: [simulate_confidence_levels] raises [ValueError] on a frame
    without rows; otherwise it gives every row a confidence from 0.45 to
    0.95, whatever the random draw.  So the last bin, above 0.95, never
    appears in the bin analysis of simulated confidences, and a row
    clamped to 0.45 is counted in no bin. *)
Theorem simulated_confidences_miss_the_top_bin
    (frame : list trade_row) (df : list row) :
  simulate_confidence_levels frame = Return df ->
  frame <> []
  /\ List.length df = List.length frame
  /\ (forall r, In r df -> 0.45 <= SIMULATED_CONFIDENCE r <= 0.95)
  /\ (forall b, In b (bin_analysis df) -> confidence_range b <> "95%-100%")
  /\ (forall r, In r df -> SIMULATED_CONFIDENCE r == 0.45 ->
      binned r = false).
Proof.
  unfold simulate_confidence_levels.
  destruct frame as [|t rest]; [discriminate|].
  set (frame := t :: rest). intros E0.
  assert (D : df = map (fun r => mkRow (confidence_of r) (PL r)) frame).
  { injection E0 as <-. reflexivity. }
  clear E0. subst df.
  assert (C : forall r,
             In r (map (fun r => mkRow (confidence_of r) (PL r)) frame) ->
             0.45 <= SIMULATED_CONFIDENCE r <= 0.95).
  { intros r Hr. apply in_map_iff in Hr. destruct Hr as (q & <- & _).
    apply clamp_bounds. }
  split; [discriminate|]. split; [apply length_map|].
  split; [exact C|]. split.
  - intros b Hb. apply bin_analysis_In in Hb.
    destruct Hb as (label & edges & Hc & Hn & ->).
    cbn [confidence_range bin_entry].
    intros ->. unfold categories, confidence_bins in Hc. simpl in Hc.
    repeat (destruct Hc as [Hc|Hc]; [try discriminate Hc|]);
      try contradiction.
    injection Hc as <-.
    destruct (filter (in_bin (0.95, 1.0))
                (map (fun r => mkRow (confidence_of r) (PL r)) frame))
      as [|r l] eqn:E; [congruence|].
    assert (Hr : In r (filter (in_bin (0.95, 1.0))
                         (map (fun r => mkRow (confidence_of r) (PL r))
                            frame))).
    { rewrite E. now left. }
    apply filter_In in Hr. destruct Hr as [Hr1 Hr2].
    unfold in_bin in Hr2. cbn [fst snd] in Hr2.
    apply andb_true_iff in Hr2. destruct Hr2 as [Hr2 _].
    apply Qltb_lt in Hr2. destruct (C r Hr1) as [_ U]. lra.
  - intros r _ E. unfold binned.
    assert (X : Qltb 0.5 (SIMULATED_CONFIDENCE r) = false).
    { apply Qltb_false. rewrite E. discriminate. }
    now rewrite X.
Qed.

Lemma max_by_win_rate_spec (items : list bin_record) :
  forall best,
    In (max_by_win_rate best items) (best :: items)
    /\ forall b, In b (best :: items) ->
                 win_rate b <= win_rate (max_by_win_rate best items).
Proof.
  induction items as [|x items IH]; intros best; simpl.
  - split; [now left|]. intros b [<-|[]]. apply Qle_refl.
  - set (next := if Qgtb (win_rate x) (win_rate best) then x else best).
    destruct (IH next) as [I M].
    assert (K : win_rate best <= win_rate next
                /\ win_rate x <= win_rate next
                /\ (next = best \/ next = x)).
    { unfold next, Qgtb.
      destruct (Qle_bool (win_rate x) (win_rate best)) eqn:E; simpl.
      - apply Qle_bool_iff in E. split; [apply Qle_refl|].
        split; [assumption|now left].
      - apply Qle_bool_false in E. split; [now apply Qlt_le_weak|].
        split; [apply Qle_refl|now right]. }
    destruct K as (K1 & K2 & K3). split.
    + destruct I as [I|I]; [|now right; right].
      rewrite <- I. destruct K3 as [-> | ->]; [now left|right; now left].
    + intros b [<-|[<-|Hb]].
      * eapply Qle_trans; [exact K1|]. apply M. now left.
      * eapply Qle_trans; [exact K2|]. apply M. now left.
      * apply M. now right.
Qed.

Lemma min_by_win_rate_spec (items : list bin_record) :
  forall worst,
    In (min_by_win_rate worst items) (worst :: items)
    /\ forall b, In b (worst :: items) ->
                 win_rate (min_by_win_rate worst items) <= win_rate b.
Proof.
  induction items as [|x items IH]; intros worst; simpl.
  - split; [now left|]. intros b [<-|[]]. apply Qle_refl.
  - set (next := if Qltb (win_rate x) (win_rate worst) then x else worst).
    destruct (IH next) as [I M].
    assert (K : win_rate next <= win_rate worst
                /\ win_rate next <= win_rate x
                /\ (next = worst \/ next = x)).
    { unfold next, Qltb.
      destruct (Qle_bool (win_rate worst) (win_rate x)) eqn:E; simpl.
      - apply Qle_bool_iff in E. split; [apply Qle_refl|].
        split; [assumption|now left].
      - apply Qle_bool_false in E. split; [now apply Qlt_le_weak|].
        split; [apply Qle_refl|now right]. }
    destruct K as (K1 & K2 & K3). split.
    + destruct I as [I|I]; [|now right; right].
      rewrite <- I. destruct K3 as [-> | ->]; [now left|right; now left].
    + intros b [<-|[<-|Hb]].
      * eapply Qle_trans; [|exact K1]. apply M. now left.
      * eapply Qle_trans; [|exact K2]. apply M. now left.
      * apply M. now right.
Qed.

Lemma min_from_spec (xs : list Q) :
  forall m,
    In (min_from m xs) (m :: xs)
    /\ forall x, In x (m :: xs) -> min_from m xs <= x.
Proof.
  induction xs as [|y xs IH]; intros m; simpl.
  - split; [now left|]. intros x [<-|[]]. apply Qle_refl.
  - set (next := if Qltb y m then y else m).
    destruct (IH next) as [I M].
    assert (K : next <= m /\ next <= y /\ (next = m \/ next = y)).
    { unfold next, Qltb. destruct (Qle_bool m y) eqn:E; simpl.
      - apply Qle_bool_iff in E. split; [apply Qle_refl|].
        split; [assumption|now left].
      - apply Qle_bool_false in E. split; [now apply Qlt_le_weak|].
        split; [apply Qle_refl|now right]. }
    destruct K as (K1 & K2 & K3). split.
    + destruct I as [I|I]; [|now right; right].
      rewrite <- I. destruct K3 as [-> | ->]; [now left|right; now left].
    + intros x [<-|[<-|Hx]].
      * eapply Qle_trans; [|exact K1]. apply M. now left.
      * eapply Qle_trans; [|exact K2]. apply M. now left.
      * apply M. now right.
Qed.

(** X25: the key insights of [print_analysis_results] raise [ValueError]
    exactly when no row has a confidence above 0.5 and at most 1, the bin
    analysis being empty then.  Otherwise the best bin and the worst bin
    are bins of the analysis, no bin has a higher win rate than the best
    or a lower one than the worst, and the threshold, given exactly when
    some bin has a win rate above 0.15, is the lowest average confidence
    among those bins. *)
Theorem key_insights_need_a_binned_row (df : list row) :
  (key_insights (bin_analysis df) = Raise ValueError <->
   forall r, In r df -> binned r = false)
  /\ (forall e, key_insights (bin_analysis df) = Raise e -> e = ValueError)
  /\ forall i, key_insights (bin_analysis df) = Return i ->
       In (best_bin i) (bin_analysis df)
       /\ In (worst_bin i) (bin_analysis df)
       /\ (forall b, In b (bin_analysis df) ->
           win_rate (worst_bin i) <= win_rate b
           /\ win_rate b <= win_rate (best_bin i))
       /\ (min_good_confidence i = None <->
           forall b, In b (bin_analysis df) -> win_rate b <= 0.15)
       /\ (forall c, min_good_confidence i = Some c ->
           (exists b, In b (bin_analysis df) /\ 0.15 < win_rate b
                      /\ avg_confidence b = c)
           /\ forall b, In b (bin_analysis df) -> 0.15 < win_rate b ->
                        c <= avg_confidence b).
Proof.
  destruct (bins_rows df) as [Hsum Hpos].
  split; [|split].
  - rewrite <- filter_nil_iff. split.
    + intros H. destruct (bin_analysis df) as [|b l]; [|discriminate].
      simpl in Hsum. symmetry in Hsum. now apply length_zero_iff_nil.
    + intros H. rewrite H in Hsum. simpl in Hsum.
      destruct (bin_analysis df) as [|b l]; [reflexivity|exfalso].
      specialize (Hpos b (or_introl eq_refl)). simpl in Hsum. lia.
  - destruct (bin_analysis df); [now intros e [= <-]|discriminate].
  - intros i. unfold key_insights.
    destruct (bin_analysis df) as [|b0 rest] eqn:B; [discriminate|].
    set (good := filter (fun b => Qgtb (win_rate b) 0.15) (b0 :: rest)).
    assert (G : forall b, In b good <->
                          In b (b0 :: rest) /\ 0.15 < win_rate b).
    { intros b. unfold good. rewrite filter_In. split.
      - intros [H1 H2]. split; [assumption|]. now apply (Qltb_lt 0.15).
      - intros [H1 H2]. split; [assumption|].
        unfold Qgtb. destruct (Qle_bool (win_rate b) 0.15) eqn:E;
          [|reflexivity].
        apply Qle_bool_iff in E. lra. }
    clearbody good.
    intros [= <-]. cbn [best_bin worst_bin min_good_confidence].
    destruct (max_by_win_rate_spec rest b0) as [X1 X2].
    destruct (min_by_win_rate_spec rest b0) as [N1 N2].
    split; [assumption|]. split; [assumption|]. split; [now split; auto|].
    destruct good as [|g gs]; cbn [map].
    + split; [|discriminate]. split; [|reflexivity]. intros _ b Hb.
      apply Qnot_lt_le. intros L. apply (proj2 (G b)). now split.
    + split.
      * split; [discriminate|]. intros H. exfalso.
        destruct (proj1 (G g) (or_introl eq_refl)) as [H1 H2].
        specialize (H g H1). lra.
      * intros c [= <-].
        destruct (min_from_spec (map avg_confidence gs) (avg_confidence g))
          as [M1 M2].
        change (avg_confidence g :: map avg_confidence gs)
          with (map avg_confidence (g :: gs)) in M1, M2.
        split.
        -- apply in_map_iff in M1. destruct M1 as (b & Eb & Hb).
           apply G in Hb. destruct Hb as [Hb1 Hb2].
           exists b. now repeat split.
        -- intros b Hb Hw. apply M2. apply in_map. apply G. now split.
Qed.



End BinProperties.

Lemma simulated_confidences_miss_the_top_bin_witness :
  exists df,
    Bins.simulate_confidence_levels [Samples.crowded_row] = Return df
    /\ List.length df = 1%nat
    /\ ConfidenceWinRate.SIMULATED_CONFIDENCE
         (hd (ConfidenceWinRate.mkRow 0 0) df) = 0.95.
Proof.
  eexists. split; [reflexivity|]. split; [|reflexivity].
  exact (proj1 (proj2 (simulated_confidences_miss_the_top_bin
                         [Samples.crowded_row] _ eq_refl))).
Defined.

(** ** The live extractor: numbers on neighbouring lines *)

Section NeighbouringLines.

Import PyTime PyStr Live.
Local Open Scope string_scope.
Local Open Scope list_scope.

Lemma scan_decimal_raises (key label line : string) (old : option Q)
    (g : list string) (e : exn) :
  contains key line = true ->
  Re.search (Re.decimal_field_re label) line = Some g ->
  PyNum.float_of_string (Re.part 1 g) = Raise e ->
  scan_decimal key label line old = Raise e.
Proof.
  intros C S F. unfold scan_decimal. now rewrite C, S, F.
Qed.

Lemma scan_details_raises (l : string) (ls : list string) :
  (forall d, exists e, scan_detail_line d l = Raise e) ->
  In l ls ->
  forall d, exists e, scan_details d ls = Raise e.
Proof.
  intros H. induction ls as [|x ls IH]; intros Hin d; [destruct Hin|].
  simpl. destruct Hin as [->|Hin].
  - destruct (H d) as [e ->]. now exists e.
  - destruct (scan_detail_line d x) as [d'|e]; simpl; [now apply IH|].
    now exists e.
Qed.

(** X26: a number that [float] rejects after [Entry:], [Stop Loss:],
    [Take Profit:] or [Risk/Reward:], on any line of the window of a
    "trade executed" line (from five lines before to nine lines after its
    first occurrence), drops the whole trade: [_parse_executed_trade]
    returns nothing and the line adds no intention.  The pattern takes
    digits and dots, so a price followed by a full stop is such a
    number. *)
Theorem unreadable_number_nearby_drops_the_trade
    (now : datetime) (line : string) (all_lines : list string)
    (l key label : string) (g : list string) (e : exn) :
  In l (window line all_lines) ->
  In (key, label)
     [("Entry:", "Entry: "); ("Stop Loss:", "Stop Loss: ");
      ("Take Profit:", "Take Profit: "); ("Risk/Reward:", "Risk/Reward: ")] ->
  contains key l = true ->
  Re.search (Re.decimal_field_re label) l = Some g ->
  PyNum.float_of_string (Re.part 1 g) = Raise e ->
  _parse_executed_trade now line all_lines = None
  /\ (contains EXECUTED_MARKER line = true ->
      forall intentions,
        Live.parse_line now all_lines intentions line = intentions).
Proof.
  intros Hin Hk C S F.
  assert (R : forall d, exists e', scan_detail_line d l = Raise e').
  { intros d. unfold scan_detail_line.
    pose proof (fun old => scan_decimal_raises key label l old g e C S F)
      as Hr.
    destruct Hk as [[= <- <-]|[[= <- <-]|[[= <- <-]|[[= <- <-]|[]]]]].
    - rewrite Hr. now exists e.
    - destruct (scan_decimal "Entry:" _ _ _) as [?|e1]; simpl;
        [|now exists e1].
      rewrite Hr. now exists e.
    - destruct (scan_decimal "Entry:" _ _ _) as [?|e1]; simpl;
        [|now exists e1].
      destruct (scan_decimal "Stop Loss:" _ _ _) as [?|e2]; simpl;
        [|now exists e2].
      rewrite Hr. now exists e.
    - destruct (scan_decimal "Entry:" _ _ _) as [?|e1]; simpl;
        [|now exists e1].
      destruct (scan_decimal "Stop Loss:" _ _ _) as [?|e2]; simpl;
        [|now exists e2].
      destruct (scan_decimal "Take Profit:" _ _ _) as [?|e3]; simpl;
        [|now exists e3].
      destruct (scan_units _ _) as [?|e4]; simpl; [|now exists e4].
      rewrite Hr. now exists e. }
  assert (N : _parse_executed_trade now line all_lines = None).
  { unfold _parse_executed_trade, parse_executed_trade_body.
    destruct (scan_details_raises l _ R Hin no_details) as [e' ->].
    reflexivity. }
  split; [assumption|]. intros M intentions.
  unfold Live.parse_line. now rewrite M, N.
Qed.

End NeighbouringLines.

Lemma unreadable_number_nearby_drops_the_trade_witness :
  Live.parse_bot_intentions Examples.now0
    (Samples.marker_with_pair ++ PyStr.newline
     ++ Samples.entry_with_full_stop)%string
  = []
  /\ Live._parse_executed_trade Examples.now0 Samples.marker_with_pair
       [Samples.marker_with_pair; Samples.entry_with_full_stop]
     = None.
Proof.
  split; [reflexivity|].
  exact (proj1 (unreadable_number_nearby_drops_the_trade Examples.now0
                  Samples.marker_with_pair
                  [Samples.marker_with_pair; Samples.entry_with_full_stop]
                  Samples.entry_with_full_stop "Entry:" "Entry: "
                  ["Entry: "; "1.15200."]%string ValueError
                  (or_intror (or_introl eq_refl)) (or_introl eq_refl)
                  eq_refl eq_refl eq_refl)).
Defined.
